(** * The credit ledger and redeem codes of tg_phone_lookup_bot_credits.py

    A shallow embedding of the bot's persistent store (the [users] and
    [codes] tables), of the functions that read and write it, and of the
    command handlers that call them, followed by the properties of the
    ledger and of the code registry.

    Conventions of the embedding:
    - the sqlite connection [DB] is the record [db]: what the one
      connection of the process reads, its writes that are not yet committed
      included; it is threaded through a state and exception monad [M];
      each table is a finite map keyed by its primary key;
    - Python integers are [Z]; an integer bound to a statement must fit
      sqlite's 64-bit INTEGER, or the call raises OverflowError and the
      statement is not run;
    - a nullable column is an [option]; Python's [None] is Rocq's [None];
    - the clock ([date.today], [now_iso]), the random token
      ([secrets.token_urlsafe]) and the answer of the lookup service are
      inputs of the functions that consult them;
    - what Python does with the characters of a [str] (iterating it,
      [str.isdigit], [str.strip], [int]) is taken as given, since it rests on
      the Unicode tables: the class [PyText] and the parameter [py_int];
    - the text of a reply is abstracted to a constructor of [reply] carrying
      the values the text is formatted from. *)

From stdpp Require Import gmap strings list fin_maps sorting pretty.
From Stdlib Require Import ZArith Lia.

#[local] Set Warnings "-register-all".
Local Open Scope Z_scope.

(** ** Configuration *)

Definition DAILY_FREE_CREDITS : Z := 30.
Definition CREDIT_COST_PER_LOOKUP : Z := 1.

(** ** The store *)

(** A row of [users]; the key [user_id] is the key of the map. *)
Record user_row := UserRow {
  credits : Z;
  last_topup_date : option string
}.

(** A row of [codes]; the key [code] is the key of the map. *)
Record code_row := CodeRow {
  amount : Z;
  created_by : Z;
  created_at : string;
  used_by : option Z;
  used_at : option string
}.

Record db := Db {
  users : gmap Z user_row;
  codes : gmap string code_row
}.

(** [init_db] on a fresh file: both tables exist and are empty. *)
Definition init_db : db := Db ∅ ∅.

(** ** Results and the store monad *)

Inductive exn :=
| IntegrityError    (* sqlite3.IntegrityError: PRIMARY KEY constraint *)
| OverflowError.    (* Python int too large to convert to SQLite INTEGER *)

Inductive outcome (A : Type) :=
| Returns (a : A)
| Raises (e : exn).
Arguments Returns {A} a.
Arguments Raises {A} e.

(** A computation on the store: it returns or raises, and leaves a store
    either way (whatever it wrote before it raised stays written). *)
Definition M (A : Type) : Type := db -> outcome A * db.

#[global] Instance M_ret : MRet M := fun A (a : A) d => (Returns a, d).
#[global] Instance M_bind : MBind M :=
  fun A B (f : A -> M B) (m : M A) d =>
    match m d with
    | (Returns a, d') => f a d'
    | (Raises e, d') => (Raises e, d')
    end.

(** What a computation returns or raises, and the store it leaves. *)
Definition result_of {A} (m : M A) (d : db) : outcome A := (m d).1.
Definition store_of {A} (m : M A) (d : db) : db := (m d).2.

(** [try: ... except Exception: ...] around [m]: the outcome, as a value. *)
Definition attempt {A} (m : M A) : M (outcome A) :=
  fun d => let '(r, d') := m d in (Returns r, d').

(** *** Integers of the store *)

Definition INT64_MIN : Z := -9223372036854775808.
Definition INT64_MAX : Z := 9223372036854775807.

Definition fits (z : Z) : bool := (INT64_MIN <=? z) && (z <=? INT64_MAX).

(** Binding a Python int to a parameter of a statement. *)
Definition bind_int (z : Z) : M unit :=
  fun d => if fits z then (Returns tt, d) else (Raises OverflowError, d).

(** A statement that reads, and one that writes. *)
Definition query {A} (f : db -> A) : M A := fun d => (Returns (f d), d).
Definition execute (f : db -> db) : M unit := fun d => (Returns tt, f d).
Definition raise {A} (e : exn) : M A := fun d => (Raises e, d).

(** *** The SQL statements the program issues *)

(* SELECT ... FROM users WHERE user_id = ? *)
Definition select_user (user_id : Z) : M (option user_row) :=
  bind_int user_id;;
  query (fun d => users d !! user_id).

(* INSERT INTO users (user_id, credits, last_topup_date) VALUES (?, ?, ?);
   every call site has just seen that the key is absent. *)
Definition insert_user (user_id : Z) (c : Z) (t : option string) : M unit :=
  bind_int user_id;;
  bind_int c;;
  execute (fun d => Db (<[user_id := UserRow c t]> (users d)) (codes d)).

(* UPDATE users SET credits = ? WHERE user_id = ? *)
Definition update_credits (user_id : Z) (c : Z) : M unit :=
  bind_int c;;
  bind_int user_id;;
  execute (fun d =>
    Db (alter (fun r => UserRow c (last_topup_date r)) user_id (users d)) (codes d)).

(* UPDATE users SET credits = ?, last_topup_date = ? WHERE user_id = ? *)
Definition update_credits_topup (user_id : Z) (c : Z) (t : string) : M unit :=
  bind_int c;;
  bind_int user_id;;
  execute (fun d =>
    Db (alter (fun _ => UserRow c (Some t)) user_id (users d)) (codes d)).

(* SELECT amount, used_by FROM codes WHERE code = ? *)
Definition select_code (code : string) : M (option code_row) :=
  query (fun d => codes d !! code).

(* INSERT INTO codes ... VALUES (?, ?, ?, ?, NULL, NULL); the primary key
   rejects a code that is already there. *)
Definition insert_code (code : string) (a by_ : Z) (at_ : string) : M unit :=
  bind_int a;;
  bind_int by_;;
  r ← query (fun d => codes d !! code);
  match r with
  | Some _ => raise IntegrityError
  | None =>
      execute (fun d =>
        Db (users d) (<[code := CodeRow a by_ at_ None None]> (codes d)))
  end.

(* UPDATE codes SET used_by = ?, used_at = ? WHERE code = ? *)
Definition update_code_used (code : string) (u : Z) (at_ : string) : M unit :=
  bind_int u;;
  execute (fun d =>
    Db (users d)
       (alter (fun r => CodeRow (amount r) (created_by r) (created_at r)
                                (Some u) (Some at_)) code (codes d))).

(** ** DB helpers *)

Definition ensure_user_sync (user_id : Z) : M unit :=
  r ← select_user user_id;
  match r with
  | None => insert_user user_id 0 None
  | Some _ => mret tt
  end.

Definition topup_if_needed_sync (today : string) (user_id : Z) : M Z :=
  r ← select_user user_id;
  match r with
  | None =>
      insert_user user_id DAILY_FREE_CREDITS (Some today);;
      mret DAILY_FREE_CREDITS
  | Some (UserRow c last_date) =>
      if bool_decide (last_date ≠ Some today) then
        let new_credits := c + DAILY_FREE_CREDITS in
        update_credits_topup user_id new_credits today;;
        mret new_credits
      else mret c
  end.

Definition get_credits_sync (user_id : Z) : M Z :=
  r ← select_user user_id;
  mret (match r with Some row => credits row | None => 0 end).

Definition change_credits_sync (user_id : Z) (delta : Z) : M Z :=
  r ← select_user user_id;
  match r with
  | None =>
      insert_user user_id (Z.max 0 delta) None;;
      mret (Z.max 0 delta)
  | Some row =>
      let new := Z.max 0 (credits row + delta) in
      update_credits user_id new;;
      mret new
  end.

(** ** Code generation and redeem *)

Definition generate_code_sync (token created_at_ : string) (amount_ created_by_ : Z)
  : M string :=
  insert_code token amount_ created_by_ created_at_;;
  mret token.

(** The pair [redeem_code_sync] returns: a flag and either a message or
    the amount. *)
Definition redeem_result : Type := bool * (string + Z).

Definition CodeNotFound : redeem_result := (false, inl "Code not found"%string).
Definition CodeAlreadyUsed : redeem_result := (false, inl "Code already used"%string).
Definition Redeemed (a : Z) : redeem_result := (true, inr a).

Definition redeem_code_sync (used_at_ : string) (code : string) (user_id : Z)
  : M redeem_result :=
  r ← select_code code;
  match r with
  | None => mret CodeNotFound
  | Some row =>
      match used_by row with
      | Some _ => mret CodeAlreadyUsed
      | None =>
          update_code_used code user_id used_at_;;
          rr ← select_user user_id;
          match rr with
          | None => insert_user user_id (amount row) None
          | Some urow => update_credits user_id (credits urow + amount row)
          end;;
          mret (Redeemed (amount row))
      end
  end.

(** ** The coroutines

    Each one runs its body while holding [DB_LOCK]. Run one after the
    other they are their bodies; the lock itself is modelled where the
    calls of several tasks interleave (module [Race]). *)

Definition ensure_user (user_id : Z) : M unit := ensure_user_sync user_id.

Definition topup_if_needed (today : string) (user_id : Z) : M Z :=
  topup_if_needed_sync today user_id.

Definition get_credits (user_id : Z) : M Z :=
  ensure_user_sync user_id;; get_credits_sync user_id.

Definition change_credits (user_id : Z) (delta : Z) : M Z :=
  ensure_user_sync user_id;; change_credits_sync user_id delta.

Definition generate_code (token created_at_ : string) (amount_ created_by_ : Z)
  : M string :=
  generate_code_sync token created_at_ amount_ created_by_.

Definition redeem_code (used_at_ : string) (code : string) (user_id : Z)
  : M redeem_result :=
  redeem_code_sync used_at_ code user_id.

(** The balance the ledger holds for a user: the credits of the row, 0
    without a row. *)
Definition balance (d : db) (user_id : Z) : Z :=
  match users d !! user_id with Some row => credits row | None => 0 end.

(** ** Sequences of ledger and registry calls *)

Inductive op :=
| OpEnsure (user_id : Z)
| OpTopup (today : string) (user_id : Z)
| OpGetCredits (user_id : Z)
| OpChange (user_id : Z) (delta : Z)
| OpGenerate (token created_at_ : string) (amount_ created_by_ : Z)
| OpRedeem (used_at_ : string) (code : string) (user_id : Z).

Definition run_op (o : op) (d : db) : db :=
  match o with
  | OpEnsure u => store_of (ensure_user u) d
  | OpTopup today u => store_of (topup_if_needed today u) d
  | OpGetCredits u => store_of (get_credits u) d
  | OpChange u delta => store_of (change_credits u delta) d
  | OpGenerate token at_ a by_ => store_of (generate_code token at_ a by_) d
  | OpRedeem at_ code u => store_of (redeem_code at_ code u) d
  end.

Definition run_ops (os : list op) (d : db) : db := foldl (fun d o => run_op o d) d os.

(** The call redeems [code]. *)
Definition redeems (code : string) (o : op) : bool :=
  match o with
  | OpRedeem _ c _ => bool_decide (c = code)
  | _ => false
  end.

(** The call is not an issuance, or issues a positive amount: the calls the
    /code handler makes. *)
Definition issues_positive (o : op) : bool :=
  match o with
  | OpGenerate _ _ a _ => bool_decide (0 < a)
  | _ => true
  end.

(** The date of the last grant of a user; [None] for a null column and for
    a user without a row. *)
Definition last_topup (d : db) (user_id : Z) : option string :=
  users d !! user_id ≫= last_topup_date.

(** Every account holds a balance that is not negative; every code carries
    an amount that is not negative. *)
Definition credits_nonneg (d : db) : Prop :=
  forall u row, users d !! u = Some row -> 0 <= credits row.

Definition amounts_nonneg (d : db) : Prop :=
  forall c row, codes d !! c = Some row -> 0 <= amount row.


(** Every integer the store holds is one sqlite holds in an INTEGER column:
    it fits 64 bits. *)
Definition int64_store (d : db) : Prop :=
  (forall u row, users d !! u = Some row -> fits u = true /\ fits (credits row) = true) /\
  (forall c row, codes d !! c = Some row ->
     fits (amount row) = true /\ fits (created_by row) = true /\
     forall w, used_by row = Some w -> fits w = true).
(** ** The answer of the lookup service *)

(** A value decoded from JSON. A dict is the list of its items, each key
    once. Of a float the handler only ever observes whether it is zero. *)
Inductive json :=
| JNull
| JBool (b : bool)
| JInt (n : Z)
| JFloat (nonzero : bool)
| JStr (s : string)
| JList (items : list json)
| JDict (items : list (string * json)).

(** [d.get(k)] *)
Fixpoint dict_get (k : string) (items : list (string * json)) : option json :=
  match items with
  | [] => None
  | (k', v) :: rest => if String.eqb k' k then Some v else dict_get k rest
  end.

(** [k in d] *)
Definition dict_has (k : string) (items : list (string * json)) : bool :=
  match dict_get k items with Some _ => true | None => false end.

(** Python's truth value of a decoded value, and of [d.get(k)]. *)
Definition truthy (v : json) : bool :=
  match v with
  | JNull => false
  | JBool b => b
  | JInt n => negb (n =? 0)
  | JFloat nonzero => nonzero
  | JStr s => negb (String.eqb s "")
  | JList items => match items with [] => false | _ => true end
  | JDict items => match items with [] => false | _ => true end
  end.

Definition truthy_get (k : string) (items : list (string * json)) : bool :=
  match dict_get k items with Some v => truthy v | None => false end.

(** [d.get(k) == s] for a string literal [s] *)
Definition get_equals (k : string) (items : list (string * json)) (s : string) : bool :=
  match dict_get k items with Some (JStr s') => String.eqb s' s | _ => false end.

(** What the HTTP request gives: it raises (timeout, connection error), or
    answers with a status and a body; [None] is a body [resp.json()] raises
    on. *)
Inductive http_result :=
| HttpRaises
| HttpResponse (status : Z) (body : option json).

(** ** Replies *)

Inductive reply :=
| RNumUsage                         (* Usage: /num 7986782429 *)
| RNumDigits                        (* Please provide a 10 or 12 digit mobile number *)
| RInsufficient (credits_ : Z)      (* You have insufficient credits ({credits}) *)
| RLookingUp (query_num : string)   (* Looking up {query_num} ... *)
| RApiStatus (status : Z)           (* API returned status {resp.status}. *)
| RNoResult                         (* NO RESULT FOUND *)
| RApiError (message : option json) (* API Error: {data.get('message')} *)
| RUnexpectedStructure              (* Unexpected API response structure. *)
| RUnexpectedFormat                 (* Unexpected API response format. *)
| RRecord (rec : json) (idx : nat)  (* style_record_block(rec, idx) *)
| RFooterAdmin                      (* MADE BY ... (ADMIN) *)
| RFooter (rem : Z)                 (* MADE BY ... Remaining credits: {rem} *)
| RErrorCallingApi                  (* Error calling API: {e} *)
| RCodeOnlyAdmin                    (* Only admin can create codes. *)
| RCodeUsage                        (* Usage: /code <amount> *)
| RCodePositive                     (* Provide a positive integer amount. *)
| RCodeCreated (token : string) (amount_ : Z)   (* Code created: ... *)
| RCreditsAdmin                     (* You are an ADMIN - unlimited usage. *)
| RCredits (credits_ : Z)           (* Your credits: {credits} *)
| RRedeemUsage                      (* Usage: /redeem CODE *)
| RRedeemed (info : string + Z)     (* Code applied. You received {info} credits. *)
| RRedeemFailed (info : string + Z). (* Redeem failed: {info} *)

(** What a handler does that the outside sees, in order. *)
Inductive event :=
| Reply (r : reply)
| HttpGet (query_num : string).

(** ** Formatting *)

Definition record_fields : list string :=
  ["mobile"; "alt_mobile"; "name"; "father_name"; "circle"; "id_number";
   "address"; "email"]%string.

(** [(rec.get(k) or "").strip()] raises AttributeError on a true value that
    is not a string. *)
Definition strippable (k : string) (items : list (string * json)) : bool :=
  match dict_get k items with
  | Some (JStr _) => true
  | Some v => negb (truthy v)
  | None => true
  end.

(** [style_record_block]: the block, or [None] when it raises. *)
Definition style_record_block (rec : json) (idx : nat) : option reply :=
  match rec with
  | JDict items =>
      if forallb (fun k => strippable k items) record_fields
      then Some (RRecord rec idx) else None
  | _ => None
  end.

(** ** Text of a command argument

    A Python [str] is a sequence of Unicode characters, and [str.isdigit]
    and [str.strip] follow the Unicode tables (a superscript two and an
    Arabic-Indic seven are digits, a no-break space is stripped). What the
    handlers need of them is an interface; the properties below hold for
    every implementation of it. *)

Class PyText := {
  py_char : Type;                       (* a character of a str *)
  py_chars : string -> list py_char;    (* for ch in s *)
  py_join : list py_char -> string;     (* "".join(chs) *)
  py_isdigit : py_char -> bool;         (* ch.isdigit() *)
  py_strip : string -> string;          (* s.strip() *)
  py_upper : string -> string           (* s.upper() *)
}.

(** The digits kept of the argument of /num, and the text they make:
    ["".join(ch for ch in raw_num if ch.isdigit())]; its [len] is the
    number of characters joined. *)
Definition digit_chars {text : PyText} (raw_num : string) : list py_char :=
  List.filter py_isdigit (py_chars raw_num).

Definition digits_of {text : PyText} (raw_num : string) : string :=
  py_join (digit_chars raw_num).

(** The same operations on text that is ASCII only, where a character is a
    byte: the digits are 0-9 and the white space is what [bytes.isspace]
    and the separators 0x1c-0x1f make. *)
Definition ascii_isdigit (c : Ascii.ascii) : bool :=
  ((48 <=? Ascii.nat_of_ascii c) && (Ascii.nat_of_ascii c <=? 57))%nat.

Definition ascii_isspace (c : Ascii.ascii) : bool :=
  let n := Ascii.nat_of_ascii c in
  (((9 <=? n) && (n <=? 13)) || ((28 <=? n) && (n <=? 32)))%nat.

Fixpoint ascii_lstrip (s : list Ascii.ascii) : list Ascii.ascii :=
  match s with
  | c :: rest => if ascii_isspace c then ascii_lstrip rest else s
  | [] => []
  end.

Definition ascii_strip (s : string) : string :=
  String.string_of_list_ascii
    (rev (ascii_lstrip (rev (ascii_lstrip (String.list_ascii_of_string s))))).

Definition ascii_upper_char (c : Ascii.ascii) : Ascii.ascii :=
  let n := Ascii.nat_of_ascii c in
  if ((97 <=? n) && (n <=? 122))%nat then Ascii.ascii_of_nat (n - 32) else c.

Fixpoint ascii_upper (s : string) : string :=
  match s with
  | EmptyString => EmptyString
  | String c rest => String (ascii_upper_char c) (ascii_upper rest)
  end.

Definition ascii_text : PyText := {|
  py_char := Ascii.ascii;
  py_chars := String.list_ascii_of_string;
  py_join := String.string_of_list_ascii;
  py_isdigit := ascii_isdigit;
  py_strip := ascii_strip;
  py_upper := ascii_upper
|}.

(** ** Bot command handlers *)

Section Handlers.

(** The configured admins, Python's [int] on a string ([None] when it
    raises ValueError), and the operations on text. A handler that raises
    has sent no reply: every raise outside the [try] of [num_cmd] comes
    before the first reply of its handler. *)
Variable ADMIN_IDS : list Z.
Variable py_int : string -> option Z.
Context {text : PyText}.

(** The normalisation of the decoded answer: the list of records, or the
    reply the handler returns with. *)
Definition unwrap (data : json) : reply + list json :=
  match data with
  | JDict items =>
      match dict_get "data" items with
      | Some (JList inner) => inr inner
      | Some (JDict inner) => inr [JDict inner]
      | _ =>
          if existsb (fun k => dict_has k items)
               ["mobile"; "name"; "alt_mobile"; "id_number"; "address"; "email"]%string
          then inr [data]
          else if get_equals "message" items "No records found" then inl RNoResult
          else if get_equals "status" items "error"
          then inl (RApiError (dict_get "message" items))
          else inl RUnexpectedStructure
      end
  | JList items => inr items
  | _ => inl RUnexpectedFormat
  end.

Definition keep_record (rec : json) : bool :=
  match rec with
  | JDict items => existsb (fun k => truthy_get k items) record_fields
  | _ => false
  end.

Definition filter_records (data_list : list json) : list json :=
  List.filter keep_record data_list.

(** The loop that sends the blocks, from index [idx]: the replies sent and
    whether the loop finished without raising. *)
Fixpoint send_results (recs : list json) (idx : nat) : list event * bool :=
  match recs with
  | [] => ([], true)
  | rec :: rest =>
      match style_record_block rec idx with
      | None => ([], false)
      | Some block =>
          let '(evs, ok) := send_results rest (S idx) in (Reply block :: evs, ok)
      end
  end.

(** The body of the [try] with its [except Exception]: after the request
    has been made. Whatever raises inside is answered with the error reply,
    after the replies already sent. *)
Definition after_request (user_id : Z) (is_admin : bool) (resp : http_result)
  : M (list event) :=
  match resp with
  | HttpRaises => mret [Reply RErrorCallingApi]
  | HttpResponse status body =>
      if bool_decide (status ≠ 200) then mret [Reply (RApiStatus status)]
      else match body with
      | None => mret [Reply RErrorCallingApi]
      | Some data =>
          match unwrap data with
          | inl r => mret [Reply r]
          | inr data_list =>
              let filtered_list := filter_records data_list in
              match filtered_list with
              | [] => mret [Reply RNoResult]
              | _ :: _ =>
                  charged ← attempt
                    (if negb is_admin
                     then change_credits user_id (- CREDIT_COST_PER_LOOKUP);; mret tt
                     else mret tt);
                  match charged with
                  | Raises _ => mret [Reply RErrorCallingApi]
                  | Returns _ =>
                      let '(blocks, ok) := send_results filtered_list 1 in
                      if ok then
                        footer ← attempt
                          (if is_admin then mret RFooterAdmin
                           else rem ← get_credits user_id; mret (RFooter rem));
                        match footer with
                        | Returns f => mret (blocks ++ [Reply f])
                        | Raises _ => mret (blocks ++ [Reply RErrorCallingApi])
                        end
                      else mret (blocks ++ [Reply RErrorCallingApi])
                  end
              end
          end
      end
  end.

Definition num_cmd (user_id : Z) (args : list string) (today : string)
    (resp : http_result) : M (list event) :=
  match args with
  | [] => mret [Reply RNumUsage]
  | arg0 :: _ =>
      let raw_num := py_strip arg0 in
      let num_digits := digits_of raw_num in
      if negb (bool_decide (length (digit_chars raw_num) ∈ [10; 12]%nat))
      then mret [Reply RNumDigits]
      else
        let is_admin := bool_decide (user_id ∈ ADMIN_IDS) in
        ensure_user user_id;;
        topup_if_needed today user_id;;
        short ← (if negb is_admin then
                   c ← get_credits user_id;
                   mret (if c <? CREDIT_COST_PER_LOOKUP then Some c else None)
                 else mret None);
        match short with
        | Some c => mret [Reply (RInsufficient c)]
        | None =>
            evs ← after_request user_id is_admin resp;
            mret (Reply (RLookingUp num_digits) :: HttpGet num_digits :: evs)
        end
  end.

Definition credits_cmd (user_id : Z) (today : string) : M (list event) :=
  ensure_user user_id;;
  topup_if_needed today user_id;;
  c ← get_credits user_id;
  let is_admin := bool_decide (user_id ∈ ADMIN_IDS) in
  if is_admin then mret [Reply RCreditsAdmin] else mret [Reply (RCredits c)].

Definition redeem_cmd (user_id : Z) (args : list string) (now : string)
  : M (list event) :=
  match args with
  | [] => mret [Reply RRedeemUsage]
  | arg0 :: _ =>
      let code := py_strip arg0 in
      r ← redeem_code now code user_id;
      let '(ok, info) := (r : redeem_result) in
      if ok then mret [Reply (RRedeemed info)] else mret [Reply (RRedeemFailed info)]
  end.

Definition code_cmd (user_id : Z) (args : list string) (token now : string)
  : M (list event) :=
  if bool_decide (user_id ∉ ADMIN_IDS) then mret [Reply RCodeOnlyAdmin]
  else match args with
  | [] => mret [Reply RCodeUsage]
  | arg0 :: _ =>
      match py_int arg0 with
      | None => mret [Reply RCodePositive]
      | Some amount_ =>
          if bool_decide (amount_ ≤ 0) then mret [Reply RCodePositive]
          else
            tok ← generate_code token now amount_ user_id;
            mret [Reply (RCodeCreated tok amount_)]
      end
  end.

End Handlers.

(** ** Updates

    The commands that write to the store, with what each run of a handler
    takes from outside: the clock, the token, the answer of the lookup. (The
    handlers of /start and /codes write nothing.) The bot handles one update
    at a time. *)

Inductive update :=
| UCredits (user_id : Z) (today : string)
| URedeem (user_id : Z) (args : list string) (now : string)
| UCode (user_id : Z) (args : list string) (token now : string)
| UNum (user_id : Z) (args : list string) (today : string) (resp : http_result).

Definition handle {text : PyText} (ADMIN_IDS : list Z) (py_int : string -> option Z)
    (upd : update) (d : db) : db :=
  match upd with
  | UCredits u today => store_of (credits_cmd ADMIN_IDS u today) d
  | URedeem u args now => store_of (redeem_cmd u args now) d
  | UCode u args token now => store_of (code_cmd ADMIN_IDS py_int u args token now) d
  | UNum u args today resp => store_of (num_cmd ADMIN_IDS u args today resp) d
  end.

Definition handle_all {text : PyText} (ADMIN_IDS : list Z) (py_int : string -> option Z)
    (upds : list update) (d : db) : db :=
  foldl (fun d upd => handle ADMIN_IDS py_int upd d) d upds.

(** What the lookup gave the handler to show: the filtered records, empty
    when the request failed, the answer was not usable or no record was
    left. *)
Definition usable_result (resp : http_result) : list json :=
  match resp with
  | HttpResponse status (Some data) =>
      if bool_decide (status ≠ 200) then []
      else match unwrap data with
           | inr data_list => filter_records data_list
           | inl _ => []
           end
  | _ => []
  end.

(** The store after the first two awaits of [num_cmd]: the account ensured
    and the daily grant applied if due. *)
Definition gate_store (today : string) (user_id : Z) (d : db) : db :=
  store_of (topup_if_needed today user_id) (store_of (ensure_user user_id) d).

(** The same two awaits as one computation: what they return or raise. *)
Definition gate (today : string) (user_id : Z) : M Z :=
  ensure_user user_id;; topup_if_needed today user_id.

(** The argument of /num has 10 or 12 digits. *)
Definition valid_number {text : PyText} (arg0 : string) : Prop :=
  length (digit_chars (py_strip arg0)) ∈ [10; 12]%nat.

(** ** Concurrent redeem calls

    Tasks that each run [redeem_code(code, user_id)] on one event loop. A
    task is suspended only where it awaits: at [async with DB_LOCK], until
    the lock is free. The body, [redeem_code_sync], awaits nothing, so it
    runs to its end, returning or raising, and the lock is released in one
    step. Which waiting task gets a free lock is left open: every order of
    acquisition is a run. *)

Module Race.

Inductive phase :=
| Waiting                     (* before [async with DB_LOCK] *)
| Holding                     (* the lock is acquired, the body not yet run *)
| Done (r : outcome redeem_result).
                              (* the body has run and the lock is released *)

Record task := Task { caller : Z; at_phase : phase }.

Record state := State { store : db; locked : bool; tasks : list task }.

Definition start (d : db) (callers : list Z) : state :=
  State d false (map (fun u => Task u Waiting) callers).

Inductive step (code : string) : state -> state -> Prop :=
| step_acquire d ts i u :
    ts !! i = Some (Task u Waiting) ->
    step code (State d false ts) (State d true (<[i := Task u Holding]> ts))
| step_body d ts i u now :
    ts !! i = Some (Task u Holding) ->
    step code (State d true ts)
      (State (store_of (redeem_code_sync now code u) d) false
         (<[i := Task u (Done (result_of (redeem_code_sync now code u) d))]> ts)).

Definition is_done (t : task) : bool :=
  match at_phase t with Done _ => true | _ => false end.

(** Every call has returned. *)
Definition finished (s : state) : bool := forallb is_done (tasks s).

Definition succeeded (t : task) : bool :=
  match at_phase t with Done (Returns (true, _)) => true | _ => false end.

Definition lost (t : task) : bool :=
  match at_phase t with
  | Done (Returns (false, inl msg)) => String.eqb msg "Code already used"
  | _ => false
  end.

(** Steps a task still has to take, and their sum over the tasks. *)
Definition remaining (t : task) : nat :=
  match at_phase t with Waiting => 2 | Holding => 1 | Done _ => 0 end.

Definition work (s : state) : nat := sum_list (map remaining (tasks s)).

(** What holds of every state of a run from [start d0 callers], when [d0]
    has the code unused with row [row]: the tasks are the callers'; the
    lock is held by exactly the one task in its body, if any; and either
    nobody has returned and the store is [d0], or one task has returned
    the amount, the store is the one its redeem left, and every other task
    that has returned has returned "Code already used". *)
Definition lock_ok (s : state) : Prop :=
  if locked s
  then exists i u, tasks s !! i = Some (Task u Holding) /\
                   forall j v, tasks s !! j = Some (Task v Holding) -> j = i
  else forall j v, tasks s !! j ≠ Some (Task v Holding).

Definition untouched (d0 : db) (s : state) : Prop :=
  store s = d0 /\ forall j t, tasks s !! j = Some t -> is_done t = false.

Definition won (code : string) (d0 : db) (row : code_row) (s : state) : Prop :=
  exists i u now,
    tasks s !! i = Some (Task u (Done (Returns (Redeemed (amount row))))) /\
    store s = store_of (redeem_code_sync now code u) d0 /\
    forall j t, j ≠ i -> tasks s !! j = Some t ->
      at_phase t = Waiting \/ at_phase t = Holding \/ at_phase t = Done (Returns CodeAlreadyUsed).

Definition inv (code : string) (d0 : db) (row : code_row) (callers : list Z)
    (s : state) : Prop :=
  map caller (tasks s) = callers /\ lock_ok s /\
  (untouched d0 s \/ won code d0 row s).

End Race.


(** ** What a call may write *)

(** The user whose row a call may write, and the code whose row it may
    write. *)
Definition op_user (o : op) : option Z :=
  match o with
  | OpEnsure u | OpTopup _ u | OpGetCredits u | OpChange u _ | OpRedeem _ _ u => Some u
  | OpGenerate _ _ _ _ => None
  end.

Definition op_code (o : op) : option string :=
  match o with
  | OpGenerate token _ _ _ => Some token
  | OpRedeem _ code _ => Some code
  | _ => None
  end.

(** The daily grant asked for on each date of a list, in turn. *)
Definition topup_on (dates : list string) (user_id : Z) (d : db) : db :=
  foldl (fun d today => store_of (topup_if_needed today user_id) d) d dates.

(** No date of the list is the date just before it, and the first is not
    [last]. *)
Fixpoint changes_each_time (last : option string) (dates : list string) : bool :=
  match dates with
  | [] => true
  | today :: rest =>
      negb (bool_decide (last = Some today)) && changes_each_time (Some today) rest
  end.


(** ** Requests among the events *)

Definition is_request (e : event) : bool :=
  match e with HttpGet _ => true | Reply _ => false end.

(** What a handler did that the outside saw: a handler that raised did
    nothing of the kind. *)
Definition sent (r : outcome (list event)) : list event :=
  match r with Returns evs => evs | Raises _ => [] end.

(** The same /num update, [n] times. *)
Definition lookups (n : nat) (user_id : Z) (arg0 : string) (today : string)
    (resp : http_result) : list update :=
  replicate n (UNum user_id [arg0] today resp).


(** ** Listing the codes *)

(** A row of the result of a SELECT on [codes]: the code and its columns. *)
Definition listed : Type := string * code_row.

(** ORDER BY created_at DESC: the first was not created before the second,
    the timestamps compared as TEXT, byte by byte. *)
Definition newer_first (x y : listed) : Prop :=
  String.leb (created_at y.2) (created_at x.2) = true.

#[global] Instance newer_first_dec (x y : listed) : Decision (newer_first x y) :=
  decide (String.leb (created_at y.2) (created_at x.2) = true).

(** [list_codes_sync]. Rows of equal [created_at] come from sqlite in the
    order of its scan of the table (by rowid), which the store does not
    record: here they come in the order the sort leaves the rows of the map
    in, and nothing below rests on the order among such rows. A negative
    LIMIT is no limit. *)
Definition list_codes_sync (limit : Z) : M (list listed) :=
  bind_int limit;;
  query (fun d =>
    let rows := merge_sort newer_first (map_to_list (codes d)) in
    if limit <? 0 then rows else take (Z.to_nat limit) rows).

Definition list_codes (limit : Z) : M (list listed) := list_codes_sync limit.

(** *** The /codes handler *)

Definition newline : string := String (Ascii.ascii_of_nat 10) "".

(** The line of one code; [str] of an integer is its decimal writing, of
    [None] it is "None". A redeemer that is null or 0 counts as none. *)
Definition code_line (r : listed) : string :=
  let '(code, row) := r in
  let used :=
    match used_by row with
    | Some by_ =>
        if by_ =? 0 then "UNUSED"
        else "USED by " +:+ pretty by_ +:+ " at "
             +:+ match used_at row with Some t => t | None => "None" end
    | None => "UNUSED"
    end in
  code +:+ " | " +:+ pretty (amount row) +:+ " credits | created_by:"
    +:+ pretty (created_by row) +:+ " | " +:+ used.

(** [range(0, stop, step)] for a positive step. *)
Definition py_range (stop step : nat) : list nat :=
  (fun k => k * step)%nat <$> seq 0 ((stop + step - 1) / step)%nat.

Definition CHUNK : nat := 3900.

(** [[text[i:i+3900] for i in range(0, len(text), 3900)]] *)
Definition chunks (text : string) : list string :=
  (fun i => String.substring i CHUNK text) <$> py_range (String.length text) CHUNK.

Inductive listing_reply :=
| LOnlyAdmin              (* Only admin can view codes. *)
| LNoCodes                (* No codes found. *)
| LChunk (text : string).

Definition codes_list_cmd (ADMIN_IDS : list Z) (user_id : Z) : M (list listing_reply) :=
  if bool_decide (user_id ∉ ADMIN_IDS) then mret [LOnlyAdmin]
  else
    rows ← list_codes 200;
    match rows with
    | [] => mret [LNoCodes]
    | _ :: _ =>
        let lines := code_line <$> rows in
        let text := String.concat newline lines in
        mret (LChunk <$> chunks text)
    end.


(** ** Grants among the calls *)

(** The call asks for the daily grant of [user_id] on [today]; on another
    date. *)
Definition grants_on (today : string) (user_id : Z) (o : op) : bool :=
  match o with
  | OpTopup t v => bool_decide (v = user_id) && bool_decide (t = today)
  | _ => false
  end.

Definition grants_on_other_day (today : string) (user_id : Z) (o : op) : bool :=
  match o with
  | OpTopup t v => bool_decide (v = user_id) && negb (bool_decide (t = today))
  | _ => false
  end.

(** Every code was issued by an admin, with a positive amount. *)
Definition issued_by_admins (ADMIN_IDS : list Z) (d : db) : Prop :=
  forall c row, codes d !! c = Some row -> created_by row ∈ ADMIN_IDS /\ 0 < amount row.




(** ** The lines of a record block *)

Inductive block_field :=
| BName | BPhone | BAltPhone | BFather | BCircle | BId | BAddress | BEmail.

(** A line of the text [style_record_block] joins: the two lines above the
    fields, a field with the value shown, the two lines below. *)
Inductive block_line :=
| BHeader (idx : nat)                        (* SCAN INITIATED: RECORD {idx} *)
| BTop
| BField (f : block_field) (value : string)  (* label : value *)
| BBottom
| BComplete.                                 (* SCAN COMPLETE *)

(** [if value: lines.append(...)] *)
Definition shown (f : block_field) (tested value : string) : list block_line :=
  if String.eqb tested "" then [] else [BField f value].

Section Blocks.

Context {text : PyText}.

(** [(rec.get(k) or "").strip()]; [None] when it raises. *)
Definition stripped (k : string) (items : list (string * json)) : option string :=
  match dict_get k items with
  | Some (JStr s) => Some (py_strip s)
  | Some v => if truthy v then None else Some (py_strip "")
  | None => Some (py_strip "")
  end.

(** [style_record_block], line by line; [None] when it raises. *)
Definition style_record_lines (rec : json) (idx : nat) : option (list block_line) :=
  match rec with
  | JDict items =>
      mobile ← stripped "mobile" items;
      alt ← stripped "alt_mobile" items;
      name ← stripped "name" items;
      father ← stripped "father_name" items;
      circle ← stripped "circle" items;
      idnum ← stripped "id_number" items;
      address ← stripped "address" items;
      email ← stripped "email" items;
      Some ([BHeader idx; BTop]
            ++ shown BName name (py_upper name)
            ++ shown BPhone mobile mobile
            ++ shown BAltPhone alt alt
            ++ shown BFather father father
            ++ shown BCircle circle circle
            ++ shown BId idnum idnum
            ++ shown BAddress address address
            ++ shown BEmail email email
            ++ [BBottom; BComplete])
  | _ => None
  end.

(** What is left of the field after stripping is empty. *)
Definition blank (k : string) (items : list (string * json)) : Prop :=
  stripped k items = Some ""%string.

End Blocks.
(** * Properties *)

(** ** Basic facts about the helpers *)

Ltac unfold_store :=
  unfold balance, last_topup, result_of, store_of,
    ensure_user, topup_if_needed, get_credits, change_credits,
    generate_code, redeem_code,
    ensure_user_sync, topup_if_needed_sync, get_credits_sync,
    change_credits_sync, generate_code_sync, redeem_code_sync,
    select_user, insert_user, update_credits, update_credits_topup,
    select_code, insert_code, update_code_used,
    bind_int, query, execute, raise, attempt,
    mbind, M_bind, mret, M_ret in *; cbn [fst snd users codes] in *.

Lemma bind_returns {A B} (m : M A) (f : A -> M B) (d d' : db) (a : A) :
  m d = (Returns a, d') -> (m ≫= f) d = f a d'.
Proof. intros H. unfold mbind, M_bind. rewrite H. reflexivity. Qed.

Lemma bind_raises {A B} (m : M A) (f : A -> M B) (d d' : db) (e : exn) :
  m d = (Raises e, d') -> (m ≫= f) d = (Raises e, d').
Proof. intros H. unfold mbind, M_bind. rewrite H. reflexivity. Qed.

Lemma ret_eq {A} (a : A) (d : db) : (mret a : M A) d = (Returns a, d).
Proof. reflexivity. Qed.

Lemma db_eq (d1 d2 : db) : users d1 = users d2 -> codes d1 = codes d2 -> d1 = d2.
Proof. destruct d1, d2; simpl; congruence. Qed.

Lemma fits_bounds (z : Z) : fits z = true <-> INT64_MIN <= z <= INT64_MAX.
Proof. unfold fits. rewrite andb_true_iff, !Z.leb_le. reflexivity. Qed.

Lemma fits_0 : fits 0 = true.
Proof. reflexivity. Qed.

Lemma balance_Some (d : db) (u : Z) row : users d !! u = Some row -> balance d u = credits row.
Proof. intros H. unfold balance. rewrite H. reflexivity. Qed.

Lemma balance_None (d : db) (u : Z) : users d !! u = None -> balance d u = 0.
Proof. intros H. unfold balance. rewrite H. reflexivity. Qed.

Lemma alter_as_insert {A} (f : A -> A) (m : gmap Z A) (u : Z) (x : A) :
  m !! u = Some x -> alter f u m = <[u := f x]> m.
Proof.
  intros E. apply map_eq. intros k. destruct (decide (u = k)) as [->|Hne].
  - rewrite lookup_alter_eq, lookup_insert_eq, E. reflexivity.
  - rewrite lookup_alter_ne, lookup_insert_ne by done. reflexivity.
Qed.

(** *** The calls, case by case *)

Lemma ensure_user_sync_eq (u : Z) (d : db) :
  ensure_user_sync u d =
  if fits u then
    (Returns tt,
     match users d !! u with
     | Some _ => d
     | None => Db (<[u := UserRow 0 None]> (users d)) (codes d)
     end)
  else (Raises OverflowError, d).
Proof.
  unfold_store. destruct (fits u); [| reflexivity].
  destruct (users d !! u); reflexivity.
Qed.

Lemma topup_if_needed_sync_eq (today : string) (u : Z) (d : db) :
  topup_if_needed_sync today u d =
  if fits u then
    if bool_decide (last_topup d u = Some today) then (Returns (balance d u), d)
    else if fits (balance d u + DAILY_FREE_CREDITS) then
      (Returns (balance d u + DAILY_FREE_CREDITS),
       Db (<[u := UserRow (balance d u + DAILY_FREE_CREDITS) (Some today)]> (users d))
          (codes d))
    else (Raises OverflowError, d)
  else (Raises OverflowError, d).
Proof.
  unfold_store. destruct (fits u) eqn:Fu; [| reflexivity].
  destruct (users d !! u) as [[c t]|] eqn:E; cbn.
  - destruct (decide (t = Some today)) as [->|Hne].
    + rewrite bool_decide_eq_false_2 by (intros H; apply H; reflexivity).
      rewrite bool_decide_eq_true_2 by reflexivity. reflexivity.
    + rewrite bool_decide_eq_true_2 by done.
      rewrite (bool_decide_eq_false_2 (t = Some today)) by done.
      destruct (fits (c + DAILY_FREE_CREDITS)); [| reflexivity].
      rewrite (alter_as_insert _ _ _ _ E). reflexivity.
  - reflexivity.
Qed.

Lemma get_credits_sync_eq (u : Z) (d : db) :
  get_credits_sync u d =
  if fits u then (Returns (balance d u), d) else (Raises OverflowError, d).
Proof. unfold_store. destruct (fits u); reflexivity. Qed.

Lemma change_credits_sync_eq (u delta : Z) (d : db) :
  change_credits_sync u delta d =
  if fits u then
    if fits (Z.max 0 (balance d u + delta)) then
      (Returns (Z.max 0 (balance d u + delta)),
       Db (<[u := UserRow (Z.max 0 (balance d u + delta)) (last_topup d u)]> (users d))
          (codes d))
    else (Raises OverflowError, d)
  else (Raises OverflowError, d).
Proof.
  unfold_store. destruct (fits u) eqn:Fu; [| reflexivity].
  destruct (users d !! u) as [[c t]|] eqn:E; cbn.
  - destruct (fits (Z.max 0 (c + delta))); [| reflexivity].
    rewrite (alter_as_insert _ _ _ _ E). reflexivity.
  - rewrite Z.add_0_l. destruct (fits (Z.max 0 delta)); reflexivity.
Qed.

Lemma generate_code_sync_eq (token at_ : string) (a by_ : Z) (d : db) :
  generate_code_sync token at_ a by_ d =
  if fits a && fits by_ then
    match codes d !! token with
    | Some _ => (Raises IntegrityError, d)
    | None =>
        (Returns token,
         Db (users d) (<[token := CodeRow a by_ at_ None None]> (codes d)))
    end
  else (Raises OverflowError, d).
Proof.
  unfold_store. destruct (fits a); [| reflexivity].
  destruct (fits by_); [| reflexivity]. cbn.
  destruct (codes d !! token); reflexivity.
Qed.

Lemma redeem_code_sync_eq (at_ code : string) (u : Z) (d : db) :
  redeem_code_sync at_ code u d =
  match codes d !! code with
  | None => (Returns CodeNotFound, d)
  | Some row =>
      match used_by row with
      | Some _ => (Returns CodeAlreadyUsed, d)
      | None =>
          if fits u then
            let marked :=
              <[code := CodeRow (amount row) (created_by row) (created_at row)
                                (Some u) (Some at_)]> (codes d) in
            if fits (balance d u + amount row) then
              (Returns (Redeemed (amount row)),
               Db (<[u := UserRow (balance d u + amount row) (last_topup d u)]>
                     (users d)) marked)
            else (Raises OverflowError, Db (users d) marked)
          else (Raises OverflowError, d)
      end
  end.
Proof.
  unfold_store. destruct (codes d !! code) as [row|] eqn:Ec; [| reflexivity].
  destruct (used_by row) eqn:Eu; [reflexivity |].
  destruct (fits u) eqn:Fu; [| reflexivity]. cbn.
  assert (alter (fun r => CodeRow (amount r) (created_by r) (created_at r)
                                 (Some u) (Some at_)) code (codes d)
          = <[code := CodeRow (amount row) (created_by row) (created_at row)
                              (Some u) (Some at_)]> (codes d)) as ->.
  { apply map_eq. intros k. destruct (decide (code = k)) as [->|Hne].
    - rewrite lookup_alter_eq, lookup_insert_eq, Ec. reflexivity.
    - rewrite lookup_alter_ne, lookup_insert_ne by done. reflexivity. }
  destruct (users d !! u) as [[c t]|] eqn:E; cbn.
  - destruct (fits (c + amount row)); [| reflexivity].
    rewrite (alter_as_insert _ _ _ _ E). reflexivity.
  - rewrite Z.add_0_l. destruct (fits (amount row)); reflexivity.
Qed.

Lemma ensure_user_eq (u : Z) (d : db) : ensure_user u d = ensure_user_sync u d.
Proof. reflexivity. Qed.

Lemma get_credits_eq (u : Z) (d : db) :
  get_credits u d =
  if fits u then (Returns (balance d u), store_of (ensure_user_sync u) d)
  else (Raises OverflowError, d).
Proof.
  unfold get_credits, store_of, mbind, M_bind. rewrite ensure_user_sync_eq.
  destruct (fits u) eqn:Fu; [| reflexivity]. cbn [snd].
  rewrite get_credits_sync_eq, Fu. f_equal. f_equal.
  unfold balance. destruct (users d !! u) eqn:E; [rewrite E; reflexivity |].
  cbn. rewrite lookup_insert_eq. reflexivity.
Qed.

Lemma change_credits_eq (u delta : Z) (d : db) :
  change_credits u delta d =
  if fits u then
    if fits (Z.max 0 (balance d u + delta)) then
      (Returns (Z.max 0 (balance d u + delta)),
       Db (<[u := UserRow (Z.max 0 (balance d u + delta)) (last_topup d u)]> (users d))
          (codes d))
    else (Raises OverflowError, store_of (ensure_user_sync u) d)
  else (Raises OverflowError, d).
Proof.
  unfold change_credits, store_of, mbind, M_bind. rewrite ensure_user_sync_eq.
  destruct (fits u) eqn:Fu; [| reflexivity]. cbn [snd].
  rewrite change_credits_sync_eq, Fu.
  unfold balance, last_topup.
  destruct (users d !! u) as [row|] eqn:E.
  - rewrite E. reflexivity.
  - cbn. rewrite lookup_insert_eq. cbn.
    destruct (fits (Z.max 0 (0 + delta))); [| reflexivity].
    rewrite insert_insert_eq. reflexivity.
Qed.

(** *** What [ensure_user] leaves *)

Lemma ensure_user_present (d : db) (u : Z) row :
  users d !! u = Some row -> store_of (ensure_user_sync u) d = d.
Proof.
  intros H. unfold store_of. rewrite ensure_user_sync_eq, H.
  destruct (fits u); reflexivity.
Qed.

Lemma ensure_user_codes (d : db) (u : Z) : codes (store_of (ensure_user_sync u) d) = codes d.
Proof.
  unfold store_of. rewrite ensure_user_sync_eq.
  destruct (fits u); [| reflexivity]. destruct (users d !! u); reflexivity.
Qed.

Lemma ensure_user_balance (d : db) (u v : Z) :
  balance (store_of (ensure_user_sync u) d) v = balance d v.
Proof.
  unfold store_of. rewrite ensure_user_sync_eq.
  destruct (fits u); [| reflexivity].
  destruct (users d !! u) eqn:E; [reflexivity |]. unfold balance. cbn.
  destruct (decide (u = v)) as [->|Hne].
  - rewrite lookup_insert_eq, E. reflexivity.
  - rewrite lookup_insert_ne by done. reflexivity.
Qed.

Lemma ensure_user_last_topup (d : db) (u v : Z) :
  last_topup (store_of (ensure_user_sync u) d) v = last_topup d v.
Proof.
  unfold store_of. rewrite ensure_user_sync_eq.
  destruct (fits u); [| reflexivity].
  destruct (users d !! u) eqn:E; [reflexivity |]. unfold last_topup. cbn.
  destruct (decide (u = v)) as [->|Hne].
  - rewrite lookup_insert_eq, E. reflexivity.
  - rewrite lookup_insert_ne by done. reflexivity.
Qed.

Lemma ensure_user_is_Some (d : db) (u : Z) :
  fits u = true -> is_Some (users (store_of (ensure_user_sync u) d) !! u).
Proof.
  intros Fu. unfold store_of. rewrite ensure_user_sync_eq, Fu.
  destruct (users d !! u) eqn:E; cbn.
  - rewrite E. eauto.
  - rewrite lookup_insert_eq. eauto.
Qed.

(** *** Balances and dates after an insert *)

Lemma balance_insert (us : gmap Z user_row) (cs : gmap string code_row)
    (u v : Z) (row : user_row) :
  balance (Db (<[u := row]> us) cs) v
  = if decide (u = v) then credits row else balance (Db us cs) v.
Proof.
  unfold balance. cbn. destruct (decide (u = v)) as [->|Hne].
  - rewrite lookup_insert_eq. reflexivity.
  - rewrite lookup_insert_ne by done. reflexivity.
Qed.

Lemma last_topup_insert (us : gmap Z user_row) (cs : gmap string code_row)
    (u v : Z) (row : user_row) :
  last_topup (Db (<[u := row]> us) cs) v
  = if decide (u = v) then last_topup_date row else last_topup (Db us cs) v.
Proof.
  unfold last_topup. cbn. destruct (decide (u = v)) as [->|Hne].
  - rewrite lookup_insert_eq. reflexivity.
  - rewrite lookup_insert_ne by done. reflexivity.
Qed.

Lemma balance_codes (us : gmap Z user_row) (cs cs' : gmap string code_row) (v : Z) :
  balance (Db us cs) v = balance (Db us cs') v.
Proof. reflexivity. Qed.

Lemma db_eta (d : db) : Db (users d) (codes d) = d.
Proof. destruct d. reflexivity. Qed.

(** What the daily grant does when it is due and when it is not. *)
Lemma topup_due (today : string) (u : Z) (d : db) :
  fits u = true -> fits (balance d u + DAILY_FREE_CREDITS) = true ->
  last_topup d u ≠ Some today ->
  topup_if_needed_sync today u d
  = (Returns (balance d u + DAILY_FREE_CREDITS),
     Db (<[u := UserRow (balance d u + DAILY_FREE_CREDITS) (Some today)]> (users d))
        (codes d)).
Proof.
  intros Fu Fb Hdue. rewrite topup_if_needed_sync_eq, Fu, Fb.
  rewrite bool_decide_eq_false_2 by done. reflexivity.
Qed.

Lemma topup_not_due (today : string) (u : Z) (d : db) :
  fits u = true -> last_topup d u = Some today ->
  topup_if_needed_sync today u d = (Returns (balance d u), d).
Proof.
  intros Fu Hsame. rewrite topup_if_needed_sync_eq, Fu.
  rewrite bool_decide_eq_true_2 by done. reflexivity.
Qed.

Lemma topup_overflow (today : string) (u : Z) (d : db) :
  fits u = true -> fits (balance d u + DAILY_FREE_CREDITS) = false ->
  last_topup d u ≠ Some today ->
  topup_if_needed_sync today u d = (Raises OverflowError, d).
Proof.
  intros Fu Fb Hdue. rewrite topup_if_needed_sync_eq, Fu, Fb.
  rewrite bool_decide_eq_false_2 by done. reflexivity.
Qed.

Lemma topup_codes (today : string) (u : Z) (d : db) :
  codes (store_of (topup_if_needed_sync today u) d) = codes d.
Proof.
  unfold store_of. rewrite topup_if_needed_sync_eq.
  repeat (match goal with |- context [if ?b then _ else _] => destruct b end);
    reflexivity.
Qed.

Lemma topup_due_after (today : string) (u : Z) (d : db) :
  fits u = true -> fits (balance d u + DAILY_FREE_CREDITS) = true ->
  last_topup d u ≠ Some today ->
  balance (store_of (topup_if_needed_sync today u) d) u
  = balance d u + DAILY_FREE_CREDITS /\
  last_topup (store_of (topup_if_needed_sync today u) d) u = Some today.
Proof.
  intros Fu Fb Hdue. unfold store_of. rewrite (topup_due _ _ _ Fu Fb Hdue). cbn [snd].
  rewrite balance_insert, last_topup_insert, !decide_True by done. split; reflexivity.
Qed.

(** The three ways [redeem_code_sync] returns, and the way it raises with
    the code already marked. *)
Lemma redeem_absent (now code : string) (u : Z) (d : db) :
  codes d !! code = None -> redeem_code_sync now code u d = (Returns CodeNotFound, d).
Proof. intros H. rewrite redeem_code_sync_eq, H. reflexivity. Qed.

Lemma redeem_used (now code : string) (u : Z) (d : db) row w :
  codes d !! code = Some row -> used_by row = Some w ->
  redeem_code_sync now code u d = (Returns CodeAlreadyUsed, d).
Proof. intros H Hu. rewrite redeem_code_sync_eq, H, Hu. reflexivity. Qed.

Lemma redeem_unused (now code : string) (u : Z) (d : db) row :
  codes d !! code = Some row -> used_by row = None ->
  fits u = true -> fits (balance d u + amount row) = true ->
  redeem_code_sync now code u d
  = (Returns (Redeemed (amount row)),
     Db (<[u := UserRow (balance d u + amount row) (last_topup d u)]> (users d))
        (<[code := CodeRow (amount row) (created_by row) (created_at row)
                           (Some u) (Some now)]> (codes d))).
Proof.
  intros H Hu Fu Fb. rewrite redeem_code_sync_eq, H, Hu, Fu. cbn zeta.
  rewrite Fb. reflexivity.
Qed.

Lemma redeem_overflow (now code : string) (u : Z) (d : db) row :
  codes d !! code = Some row -> used_by row = None ->
  fits u = true -> fits (balance d u + amount row) = false ->
  redeem_code_sync now code u d
  = (Raises OverflowError,
     Db (users d)
        (<[code := CodeRow (amount row) (created_by row) (created_at row)
                           (Some u) (Some now)]> (codes d))).
Proof.
  intros H Hu Fu Fb. rewrite redeem_code_sync_eq, H, Hu, Fu. cbn zeta.
  rewrite Fb. reflexivity.
Qed.

(** A redeem that returns [(True, a)] found the code unused with amount
    [a], and its integers fitted. *)
Lemma redeem_success_inv (now code : string) (u : Z) (d : db) (a : Z) :
  result_of (redeem_code_sync now code u) d = Returns (Redeemed a) ->
  exists row, codes d !! code = Some row /\ used_by row = None /\ amount row = a /\
              fits u = true /\ fits (balance d u + a) = true.
Proof.
  unfold result_of. rewrite redeem_code_sync_eq. intros H.
  destruct (codes d !! code) as [row|] eqn:E; [| discriminate].
  destruct (used_by row) as [w|] eqn:Eu; [discriminate |].
  destruct (fits u); [| discriminate]. cbn zeta in H.
  destruct (fits (balance d u + amount row)) eqn:Fb; [| discriminate].
  cbn in H. injection H as Ha. subst a. exists row. auto.
Qed.

Lemma generate_fresh (token now : string) (a by_ : Z) (d : db) :
  fits a = true -> fits by_ = true ->
  codes d !! token = None ->
  generate_code_sync token now a by_ d
  = (Returns token, Db (users d) (<[token := CodeRow a by_ now None None]> (codes d))).
Proof. intros Fa Fb H. rewrite generate_code_sync_eq, Fa, Fb, H. reflexivity. Qed.

Lemma generate_returns_inv (token now : string) (a by_ : Z) (d : db) (tok : string) :
  result_of (generate_code_sync token now a by_) d = Returns tok ->
  tok = token /\ fits a = true /\ fits by_ = true /\ codes d !! token = None.
Proof.
  unfold result_of. rewrite generate_code_sync_eq.
  destruct (fits a); [| discriminate]. destruct (fits by_); [| discriminate]. cbn.
  destruct (codes d !! token); [discriminate |]. cbn. intros [= <-]. auto.
Qed.


(** ** The helpers on small stores *)

Example balance_init : balance init_db 7 = 0.
Proof. reflexivity. Qed.

Example topup_fresh :
  topup_if_needed_sync "2024-05-01" 7 init_db
  = (Returns 30, Db {[ 7 := UserRow 30 (Some "2024-05-01"%string) ]} ∅).
Proof. reflexivity. Qed.

Example topup_next_day :
  topup_if_needed_sync "2024-05-02" 7 (Db {[ 7 := UserRow 30 (Some "2024-05-01"%string) ]} ∅)
  = (Returns 60, Db {[ 7 := UserRow 60 (Some "2024-05-02"%string) ]} ∅).
Proof. reflexivity. Qed.

Example adjust_floor :
  change_credits 7 (-5) (Db {[ 7 := UserRow 3 None ]} ∅)
  = (Returns 0, Db {[ 7 := UserRow 0 None ]} ∅).
Proof. reflexivity. Qed.

Example redeem_twice :
  let d := Db ∅ {[ "Zx3kQ9pLm2A"%string := CodeRow 100 1 "2024-05-01T09:00:00" None None ]} in
  let d' := store_of (redeem_code "2024-05-01T10:00:00" "Zx3kQ9pLm2A" 7) d in
  redeem_code "2024-05-01T10:00:00" "Zx3kQ9pLm2A" 7 d
  = (Returns (Redeemed 100),
     Db {[ 7 := UserRow 100 None ]}
        {[ "Zx3kQ9pLm2A"%string
             := CodeRow 100 1 "2024-05-01T09:00:00" (Some 7)
                  (Some "2024-05-01T10:00:00"%string) ]}) /\
  redeem_code "2024-05-01T11:00:00" "Zx3kQ9pLm2A" 8 d' = (Returns CodeAlreadyUsed, d').
Proof. split; reflexivity. Qed.

(** A first lookup of a fresh user: the grant of 30, one record shown, one
    credit taken. *)
Example num_cmd_fresh_user :
  num_cmd (text := ascii_text) [8455153833] 7 ["+91 79867-82429"%string] "2024-05-01"
    (HttpResponse 200
       (Some (JDict [("data"%string,
                      JList [JDict [("mobile"%string, JStr "7986782429");
                                    ("name"%string, JStr "A")];
                             JDict [("mobile"%string, JStr "")]])])))
    init_db
  = (Returns [Reply (RLookingUp "917986782429");
              HttpGet "917986782429";
              Reply (RRecord (JDict [("mobile"%string, JStr "7986782429");
                                     ("name"%string, JStr "A")]) 1);
              Reply (RFooter 29)],
     Db {[ 7 := UserRow 29 (Some "2024-05-01"%string) ]} ∅).
Proof. reflexivity. Qed.

(** A record whose phone is a number passes the filter, is charged for, and
    then fails to format. *)
Example num_cmd_unformattable :
  num_cmd (text := ascii_text) [8455153833] 7 ["7986782429"%string] "2024-05-01"
    (HttpResponse 200 (Some (JList [JDict [("mobile"%string, JInt 7986782429)]])))
    init_db
  = (Returns [Reply (RLookingUp "7986782429"); HttpGet "7986782429";
              Reply RErrorCallingApi],
     Db {[ 7 := UserRow 29 (Some "2024-05-01"%string) ]} ∅).
Proof. reflexivity. Qed.

Example num_cmd_no_result :
  num_cmd (text := ascii_text) [8455153833] 7 ["7986782429"%string] "2024-05-01"
    (HttpResponse 200 (Some (JDict [("message"%string, JStr "No records found")])))
    init_db
  = (Returns [Reply (RLookingUp "7986782429"); HttpGet "7986782429"; Reply RNoResult],
     Db {[ 7 := UserRow 30 (Some "2024-05-01"%string) ]} ∅).
Proof. reflexivity. Qed.

Example code_cmd_creates :
  code_cmd [8455153833] (fun _ => Some 100) 8455153833 ["100"%string]
    "Zx3kQ9pLm2A" "2024-05-01T09:00:00" init_db
  = (Returns [Reply (RCodeCreated "Zx3kQ9pLm2A" 100)],
     Db ∅ {[ "Zx3kQ9pLm2A"%string
               := CodeRow 100 8455153833 "2024-05-01T09:00:00" None None ]}).
Proof. reflexivity. Qed.

(** A code of 2^63 - 1 credits, redeemed by a user who holds the daily
    grant: the update of the balance raises after the code was marked, so
    the code is used up and nothing is credited. *)
Example redeem_overflows :
  let d := Db {[ 7 := UserRow 30 (Some "2024-05-01"%string) ]}
              {[ "Zx3kQ9pLm2A"%string
                   := CodeRow INT64_MAX 1 "2024-05-01T09:00:00" None None ]} in
  redeem_code "2024-05-01T10:00:00" "Zx3kQ9pLm2A" 7 d
  = (Raises OverflowError,
     Db {[ 7 := UserRow 30 (Some "2024-05-01"%string) ]}
        {[ "Zx3kQ9pLm2A"%string
             := CodeRow INT64_MAX 1 "2024-05-01T09:00:00" (Some 7)
                  (Some "2024-05-01T10:00:00"%string) ]}).
Proof. reflexivity. Qed.

(** An id sqlite cannot take: nothing is read and nothing written. *)
Example ensure_user_overflows :
  ensure_user (INT64_MAX + 1) init_db = (Raises OverflowError, init_db).
Proof. reflexivity. Qed.

(** ** The ledger *)

(** C3 (as the code has it). For a user id that fits sqlite's 64-bit
    INTEGER, and a balance that still fits after the grant when the grant is
    due: when the date of the last grant differs from today (a null date and
    a user without a row included) the call adds DAILY_FREE_CREDITS to the
    balance, records today and returns the new balance; when it is today the
    call returns the balance and leaves the store as it is. Hence a second
    call on the same date returns what the first returned and changes
    nothing. *)
Theorem C3_daily_grant (today : string) (u : Z) (d : db) :
  fits u = true ->
  (last_topup d u ≠ Some today -> fits (balance d u + DAILY_FREE_CREDITS) = true) ->
  let first := topup_if_needed_sync today u d in
  (last_topup d u ≠ Some today ->
     first.1 = Returns (balance d u + DAILY_FREE_CREDITS) /\
     balance first.2 u = balance d u + DAILY_FREE_CREDITS /\
     last_topup first.2 u = Some today) /\
  (last_topup d u = Some today -> first = (Returns (balance d u), d)) /\
  first.1 = Returns (balance first.2 u) /\
  topup_if_needed_sync today u first.2 = (first.1, first.2).
Proof.
  intros Fu Fb first. subst first.
  destruct (decide (last_topup d u = Some today)) as [Hsame|Hdue].
  - rewrite (topup_not_due _ _ _ Fu Hsame). cbn [fst snd].
    split; [intros Hne; contradiction |].
    split; [reflexivity |]. split; [reflexivity |].
    apply topup_not_due; assumption.
  - rewrite (topup_due _ _ _ Fu (Fb Hdue) Hdue). cbn [fst snd].
    rewrite balance_insert, last_topup_insert, !decide_True by done.
    cbn [credits last_topup_date].
    split; [intros _; done |].
    split; [intros Hsame; contradiction |].
    split; [reflexivity |].
    rewrite topup_not_due; [| exact Fu |].
    + rewrite balance_insert, decide_True by done. reflexivity.
    + rewrite last_topup_insert, decide_True by done. reflexivity.
Qed.

Lemma C3_daily_grant_witness :
  let d := Db {[ 7 := UserRow 4 (Some "2024-04-30"%string) ]} ∅ in
  let first := topup_if_needed_sync "2024-05-01" 7 d in
  first.1 = Returns 34 /\ balance first.2 7 = 34 /\
  topup_if_needed_sync "2024-05-01" 7 first.2 = (Returns 34, first.2).
Proof.
  intros d first.
  destruct (C3_daily_grant "2024-05-01" 7 d) as (Hdue & _ & _ & Hagain);
    [reflexivity | intros _; reflexivity |].
  destruct Hdue as (H1 & H2 & _); [intros H; vm_compute in H; discriminate H |].
  split; [exact H1 |]. split; [exact H2 |]. exact Hagain.
Defined.

(** C3, as the specification words it, fails: a user who redeemed a code
    of 2^63 - 11 credits (an amount /code accepts) is due the grant, and the
    call raises OverflowError: nothing is added, no date is recorded and no
    balance is returned. *)
Lemma C3_counterexample :
  let d := run_ops [OpGenerate "Zx3kQ9pLm2A" "2024-05-01T09:00:00" (INT64_MAX - 10) 1;
                    OpRedeem "2024-05-01T10:00:00" "Zx3kQ9pLm2A" 7] init_db in
  balance d 7 = INT64_MAX - 10 /\
  last_topup d 7 = None /\
  topup_if_needed_sync "2024-05-01" 7 d = (Raises OverflowError, d).
Proof. vm_compute. repeat split. Qed.

(** C4 (as the code has it). For a user id that fits sqlite's 64-bit
    INTEGER and a delta with [max(0, old balance + delta)] below 2^63,
    [change_credits] (and its body [change_credits_sync]) stores and returns
    [max(0, old balance + delta)], a user without a row counting as balance
    0: the result is never negative, it is 0 when the delta takes more than
    the balance, and the call returns. *)
Theorem C4_adjust_floor (u : Z) (delta : Z) (d : db) :
  fits u = true ->
  fits (Z.max 0 (balance d u + delta)) = true ->
  let r := change_credits u delta d in
  r.1 = Returns (Z.max 0 (balance d u + delta)) /\
  balance r.2 u = Z.max 0 (balance d u + delta) /\
  0 <= balance r.2 u /\
  (balance d u + delta <= 0 -> balance r.2 u = 0) /\
  change_credits_sync u delta d = r.
Proof.
  intros Fu Fb r. subst r.
  rewrite change_credits_eq, change_credits_sync_eq, Fu, Fb. cbn [fst snd].
  rewrite balance_insert, decide_True by done. cbn [credits].
  repeat split; lia.
Qed.

Lemma C4_adjust_floor_witness :
  let d := Db {[ 7 := UserRow 3 None ]} ∅ in
  (change_credits 7 (-5) d).1 = Returns 0 /\ balance (change_credits 7 (-5) d).2 7 = 0.
Proof.
  intros d.
  destruct (C4_adjust_floor 7 (-5) d) as (H1 & H2 & _ & H0 & _);
    [reflexivity | reflexivity |].
  split; [rewrite H1; reflexivity |]. apply H0. vm_compute. discriminate.
Defined.

(** C4, as the specification words it, fails: not every signed delta goes
    through. With a balance of 2^63 - 1 (a redeemed code of that amount) a
    delta of 1 raises OverflowError and the balance stays; and on the empty
    store a delta of 2^63 raises after the row was created with 0. *)
Lemma C4_counterexample :
  let d := run_ops [OpGenerate "Zx3kQ9pLm2A" "2024-05-01T09:00:00" INT64_MAX 1;
                    OpRedeem "2024-05-01T10:00:00" "Zx3kQ9pLm2A" 7] init_db in
  balance d 7 = INT64_MAX /\
  change_credits 7 1 d = (Raises OverflowError, d) /\
  change_credits_sync 7 1 d = (Raises OverflowError, d) /\
  change_credits 7 (INT64_MAX + 1) init_db
  = (Raises OverflowError, Db {[ 7 := UserRow 0 None ]} ∅).
Proof. vm_compute. repeat split. Qed.

(** ** The code registry *)

(** C9. Redeeming a code that is not in the registry returns
    [(False, "Code not found")] and leaves the whole store, every balance
    and every code row, as it was. *)
Theorem C9_redeem_unknown (now code : string) (u : Z) (d : db) :
  codes d !! code = None ->
  redeem_code now code u d = (Returns CodeNotFound, d).
Proof. intros H. unfold redeem_code. apply redeem_absent, H. Qed.

Lemma C9_redeem_unknown_witness :
  redeem_code "2024-05-01T10:00:00" "nosuchcode" 7
    (Db {[ 7 := UserRow 3 None ]} ∅)
  = (Returns CodeNotFound, Db {[ 7 := UserRow 3 None ]} ∅).
Proof. apply C9_redeem_unknown. reflexivity. Defined.

(** C10 (as the code has it). A redeem that succeeds for a user without a
    row creates the row with the code's amount as credits and a null date of
    last grant; when the amount plus DAILY_FREE_CREDITS is below 2^63, the
    daily grant on any date after it, the same day included, adds
    DAILY_FREE_CREDITS on top of the redeemed amount. *)
Theorem C10_redeem_then_grant (now code today : string) (u : Z) (d : db) (a : Z) :
  users d !! u = None ->
  result_of (redeem_code now code u) d = Returns (Redeemed a) ->
  fits (a + DAILY_FREE_CREDITS) = true ->
  let d' := store_of (redeem_code now code u) d in
  users d' !! u = Some (UserRow a None) /\
  result_of (topup_if_needed today u) d' = Returns (a + DAILY_FREE_CREDITS) /\
  users (store_of (topup_if_needed today u) d') !! u
  = Some (UserRow (a + DAILY_FREE_CREDITS) (Some today)).
Proof.
  intros Hu Hok Fa d'. subst d'. unfold redeem_code, topup_if_needed in *.
  destruct (redeem_success_inv _ _ _ _ _ Hok) as (row & Hrow & Hunused & Ha & Fu & Fb).
  subst a. unfold store_of, result_of.
  rewrite (redeem_unused _ _ _ _ _ Hrow Hunused Fu Fb). cbn [snd].
  rewrite (balance_None _ _ Hu). unfold last_topup at 1 2 3. rewrite Hu. cbn [mbind option_bind].
  rewrite Z.add_0_l. cbn [users].
  split; [apply lookup_insert_eq |].
  rewrite topup_due.
  - cbn [fst snd users]. rewrite balance_insert, decide_True by done. cbn [credits].
    split; [reflexivity |]. rewrite insert_insert_eq. apply lookup_insert_eq.
  - exact Fu.
  - rewrite balance_insert, decide_True by done. exact Fa.
  - rewrite last_topup_insert, decide_True by done. discriminate.
Qed.

Lemma C10_redeem_then_grant_witness :
  let d := Db ∅ {[ "Zx3kQ9pLm2A"%string := CodeRow 100 1 "2024-05-01T09:00:00" None None ]} in
  let d' := store_of (redeem_code "2024-05-01T10:00:00" "Zx3kQ9pLm2A" 7) d in
  users d' !! 7 = Some (UserRow 100 None) /\
  result_of (topup_if_needed "2024-05-01" 7) d' = Returns 130 /\
  users (store_of (topup_if_needed "2024-05-01" 7) d') !! 7
  = Some (UserRow 130 (Some "2024-05-01"%string)).
Proof.
  intros d d'.
  apply (C10_redeem_then_grant "2024-05-01T10:00:00" "Zx3kQ9pLm2A" "2024-05-01" 7 d 100);
    reflexivity.
Defined.

(** C10, as the specification words it, fails: a code of 2^63 - 1 credits
    redeemed by a user without a row creates the row with that amount and a
    null date, and the daily grant that follows raises OverflowError: the
    balance stays at the redeemed amount. *)
Lemma C10_counterexample :
  let d := run_ops [OpGenerate "Zx3kQ9pLm2A" "2024-05-01T09:00:00" INT64_MAX 1] init_db in
  let d' := store_of (redeem_code "2024-05-01T10:00:00" "Zx3kQ9pLm2A" 7) d in
  users d !! 7 = None /\
  result_of (redeem_code "2024-05-01T10:00:00" "Zx3kQ9pLm2A" 7) d
  = Returns (Redeemed INT64_MAX) /\
  users d' !! 7 = Some (UserRow INT64_MAX None) /\
  topup_if_needed "2024-05-01" 7 d' = (Raises OverflowError, d').
Proof. vm_compute. repeat split. Qed.

(** ** Sequences of calls *)

Lemma run_ops_cons (o : op) (os : list op) (d : db) :
  run_ops (o :: os) d = run_ops os (run_op o d).
Proof. reflexivity. Qed.

Lemma run_ops_app (os1 os2 : list op) (d : db) :
  run_ops (os1 ++ os2) d = run_ops os2 (run_ops os1 d).
Proof. unfold run_ops. apply foldl_app. Qed.

Lemma get_credits_store (u : Z) (d : db) :
  store_of (get_credits u) d = store_of (ensure_user_sync u) d.
Proof.
  unfold store_of at 1. rewrite get_credits_eq.
  destruct (fits u) eqn:Fu; [reflexivity |].
  unfold store_of. rewrite ensure_user_sync_eq, Fu. reflexivity.
Qed.

Lemma change_credits_codes (u delta : Z) (d : db) :
  codes (store_of (change_credits u delta) d) = codes d.
Proof.
  unfold store_of at 1. rewrite change_credits_eq.
  destruct (fits u); [| reflexivity].
  destruct (fits _); [reflexivity |]. apply ensure_user_codes.
Qed.

(** No call other than a redeem of the code touches the row of a code, and
    no call at all touches the row of a used code. *)
Lemma run_op_code_row (o : op) (d : db) (c : string) row :
  codes d !! c = Some row ->
  redeems c o = false \/ is_Some (used_by row) ->
  codes (run_op o d) !! c = Some row.
Proof.
  intros Hrow Hcase. destruct o as [u|today u|u|u delta|token at_ a by_|at_ code u]; simpl.
  - unfold ensure_user. rewrite ensure_user_codes. exact Hrow.
  - unfold topup_if_needed. rewrite topup_codes. exact Hrow.
  - rewrite get_credits_store, ensure_user_codes. exact Hrow.
  - rewrite change_credits_codes. exact Hrow.
  - unfold generate_code, store_of. rewrite generate_code_sync_eq.
    destruct (fits a && fits by_); [| exact Hrow].
    destruct (codes d !! token) as [row'|] eqn:E; [exact Hrow |]. cbn.
    rewrite lookup_insert_ne; [exact Hrow | congruence].
  - unfold redeem_code, store_of. rewrite redeem_code_sync_eq.
    destruct (codes d !! code) as [row'|] eqn:E; [| exact Hrow].
    destruct (used_by row') as [w|] eqn:Eu; [exact Hrow |].
    destruct (fits u); [| exact Hrow].
    assert (code ≠ c) as Hne.
    { intros ->. rewrite Hrow in E. injection E as ->.
      destruct Hcase as [Hc|[w Hw]].
      - simpl in Hc. rewrite bool_decide_eq_true_2 in Hc by done. discriminate.
      - congruence. }
    cbn zeta. destruct (fits _); cbn; rewrite lookup_insert_ne by done; exact Hrow.
Qed.

Lemma run_ops_code_kept (os : list op) (d : db) (c : string) row :
  codes d !! c = Some row ->
  forallb (fun o => negb (redeems c o)) os = true ->
  codes (run_ops os d) !! c = Some row.
Proof.
  revert d. induction os as [|o os IH]; intros d Hrow Hall; [exact Hrow |].
  simpl in Hall. apply andb_prop in Hall as [Ho Hos]. rewrite run_ops_cons.
  apply IH; [| exact Hos]. apply run_op_code_row; [exact Hrow |].
  left. destruct (redeems c o); [discriminate | reflexivity].
Qed.

Lemma run_ops_code_used (os : list op) (d : db) (c : string) row :
  codes d !! c = Some row -> is_Some (used_by row) ->
  codes (run_ops os d) !! c = Some row.
Proof.
  revert d. induction os as [|o os IH]; intros d Hrow Hused; [exact Hrow |].
  rewrite run_ops_cons. apply IH; [| exact Hused].
  apply run_op_code_row; [exact Hrow | right; exact Hused].
Qed.

(** C1 (as the code has it). A code issued with amount [a]: the first
    redeem of it, after any calls that do not redeem it, by a caller whose
    id fits sqlite's 64-bit INTEGER and whose balance plus [a] does too,
    returns [(True, a)] and raises the redeemer's balance by exactly [a], no
    other balance moving; after that, and after any calls whatever that
    follow, a redeem of the same code by any caller returns
    [(False, "Code already used")] and leaves the whole store unchanged. *)
Theorem C1_redeem_exactly_once
    (token now : string) (a issuer : Z) (d : db)
    (before : list op) (now1 : string) (u : Z)
    (after : list op) (now2 : string) (v : Z) :
  result_of (generate_code token now a issuer) d = Returns token ->
  forallb (fun o => negb (redeems token o)) before = true ->
  let d1 := run_ops before (store_of (generate_code token now a issuer) d) in
  fits u = true ->
  fits (balance d1 u + a) = true ->
  let d2 := store_of (redeem_code now1 token u) d1 in
  let d3 := run_ops after d2 in
  result_of (redeem_code now1 token u) d1 = Returns (Redeemed a) /\
  balance d2 u = balance d1 u + a /\
  (forall w, w ≠ u -> balance d2 w = balance d1 w) /\
  redeem_code now2 token v d3 = (Returns CodeAlreadyUsed, d3).
Proof.
  intros Hissued Hbefore d1 Fu Fb d2 d3.
  assert (Hrow1 : codes d1 !! token = Some (CodeRow a issuer now None None)).
  { subst d1. apply run_ops_code_kept; [| exact Hbefore].
    unfold generate_code in *.
    destruct (generate_returns_inv _ _ _ _ _ _ Hissued) as (_ & Fa & Fi & E).
    unfold store_of. rewrite (generate_fresh _ _ _ _ _ Fa Fi E). cbn.
    apply lookup_insert_eq. }
  assert (Hredeem := redeem_unused now1 token u d1 _ Hrow1 eq_refl Fu Fb).
  cbn [amount created_by created_at] in Hredeem.
  assert (Hrow2 : codes d2 !! token
                  = Some (CodeRow a issuer now (Some u) (Some now1))).
  { subst d2. unfold redeem_code, store_of. rewrite Hredeem. cbn.
    apply lookup_insert_eq. }
  split; [unfold redeem_code, result_of; rewrite Hredeem; reflexivity |].
  split.
  { subst d2. unfold redeem_code, store_of. rewrite Hredeem. cbn [snd].
    rewrite balance_insert, decide_True by done. reflexivity. }
  split.
  { intros w Hw. subst d2. unfold redeem_code, store_of. rewrite Hredeem. cbn [snd].
    rewrite balance_insert, decide_False by done. reflexivity. }
  unfold redeem_code. eapply redeem_used.
  - subst d3. apply run_ops_code_used; [exact Hrow2 | simpl; eauto].
  - reflexivity.
Qed.

Lemma C1_redeem_exactly_once_witness :
  let d1 := run_ops [OpTopup "2024-05-01" 7]
              (store_of (generate_code "Zx3kQ9pLm2A" "2024-05-01T09:00:00" 100 1) init_db) in
  let d2 := store_of (redeem_code "2024-05-01T10:00:00" "Zx3kQ9pLm2A" 7) d1 in
  let d3 := run_ops [OpChange 7 (-1); OpRedeem "2024-05-01T10:30:00" "Zx3kQ9pLm2A" 8] d2 in
  result_of (redeem_code "2024-05-01T10:00:00" "Zx3kQ9pLm2A" 7) d1 = Returns (Redeemed 100) /\
  balance d2 7 = balance d1 7 + 100 /\
  (forall w, w ≠ 7 -> balance d2 w = balance d1 w) /\
  redeem_code "2024-05-01T11:00:00" "Zx3kQ9pLm2A" 7 d3 = (Returns CodeAlreadyUsed, d3).
Proof.
  apply (C1_redeem_exactly_once "Zx3kQ9pLm2A" "2024-05-01T09:00:00" 100 1 init_db
           [OpTopup "2024-05-01" 7] "2024-05-01T10:00:00" 7
           [OpChange 7 (-1); OpRedeem "2024-05-01T10:30:00" "Zx3kQ9pLm2A" 8]
           "2024-05-01T11:00:00" 7); reflexivity.
Defined.

(** C1, as the specification words it, fails: a code of 2^63 - 1 credits is
    issued, and its first redeem, by a user holding the 30 credits of the
    daily grant, raises OverflowError after the code was marked used: the
    call does not succeed, the balance is not raised, and every later
    redeem, the same user's included, is told the code is already used. *)
Lemma C1_counterexample :
  let d1 := run_ops [OpTopup "2024-05-01" 7]
              (store_of (generate_code "Zx3kQ9pLm2A" "2024-05-01T09:00:00" INT64_MAX 1)
                 init_db) in
  let d2 := store_of (redeem_code "2024-05-01T10:00:00" "Zx3kQ9pLm2A" 7) d1 in
  result_of (generate_code "Zx3kQ9pLm2A" "2024-05-01T09:00:00" INT64_MAX 1) init_db
  = Returns "Zx3kQ9pLm2A"%string /\
  result_of (redeem_code "2024-05-01T10:00:00" "Zx3kQ9pLm2A" 7) d1 = Raises OverflowError /\
  balance d1 7 = 30 /\ balance d2 7 = 30 /\
  (codes d2 !! "Zx3kQ9pLm2A"%string) ≫= used_by = Some 7 /\
  redeem_code "2024-05-01T11:00:00" "Zx3kQ9pLm2A" 7 d2 = (Returns CodeAlreadyUsed, d2) /\
  redeem_code "2024-05-01T11:00:00" "Zx3kQ9pLm2A" 8 d2 = (Returns CodeAlreadyUsed, d2).
Proof. vm_compute. repeat split. Qed.

(** ** Balances are not negative *)

Lemma balance_nonneg (d : db) (u : Z) : credits_nonneg d -> 0 <= balance d u.
Proof.
  intros H. unfold balance. destruct (users d !! u) as [row|] eqn:E; [| lia].
  exact (H u row E).
Qed.

Lemma credits_nonneg_insert (d : db) (u c : Z) (t : option string) cs :
  credits_nonneg d -> 0 <= c ->
  credits_nonneg (Db (<[u := UserRow c t]> (users d)) cs).
Proof.
  intros H Hc w row. simpl. destruct (decide (u = w)) as [->|Hne].
  - rewrite lookup_insert_eq. intros [= <-]. exact Hc.
  - rewrite lookup_insert_ne by done. apply H.
Qed.

Lemma credits_nonneg_codes (d : db) cs :
  credits_nonneg d -> credits_nonneg (Db (users d) cs).
Proof. intros H. exact H. Qed.

Lemma amounts_nonneg_insert (d : db) (c : string) row us :
  amounts_nonneg d -> 0 <= amount row ->
  amounts_nonneg (Db us (<[c := row]> (codes d))).
Proof.
  intros H Ha c' row'. simpl. destruct (decide (c = c')) as [->|Hne].
  - rewrite lookup_insert_eq. intros [= <-]. exact Ha.
  - rewrite lookup_insert_ne by done. apply H.
Qed.

Lemma ensure_user_nonneg (u : Z) (d : db) :
  credits_nonneg d -> credits_nonneg (store_of (ensure_user_sync u) d).
Proof.
  intros H. unfold store_of. rewrite ensure_user_sync_eq.
  destruct (fits u); [| exact H]. cbn [snd].
  destruct (users d !! u) as [row|] eqn:E; [exact H |].
  apply credits_nonneg_insert; [exact H | lia].
Qed.

Lemma change_credits_nonneg (u delta : Z) (d : db) :
  credits_nonneg d -> credits_nonneg (store_of (change_credits u delta) d).
Proof.
  intros H. unfold store_of at 1. rewrite change_credits_eq.
  destruct (fits u); [| exact H].
  destruct (fits _); cbn [snd]; [| apply ensure_user_nonneg, H].
  apply credits_nonneg_insert; [exact H | lia].
Qed.

(** One call keeps both: balances not negative, amounts not negative. *)
Lemma run_op_nonneg (o : op) (d : db) :
  issues_positive o = true ->
  credits_nonneg d /\ amounts_nonneg d ->
  credits_nonneg (run_op o d) /\ amounts_nonneg (run_op o d).
Proof.
  intros Hpos [Hc Ha].
  destruct o as [u|today u|u|u delta|token at_ a by_|at_ code u]; simpl.
  - unfold ensure_user. split; [apply ensure_user_nonneg, Hc |].
    intros c row. rewrite ensure_user_codes. apply Ha.
  - unfold topup_if_needed. split.
    + unfold store_of. rewrite topup_if_needed_sync_eq.
      destruct (fits u); [| exact Hc].
      destruct (bool_decide _); [exact Hc |].
      destruct (fits _); [| exact Hc]. cbn [snd].
      apply credits_nonneg_insert; [exact Hc |].
      pose proof (balance_nonneg d u Hc). unfold DAILY_FREE_CREDITS. lia.
    + intros c row. rewrite topup_codes. apply Ha.
  - rewrite get_credits_store. split; [apply ensure_user_nonneg, Hc |].
    intros c row. rewrite ensure_user_codes. apply Ha.
  - split; [apply change_credits_nonneg, Hc |].
    intros c row. rewrite change_credits_codes. apply Ha.
  - unfold generate_code, store_of. simpl in Hpos. apply bool_decide_eq_true_1 in Hpos.
    rewrite generate_code_sync_eq.
    destruct (fits a && fits by_); [| split; assumption].
    destruct (codes d !! token) as [row'|] eqn:E; [split; assumption |]. cbn [snd].
    split; [exact Hc |].
    apply amounts_nonneg_insert; [exact Ha | simpl; lia].
  - unfold redeem_code, store_of. rewrite redeem_code_sync_eq.
    destruct (codes d !! code) as [row'|] eqn:E; [| split; assumption].
    destruct (used_by row') as [w|] eqn:Eu; [split; assumption |].
    destruct (fits u); [| split; assumption].
    pose proof (Ha code row' E) as Hrow. cbn zeta.
    destruct (fits _); cbn [snd]; split.
    + apply credits_nonneg_insert; [exact Hc |].
      pose proof (balance_nonneg d u Hc). lia.
    + apply (amounts_nonneg_insert d); [exact Ha | exact Hrow].
    + exact Hc.
    + apply (amounts_nonneg_insert d); [exact Ha | exact Hrow].
Qed.

Lemma run_ops_nonneg (os : list op) (d : db) :
  forallb issues_positive os = true ->
  credits_nonneg d /\ amounts_nonneg d ->
  credits_nonneg (run_ops os d) /\ amounts_nonneg (run_ops os d).
Proof.
  revert d. induction os as [|o os IH]; intros d Hall Hinv; [exact Hinv |].
  simpl in Hall. apply andb_prop in Hall as [Ho Hos]. rewrite run_ops_cons.
  apply IH; [exact Hos |]. apply run_op_nonneg; assumption.
Qed.

(** C5, as the code has it. From the empty store, after every sequence of
    ensure_user, topup_if_needed, get_credits, change_credits, generate_code
    and redeem_code calls in which every generate_code is given a positive
    amount, as the /code handler gives it, every account's credits are at
    least 0. *)
Theorem C5_credits_never_negative (os : list op) (u : Z) (row : user_row) :
  forallb issues_positive os = true ->
  users (run_ops os init_db) !! u = Some row ->
  0 <= credits row.
Proof.
  intros Hall Hrow.
  destruct (run_ops_nonneg os init_db Hall) as [Hc _].
  - split; intros k r; simpl; rewrite lookup_empty; discriminate.
  - exact (Hc u row Hrow).
Qed.

Lemma C5_credits_never_negative_witness :
  0 <= credits (UserRow 129 (Some "2024-05-01"%string)).
Proof.
  apply (C5_credits_never_negative
           [OpTopup "2024-05-01" 7;
            OpGenerate "Zx3kQ9pLm2A" "2024-05-01T09:00:00" 100 1;
            OpRedeem "2024-05-01T10:00:00" "Zx3kQ9pLm2A" 7;
            OpChange 7 (-1)] 7); reflexivity.
Defined.

(** C5 without the condition on the amounts does not hold: generate_code
    takes any amount, and a code of amount -5 redeemed by a user without a
    row leaves that user with credits -5. *)
Lemma C5_counterexample :
  let os := [OpGenerate "Zx3kQ9pLm2A" "2024-05-01T09:00:00" (-5) 1;
             OpRedeem "2024-05-01T10:00:00" "Zx3kQ9pLm2A" 7] in
  users (run_ops os init_db) !! 7 = Some (UserRow (-5) None) /\
  ~ (0 <= credits (UserRow (-5) None)).
Proof. split; [reflexivity | simpl; lia]. Qed.

(** ** The store holds 64-bit integers *)

Lemma int64_insert_user (d : db) (u c : Z) (t : option string) :
  int64_store d -> fits u = true -> fits c = true ->
  int64_store (Db (<[u := UserRow c t]> (users d)) (codes d)).
Proof.
  intros [Hu Hc] Fu Fc. split; [| exact Hc]. intros w row. cbn.
  destruct (decide (u = w)) as [->|Hne].
  - rewrite lookup_insert_eq. intros [= <-]. auto.
  - rewrite lookup_insert_ne by done. apply Hu.
Qed.

Lemma int64_insert_code (d : db) (c : string) (row : code_row) :
  int64_store d ->
  fits (amount row) = true -> fits (created_by row) = true ->
  (forall w, used_by row = Some w -> fits w = true) ->
  int64_store (Db (users d) (<[c := row]> (codes d))).
Proof.
  intros [Hu Hc] Fa Fb Fw. split; [exact Hu |]. intros c' row'. cbn.
  destruct (decide (c = c')) as [->|Hne].
  - rewrite lookup_insert_eq. intros [= <-]. auto.
  - rewrite lookup_insert_ne by done. apply Hc.
Qed.

Lemma int64_init : int64_store init_db.
Proof. split; intros k r; cbn; rewrite lookup_empty; discriminate. Qed.

Lemma int64_balance (d : db) (u : Z) : int64_store d -> fits (balance d u) = true.
Proof.
  intros [Hu _]. unfold balance. destruct (users d !! u) as [row|] eqn:E; [| reflexivity].
  apply (Hu u row E).
Qed.

Lemma ensure_user_int64 (u : Z) (d : db) :
  int64_store d -> int64_store (store_of (ensure_user_sync u) d).
Proof.
  intros H. unfold store_of. rewrite ensure_user_sync_eq.
  destruct (fits u) eqn:Fu; [| exact H]. cbn [snd].
  destruct (users d !! u); [exact H |]. apply int64_insert_user; auto.
Qed.

Lemma topup_int64 (today : string) (u : Z) (d : db) :
  int64_store d -> int64_store (store_of (topup_if_needed_sync today u) d).
Proof.
  intros H. unfold store_of. rewrite topup_if_needed_sync_eq.
  destruct (fits u) eqn:Fu; [| exact H].
  destruct (bool_decide _); [exact H |].
  destruct (fits (_ + _)) eqn:Fb; [| exact H]. cbn [snd].
  apply int64_insert_user; auto.
Qed.

Lemma change_credits_int64 (u delta : Z) (d : db) :
  int64_store d -> int64_store (store_of (change_credits u delta) d).
Proof.
  intros H. unfold store_of at 1. rewrite change_credits_eq.
  destruct (fits u) eqn:Fu; [| exact H].
  destruct (fits (Z.max _ _)) eqn:Fb; cbn [snd]; [| apply ensure_user_int64, H].
  apply int64_insert_user; auto.
Qed.

Lemma generate_int64 (token at_ : string) (a by_ : Z) (d : db) :
  int64_store d -> int64_store (store_of (generate_code_sync token at_ a by_) d).
Proof.
  intros H. unfold store_of. rewrite generate_code_sync_eq.
  destruct (fits a && fits by_) eqn:F; [| exact H].
  apply andb_prop in F as [Fa Fb].
  destruct (codes d !! token); [exact H |]. cbn [snd].
  apply int64_insert_code; auto. cbn. discriminate.
Qed.

Lemma redeem_int64 (at_ code : string) (u : Z) (d : db) :
  int64_store d -> int64_store (store_of (redeem_code_sync at_ code u) d).
Proof.
  intros H. unfold store_of. rewrite redeem_code_sync_eq.
  destruct (codes d !! code) as [row|] eqn:E; [| exact H].
  destruct (used_by row) eqn:Eu; [exact H |].
  destruct (fits u) eqn:Fu; [| exact H]. cbn zeta.
  destruct (proj2 H code row E) as (Fa & Fc & _).
  assert (int64_store (Db (users d)
            (<[code := CodeRow (amount row) (created_by row) (created_at row)
                               (Some u) (Some at_)]> (codes d)))) as Hm.
  { apply int64_insert_code; auto. cbn. intros w [= <-]. exact Fu. }
  destruct (fits (_ + _)) eqn:Fb; cbn [snd]; [| exact Hm].
  apply (int64_insert_user (Db (users d) _)); auto.
Qed.

Lemma run_op_int64 (o : op) (d : db) : int64_store d -> int64_store (run_op o d).
Proof.
  intros H. destruct o; cbn [run_op].
  - apply ensure_user_int64, H.
  - apply topup_int64, H.
  - rewrite get_credits_store. apply ensure_user_int64, H.
  - apply change_credits_int64, H.
  - apply generate_int64, H.
  - apply redeem_int64, H.
Qed.

Lemma run_ops_int64 (os : list op) (d : db) : int64_store d -> int64_store (run_ops os d).
Proof.
  revert d. induction os as [|o os IH]; intros d H; [exact H |].
  rewrite run_ops_cons. apply IH, run_op_int64, H.
Qed.

(** ** The /code handler *)

(** C6, as the code has it. The amount is checked by the /code handler,
    [code_cmd], the only caller of generate_code: for every argument that is
    not a positive integer ([int] raises on it or gives a value at most 0)
    the handler answers an admin with the positive-integer error and anyone
    else with the admin-only error, and in both cases leaves the store as it
    was, so no row is created. *)
Theorem C6_code_cmd_rejects
    (ADMIN_IDS : list Z) (py_int : string -> option Z)
    (user_id : Z) (arg0 : string) (rest : list string) (token now : string) (d : db) :
  (forall n, py_int arg0 = Some n -> n <= 0) ->
  code_cmd ADMIN_IDS py_int user_id (arg0 :: rest) token now d
  = (Returns [Reply (if bool_decide (user_id ∈ ADMIN_IDS)
                     then RCodePositive else RCodeOnlyAdmin)], d).
Proof.
  intros Hbad. unfold code_cmd.
  destruct (decide (user_id ∈ ADMIN_IDS)) as [Hin|Hout].
  - rewrite (bool_decide_eq_false_2 (user_id ∉ ADMIN_IDS)) by (intros H; exact (H Hin)).
    rewrite (bool_decide_eq_true_2 _ Hin).
    destruct (py_int arg0) as [n|] eqn:E; [| reflexivity].
    rewrite (bool_decide_eq_true_2 (n <= 0)) by (apply Hbad; reflexivity).
    reflexivity.
  - rewrite (bool_decide_eq_true_2 _ Hout), (bool_decide_eq_false_2 _ Hout). reflexivity.
Qed.

Lemma C6_code_cmd_rejects_witness :
  code_cmd [8455153833] (fun _ => Some (-5)) 8455153833 ["-5"%string]
    "Zx3kQ9pLm2A" "2024-05-01T09:00:00" init_db
  = (Returns [Reply RCodePositive], init_db).
Proof.
  apply (C6_code_cmd_rejects [8455153833] (fun _ => Some (-5)) 8455153833 "-5" []
           "Zx3kQ9pLm2A" "2024-05-01T09:00:00" init_db).
  intros n [= <-]. lia.
Defined.

(** C6 read of generate_code itself does not hold: it checks nothing and
    inserts a row for amount 0 and for amount -5. *)
Lemma C6_counterexample :
  generate_code "Zx3kQ9pLm2A" "2024-05-01T09:00:00" 0 8455153833 init_db
  = (Returns "Zx3kQ9pLm2A"%string,
     Db ∅ {[ "Zx3kQ9pLm2A"%string
               := CodeRow 0 8455153833 "2024-05-01T09:00:00" None None ]}) /\
  generate_code "Zx3kQ9pLm2A" "2024-05-01T09:00:00" (-5) 8455153833 init_db
  = (Returns "Zx3kQ9pLm2A"%string,
     Db ∅ {[ "Zx3kQ9pLm2A"%string
               := CodeRow (-5) 8455153833 "2024-05-01T09:00:00" None None ]}).
Proof. split; reflexivity. Qed.

(** ** The /num handler *)

Lemma get_credits_present (u : Z) (d : db) :
  fits u = true -> is_Some (users d !! u) ->
  get_credits u d = (Returns (balance d u), d).
Proof.
  intros Fu [row H]. rewrite get_credits_eq, Fu, (ensure_user_present _ _ _ H).
  reflexivity.
Qed.

Lemma topup_keeps_row (today : string) (u : Z) (d : db) :
  is_Some (users d !! u) ->
  is_Some (users (store_of (topup_if_needed_sync today u) d) !! u).
Proof.
  intros Hs. unfold store_of. rewrite topup_if_needed_sync_eq.
  destruct (fits u); [| exact Hs]. destruct (bool_decide _); [exact Hs |].
  destruct (fits _); [| exact Hs]. cbn. rewrite lookup_insert_eq. eauto.
Qed.

(** The first two awaits: they raise on an id that does not fit, and
    otherwise end as the grant ends on the store with the account. *)
Lemma gate_eq (today : string) (u : Z) (d : db) :
  gate today u d =
  if fits u then topup_if_needed_sync today u (store_of (ensure_user_sync u) d)
  else (Raises OverflowError, d).
Proof.
  unfold gate, ensure_user, topup_if_needed, store_of, mbind, M_bind.
  rewrite ensure_user_sync_eq. destruct (fits u); reflexivity.
Qed.

Lemma gate_store_eq (today : string) (u : Z) (d : db) :
  gate_store today u d = store_of (gate today u) d.
Proof.
  unfold gate_store, ensure_user, topup_if_needed. unfold store_of at 3.
  rewrite gate_eq. destruct (fits u) eqn:Fu; [reflexivity |].
  unfold store_of. rewrite ensure_user_sync_eq, Fu. cbn [snd].
  rewrite topup_if_needed_sync_eq, Fu. reflexivity.
Qed.

Lemma gate_pair (today : string) (u : Z) (d : db) :
  gate today u d = (result_of (gate today u) d, gate_store today u d).
Proof. rewrite gate_store_eq. unfold result_of, store_of. destruct (gate today u d); reflexivity. Qed.

(** When the two awaits return, the id fits, the account is there, and what
    they return is the balance they leave. *)
Lemma gate_returns_inv (today : string) (u : Z) (d : db) (c : Z) :
  result_of (gate today u) d = Returns c ->
  fits u = true /\ is_Some (users (gate_store today u d) !! u) /\
  c = balance (gate_store today u d) u.
Proof.
  rewrite gate_store_eq. unfold result_of, store_of. rewrite gate_eq.
  destruct (fits u) eqn:Fu; [| discriminate]. intros H.
  split; [reflexivity |].
  pose proof (ensure_user_is_Some d u Fu) as Hs.
  set (d0 := store_of (ensure_user_sync u) d) in *.
  split; [apply (topup_keeps_row today u d0 Hs) |].
  revert H. rewrite topup_if_needed_sync_eq, Fu.
  destruct (bool_decide _); [cbn; congruence |].
  destruct (fits (balance d0 u + DAILY_FREE_CREDITS)); [| discriminate].
  cbn [fst snd]. intros [= Hc]. subst c.
  rewrite balance_insert, decide_True by done. reflexivity.
Qed.

(** When they raise, no balance and no date has moved. *)
Lemma gate_raises_inv (today : string) (u : Z) (d : db) (e : exn) :
  result_of (gate today u) d = Raises e ->
  e = OverflowError /\
  (forall w, balance (gate_store today u d) w = balance d w) /\
  (forall w, last_topup (gate_store today u d) w = last_topup d w) /\
  codes (gate_store today u d) = codes d.
Proof.
  rewrite gate_store_eq. unfold result_of, store_of. rewrite gate_eq.
  destruct (fits u) eqn:Fu; [| cbn; intros [= <-]; auto].
  rewrite topup_if_needed_sync_eq, Fu.
  destruct (bool_decide _); [discriminate |].
  destruct (fits (_ + _)); [discriminate |]. cbn. intros [= <-].
  split; [reflexivity |]. split; [| split].
  - intros w. apply ensure_user_balance.
  - intros w. apply ensure_user_last_topup.
  - apply ensure_user_codes.
Qed.

Lemma change_credits_keeps_row (u delta : Z) (d : db) :
  is_Some (users d !! u) -> is_Some (users (store_of (change_credits u delta) d) !! u).
Proof.
  intros Hs. unfold store_of at 1. rewrite change_credits_eq.
  destruct (fits u); [| exact Hs].
  destruct (fits _); cbn [snd].
  - cbn. rewrite lookup_insert_eq. eauto.
  - destruct Hs as [row H]. rewrite (ensure_user_present _ _ _ H). eauto.
Qed.

(** The two awaits keep the store one of 64-bit integers, so the balance
    they leave is one. *)
Lemma gate_store_int64 (today : string) (u : Z) (d : db) :
  int64_store d -> int64_store (gate_store today u d).
Proof.
  intros H. unfold gate_store, topup_if_needed, ensure_user.
  apply topup_int64, ensure_user_int64, H.
Qed.

Lemma gate_then {A} (today : string) (u : Z) (k : M A) (d : db) :
  (ensure_user u;; topup_if_needed today u;; k) d
  = match gate today u d with
    | (Returns _, d1) => k d1
    | (Raises e, d1) => (Raises e, d1)
    end.
Proof.
  unfold gate, mbind, M_bind.
  destruct (ensure_user u d) as [[[]|e0] d0]; [| reflexivity].
  destruct (topup_if_needed today u d0) as [[c|e1] d1]; reflexivity.
Qed.

Section Num.

Context {text : PyText}.
Variable ADMIN_IDS : list Z.

(** [after_request] always returns, and the store it leaves: an admin is
    never charged; anyone else is charged, or the charge is attempted,
    exactly when the lookup gave records to show. *)
Lemma after_request_eq (u : Z) (is_admin : bool) (resp : http_result) (d : db) :
  fits u = true -> is_Some (users d !! u) ->
  exists evs,
    after_request u is_admin resp d
    = (Returns evs,
       match usable_result resp with
       | [] => d
       | _ :: _ => if is_admin then d
                   else store_of (change_credits u (- CREDIT_COST_PER_LOOKUP)) d
       end).
Proof.
  intros Fu Hs. unfold after_request, usable_result.
  destruct resp as [|status [data|]]; [eexists; reflexivity | |].
  2:{ destruct (bool_decide (status ≠ 200)); eexists; reflexivity. }
  destruct (bool_decide (status ≠ 200)); [eexists; reflexivity |].
  destruct (unwrap data) as [r|data_list]; [eexists; reflexivity |].
  destruct (filter_records data_list) as [|rec recs]; [eexists; reflexivity |].
  destruct (send_results (rec :: recs) 1) as [blocks ok].
  unfold mbind, M_bind, attempt, mret, M_ret. destruct is_admin; cbn [negb].
  - destruct ok; eexists; reflexivity.
  - pose proof (change_credits_keeps_row u (- CREDIT_COST_PER_LOOKUP) d Hs) as Hs'.
    unfold store_of in *.
    destruct (change_credits u (- CREDIT_COST_PER_LOOKUP) d) as [[c|e] d'];
      cbn [snd] in *; [| eexists; reflexivity].
    destruct ok; [| eexists; reflexivity].
    rewrite (get_credits_present _ _ Fu Hs'). eexists; reflexivity.
Qed.

(** [num_cmd] on a well-formed number, case by case. *)
Lemma num_cmd_raises (u : Z) (arg0 : string) (rest : list string)
    (today : string) (resp : http_result) (d : db) (e : exn) :
  valid_number arg0 ->
  result_of (gate today u) d = Raises e ->
  num_cmd ADMIN_IDS u (arg0 :: rest) today resp d = (Raises e, gate_store today u d).
Proof.
  intros Hvalid Hr. pose proof (gate_pair today u d) as Hg. rewrite Hr in Hg.
  unfold num_cmd. rewrite (bool_decide_eq_true_2 _ Hvalid). cbn [negb].
  rewrite gate_then, Hg. reflexivity.
Qed.

Lemma num_cmd_short (u : Z) (arg0 : string) (rest : list string)
    (today : string) (resp : http_result) (d : db) (c : Z) :
  valid_number arg0 -> u ∉ ADMIN_IDS ->
  result_of (gate today u) d = Returns c ->
  balance (gate_store today u d) u < CREDIT_COST_PER_LOOKUP ->
  num_cmd ADMIN_IDS u (arg0 :: rest) today resp d
  = (Returns [Reply (RInsufficient (balance (gate_store today u d) u))],
     gate_store today u d).
Proof.
  intros Hvalid Hout Hr Hlt. pose proof (gate_pair today u d) as Hg. rewrite Hr in Hg.
  destruct (gate_returns_inv _ _ _ _ Hr) as (Fu & Hs & _).
  unfold num_cmd. rewrite (bool_decide_eq_true_2 _ Hvalid). cbn [negb].
  rewrite (bool_decide_eq_false_2 _ Hout). cbn [negb].
  rewrite gate_then, Hg.
  set (d1 := gate_store today u d) in *.
  assert ((get_credits u ≫= λ c0, mret (if c0 <? CREDIT_COST_PER_LOOKUP
                                         then Some c0 else None)) d1
          = (Returns (Some (balance d1 u)), d1)) as Hshort.
  { rewrite (bind_returns _ _ _ _ _ (get_credits_present _ _ Fu Hs)), ret_eq.
    destruct (Z.ltb_spec (balance d1 u) CREDIT_COST_PER_LOOKUP) as [_|Hge]; [| lia].
    reflexivity. }
  rewrite (bind_returns _ _ _ _ _ Hshort). reflexivity.
Qed.

Lemma num_cmd_passed (u : Z) (arg0 : string) (rest : list string)
    (today : string) (resp : http_result) (d : db) (c : Z) :
  valid_number arg0 ->
  result_of (gate today u) d = Returns c ->
  u ∈ ADMIN_IDS \/ CREDIT_COST_PER_LOOKUP <= balance (gate_store today u d) u ->
  exists evs,
    num_cmd ADMIN_IDS u (arg0 :: rest) today resp d
    = (Returns (Reply (RLookingUp (digits_of (py_strip arg0)))
                  :: HttpGet (digits_of (py_strip arg0)) :: evs),
       match usable_result resp with
       | [] => gate_store today u d
       | _ :: _ =>
           if bool_decide (u ∈ ADMIN_IDS) then gate_store today u d
           else store_of (change_credits u (- CREDIT_COST_PER_LOOKUP))
                  (gate_store today u d)
       end).
Proof.
  intros Hvalid Hr Hpass. pose proof (gate_pair today u d) as Hg. rewrite Hr in Hg.
  destruct (gate_returns_inv _ _ _ _ Hr) as (Fu & Hs & _).
  destruct (after_request_eq u (bool_decide (u ∈ ADMIN_IDS)) resp _ Fu Hs)
    as [evs Hafter].
  exists evs.
  unfold num_cmd. rewrite (bool_decide_eq_true_2 _ Hvalid). cbn [negb].
  rewrite gate_then, Hg.
  set (d1 := gate_store today u d) in *.
  destruct (bool_decide (u ∈ ADMIN_IDS)) eqn:Ea; cbn [negb].
  - unfold mbind at 1, M_bind at 1. rewrite ret_eq.
    rewrite (bind_returns _ _ _ _ _ Hafter). reflexivity.
  - assert ((get_credits u ≫= λ c0, mret (if c0 <? CREDIT_COST_PER_LOOKUP
                                           then Some c0 else None)) d1
            = (Returns None, d1)) as Hshort.
    { rewrite (bind_returns _ _ _ _ _ (get_credits_present _ _ Fu Hs)), ret_eq.
      destruct Hpass as [Hin|Hge];
        [apply bool_decide_eq_false_1 in Ea; contradiction |].
      destruct (Z.ltb_spec (balance d1 u) CREDIT_COST_PER_LOOKUP) as [Hlt|_]; [lia |].
      reflexivity. }
    rewrite (bind_returns _ _ _ _ _ Hshort).
    rewrite (bind_returns _ _ _ _ _ Hafter). reflexivity.
Qed.

End Num.

Lemma charge_balance (u : Z) (d : db) :
  fits u = true -> fits (balance d u) = true ->
  CREDIT_COST_PER_LOOKUP <= balance d u ->
  let d' := store_of (change_credits u (- CREDIT_COST_PER_LOOKUP)) d in
  balance d' u = balance d u - CREDIT_COST_PER_LOOKUP /\
  (forall w, w ≠ u -> balance d' w = balance d w) /\
  (forall w, last_topup d' w = last_topup d w) /\
  codes d' = codes d.
Proof.
  intros Fu Fb Hge d'. subst d'. unfold store_of. rewrite change_credits_eq, Fu.
  assert (fits (Z.max 0 (balance d u + - CREDIT_COST_PER_LOOKUP)) = true) as ->.
  { apply fits_bounds. apply fits_bounds in Fb. unfold CREDIT_COST_PER_LOOKUP in *.
    unfold INT64_MIN, INT64_MAX in *. lia. }
  cbn [snd]. rewrite balance_insert, decide_True by done. cbn [credits].
  split; [lia |]. split; [| split; [| reflexivity]].
  - intros w Hw. rewrite balance_insert, decide_False by done. destruct d; reflexivity.
  - intros w. rewrite last_topup_insert. destruct (decide (u = w)) as [->|Hne].
    + reflexivity.
    + destruct d; reflexivity.
Qed.

(** C7. A caller who is not an admin, with a well-formed number, whatever
    Python's text operations make of the argument. If ensuring the account
    or the daily grant raises, the handler raises: no reply, no request, and
    no balance has moved. Otherwise let the balance be the one read after
    the two. If it is below CREDIT_COST_PER_LOOKUP the handler only replies
    with the insufficient-credits message carrying that balance: no request
    is made and the store is not touched further. Otherwise the request is
    made; a lookup that fails or gives no record to show leaves the store as
    it was, and one that gives records takes exactly the cost from the
    caller's balance and nothing from anyone else. (That balance is a value
    of sqlite's INTEGER column, so it fits 64 bits: [int64_store] holds
    of every store the bot reaches, and [gate_store_int64] keeps it.) *)
Theorem C7_gate_standard
    (text : PyText) (ADMIN_IDS : list Z) (u : Z) (arg0 : string) (rest : list string)
    (today : string) (resp : http_result) (d : db) :
  u ∉ ADMIN_IDS ->
  valid_number arg0 ->
  let d1 := gate_store today u d in
  let r := num_cmd ADMIN_IDS u (arg0 :: rest) today resp d in
  (forall e, result_of (gate today u) d = Raises e ->
     r = (Raises e, d1) /\ forall w, balance d1 w = balance d w) /\
  (forall c, result_of (gate today u) d = Returns c ->
     (balance d1 u < CREDIT_COST_PER_LOOKUP ->
        r = (Returns [Reply (RInsufficient (balance d1 u))], d1)) /\
     (CREDIT_COST_PER_LOOKUP <= balance d1 u ->
        (exists evs, r.1 = Returns evs /\ HttpGet (digits_of (py_strip arg0)) ∈ evs) /\
        (usable_result resp = [] -> r.2 = d1) /\
        (usable_result resp ≠ [] -> fits (balance d1 u) = true ->
           balance r.2 u = balance d1 u - CREDIT_COST_PER_LOOKUP /\
           (forall w, w ≠ u -> balance r.2 w = balance d1 w) /\
           codes r.2 = codes d1))).
Proof.
  intros Hout Hvalid d1 r. subst d1 r. split.
  - intros e Hr. split; [apply num_cmd_raises; assumption |].
    apply (gate_raises_inv _ _ _ _ Hr).
  - intros c Hr. split.
    + intros Hlt. eapply num_cmd_short; eassumption.
    + intros Hge.
      destruct (num_cmd_passed ADMIN_IDS u arg0 rest today resp d c Hvalid Hr
                  (or_intror Hge)) as [evs ->].
      cbn [fst snd]. rewrite (bool_decide_eq_false_2 _ Hout).
      split; [exists (Reply (RLookingUp (digits_of (py_strip arg0)))
                       :: HttpGet (digits_of (py_strip arg0)) :: evs);
              split; [reflexivity | apply list_elem_of_further, list_elem_of_here] |].
      split.
      * intros ->. reflexivity.
      * intros Hne Fb. destruct (usable_result resp) as [|rec recs]; [contradiction |].
        destruct (gate_returns_inv _ _ _ _ Hr) as (Fu & _ & _).
        destruct (charge_balance u _ Fu Fb Hge) as (H1 & H2 & _ & H3). auto.
Qed.

Lemma C7_gate_standard_witness :
  let resp := HttpResponse 200 (Some (JList [JDict [("name"%string, JStr "A")]])) in
  let poor := Db {[ 7 := UserRow 0 (Some "2024-05-01"%string) ]} ∅ in
  let rich := Db {[ 7 := UserRow 5 (Some "2024-05-01"%string) ]} ∅ in
  num_cmd (text := ascii_text) [8455153833] 7 ["7986782429"%string] "2024-05-01" resp poor
  = (Returns [Reply (RInsufficient 0)], poor) /\
  balance (num_cmd (text := ascii_text) [8455153833] 7 ["7986782429"%string]
             "2024-05-01" resp rich).2 7 = 4 /\
  (num_cmd (text := ascii_text) [8455153833] 7 ["7986782429"%string]
     "2024-05-01" HttpRaises rich).2 = rich.
Proof.
  intros resp poor rich.
  assert (Hout : 7 ∉ [8455153833])
    by (apply not_elem_of_cons; split; [discriminate | apply not_elem_of_nil]).
  assert (Hvalid : valid_number (text := ascii_text) "7986782429")
    by (vm_compute; apply list_elem_of_here).
  split; [| split].
  - destruct (C7_gate_standard ascii_text [8455153833] 7 "7986782429" [] "2024-05-01"
                resp poor Hout Hvalid) as [_ Hret].
    destruct (Hret 0) as [Hshort _]; [reflexivity |].
    apply Hshort. vm_compute. reflexivity.
  - destruct (C7_gate_standard ascii_text [8455153833] 7 "7986782429" [] "2024-05-01"
                resp rich Hout Hvalid) as [_ Hret].
    destruct (Hret 5) as [_ Hpass]; [reflexivity |].
    destruct Hpass as (_ & _ & Hcharged); [vm_compute; discriminate |].
    destruct Hcharged as (Hb & _); [discriminate | reflexivity |].
    rewrite Hb. reflexivity.
  - destruct (C7_gate_standard ascii_text [8455153833] 7 "7986782429" [] "2024-05-01"
                HttpRaises rich Hout Hvalid) as [_ Hret].
    destruct (Hret 5) as [_ Hpass]; [reflexivity |].
    destruct Hpass as (_ & Hfailed & _); [vm_compute; discriminate |].
    rewrite Hfailed; reflexivity.
Defined.

(** C8, as the code has it. For an admin the handler charges nothing and
    makes the request whatever the balance, whatever the lookup gives; the
    account is ensured and the daily grant applied as for everyone: the
    store the handler leaves is the one those two calls leave. It is the
    store it started from when the grant was already applied today;
    otherwise, the id and the grown balance fitting 64 bits, the admin's
    credits have grown by DAILY_FREE_CREDITS and the date of the last grant
    is today. *)
Theorem C8_gate_privileged
    (text : PyText) (ADMIN_IDS : list Z) (u : Z) (arg0 : string) (rest : list string)
    (today : string) (resp : http_result) (d : db) :
  u ∈ ADMIN_IDS ->
  valid_number arg0 ->
  let r := num_cmd ADMIN_IDS u (arg0 :: rest) today resp d in
  r.2 = gate_store today u d /\
  (forall e, result_of (gate today u) d = Raises e -> r.1 = Raises e) /\
  (forall c, result_of (gate today u) d = Returns c ->
     exists evs, r.1 = Returns evs /\ HttpGet (digits_of (py_strip arg0)) ∈ evs) /\
  (last_topup d u = Some today -> r.2 = d) /\
  (last_topup d u ≠ Some today ->
   fits u = true -> fits (balance d u + DAILY_FREE_CREDITS) = true ->
     balance r.2 u = balance d u + DAILY_FREE_CREDITS /\
     last_topup r.2 u = Some today).
Proof.
  intros Hin Hvalid r.
  assert (Hstore : r.2 = gate_store today u d).
  { subst r. destruct (result_of (gate today u) d) as [c|e] eqn:Hr.
    - destruct (num_cmd_passed ADMIN_IDS u arg0 rest today resp d c Hvalid Hr
                  (or_introl Hin)) as [evs ->].
      cbn [snd]. rewrite (bool_decide_eq_true_2 _ Hin).
      destruct (usable_result resp); reflexivity.
    - rewrite (num_cmd_raises ADMIN_IDS u arg0 rest today resp d e Hvalid Hr).
      reflexivity. }
  split; [exact Hstore |]. rewrite Hstore. subst r. split; [| split].
  - intros e Hr. rewrite (num_cmd_raises ADMIN_IDS u arg0 rest today resp d e Hvalid Hr).
    reflexivity.
  - intros c Hr.
    destruct (num_cmd_passed ADMIN_IDS u arg0 rest today resp d c Hvalid Hr
                (or_introl Hin)) as [evs ->].
    eexists. split; [reflexivity |]. apply list_elem_of_further, list_elem_of_here.
  - unfold gate_store, ensure_user, topup_if_needed.
    pose proof (ensure_user_balance d u u) as Hb.
    pose proof (ensure_user_last_topup d u u) as Ht.
    set (d0 := store_of (ensure_user_sync u) d) in *.
    split.
    + intros Htoday. unfold store_of at 1. rewrite topup_if_needed_sync_eq.
      rewrite Ht, (bool_decide_eq_true_2 _ Htoday).
      assert (d0 = d) as ->.
      { subst d0. unfold last_topup in Htoday.
        destruct (users d !! u) as [row|] eqn:E; [| discriminate].
        apply (ensure_user_present _ _ _ E). }
      destruct (fits u); reflexivity.
    + intros Hdiff Fu Fb. rewrite <- Ht in Hdiff. rewrite <- Hb in Fb |- *.
      exact (topup_due_after today u d0 Fu Fb Hdiff).
Qed.

Lemma C8_gate_privileged_witness :
  let d := Db {[ 8455153833 := UserRow 5 (Some "2024-05-01"%string) ]} ∅ in
  (num_cmd (text := ascii_text) [8455153833] 8455153833 ["7986782429"%string] "2024-05-01"
     (HttpResponse 200 (Some (JList [JDict [("name"%string, JStr "A")]]))) d).2 = d.
Proof.
  intros d.
  destruct (C8_gate_privileged ascii_text [8455153833] 8455153833 "7986782429" []
              "2024-05-01"
              (HttpResponse 200 (Some (JList [JDict [("name"%string, JStr "A")]]))) d)
    as (_ & _ & _ & Hsame & _).
  - apply list_elem_of_here.
  - vm_compute. apply list_elem_of_here.
  - apply Hsame. reflexivity.
Defined.

(** C8 with the grant left out does not hold: the daily grant is applied
    before the handler looks at who is calling. An admin whose last grant
    was yesterday leaves /num with 30 more credits and today as the date of
    the last grant. *)
Lemma C8_counterexample :
  let d := Db {[ 8455153833 := UserRow 5 (Some "2024-04-30"%string) ]} ∅ in
  let r := num_cmd (text := ascii_text) [8455153833] 8455153833 ["7986782429"%string]
             "2024-05-01" HttpRaises d in
  users d !! 8455153833 = Some (UserRow 5 (Some "2024-04-30"%string)) /\
  users r.2 !! 8455153833 = Some (UserRow 35 (Some "2024-05-01"%string)).
Proof. split; reflexivity. Qed.


(** ** Concurrent redeem calls *)

Section Counting.
Context {A : Type}.
Implicit Types (P : A -> bool) (l : list A).

Lemma filter_none P l :
  (forall j t, l !! j = Some t -> P t = false) -> List.filter P l = [].
Proof.
  induction l as [|x l IH]; intros H; [reflexivity |]. simpl.
  rewrite (H 0%nat x eq_refl). apply IH. intros j t Hj. exact (H (S j) t Hj).
Qed.

Lemma filter_all P l :
  (forall j t, l !! j = Some t -> P t = true) -> List.filter P l = l.
Proof.
  induction l as [|x l IH]; intros H; [reflexivity |]. simpl.
  rewrite (H 0%nat x eq_refl). f_equal. apply IH. intros j t Hj. exact (H (S j) t Hj).
Qed.

(** One element satisfies [P] and no other does: [P] counts 1. *)
Lemma count_only P l (i : nat) (x : A) :
  l !! i = Some x -> P x = true ->
  (forall j t, j ≠ i -> l !! j = Some t -> P t = false) ->
  length (List.filter P l) = 1%nat.
Proof.
  revert i. induction l as [|y l IH]; intros i Hi Hx Hothers; [discriminate |].
  destruct i as [|i]; simpl in *.
  - injection Hi as ->. rewrite Hx. simpl. rewrite filter_none; [reflexivity |].
    intros j t Hj. apply (Hothers (S j) t); [lia | exact Hj].
  - rewrite (Hothers 0%nat y) by (lia || reflexivity).
    apply (IH i Hi Hx). intros j t Hne Hj. apply (Hothers (S j) t); [lia | exact Hj].
Qed.

(** One element fails [P] and every other satisfies it: [P] counts all
    but one. *)
Lemma count_all_but P l (i : nat) (x : A) :
  l !! i = Some x -> P x = false ->
  (forall j t, j ≠ i -> l !! j = Some t -> P t = true) ->
  length (List.filter P l) = (length l - 1)%nat.
Proof.
  revert i. induction l as [|y l IH]; intros i Hi Hx Hothers; [discriminate |].
  destruct i as [|i]; simpl in *.
  - injection Hi as ->. rewrite Hx. rewrite filter_all; [lia |].
    intros j t Hj. apply (Hothers (S j) t); [lia | exact Hj].
  - rewrite (Hothers 0%nat y) by (lia || reflexivity). simpl.
    rewrite (IH i Hi Hx).
    + apply lookup_lt_Some in Hi. lia.
    + intros j t Hne Hj. apply (Hothers (S j) t); [lia | exact Hj].
Qed.

Lemma forallb_false_lookup P l :
  forallb P l = false -> exists j t, l !! j = Some t /\ P t = false.
Proof.
  induction l as [|x l IH]; simpl; [discriminate |].
  destruct (P x) eqn:E; simpl.
  - intros H. destruct (IH H) as (j & t & Hj & Ht). exists (S j), t. auto.
  - intros _. exists 0%nat, x. auto.
Qed.

Lemma forallb_true_lookup P l j t :
  forallb P l = true -> l !! j = Some t -> P t = true.
Proof.
  intros H Hj. rewrite forallb_forall in H. apply H.
  apply list_elem_of_In. eapply list_elem_of_lookup_2, Hj.
Qed.

Lemma sum_list_insert (f : A -> nat) l (i : nat) (x y : A) (a b : nat) :
  l !! i = Some x -> f x = a -> f y = b ->
  (sum_list (map f (<[i := y]> l)) + a = sum_list (map f l) + b)%nat.
Proof.
  intros Hi <- <-. revert i Hi. induction l as [|z l IH]; intros i Hi; [discriminate |].
  destruct i as [|i]; simpl in *.
  - injection Hi as ->. lia.
  - specialize (IH i Hi). lia.
Qed.
End Counting.

Section RaceFacts.
Import Race.

Variables (code : string) (d0 : db) (row : code_row) (callers : list Z).
Hypothesis Hrow : codes d0 !! code = Some row.
Hypothesis Hunused : used_by row = None.
Hypothesis Hfits : forall u, u ∈ callers ->
  fits u = true /\ fits (balance d0 u + amount row) = true.

Lemma task_caller (ts : list task) (i : nat) (u : Z) (p : phase) :
  map caller ts = callers -> ts !! i = Some (Task u p) -> u ∈ callers.
Proof.
  intros <- Hi. apply list_elem_of_lookup. exists i.
  rewrite list_lookup_fmap, Hi. reflexivity.
Qed.

Lemma redeem_first (now : string) (u : Z) :
  u ∈ callers ->
  redeem_code_sync now code u d0
  = (Returns (Redeemed (amount row)),
     Db (<[u := UserRow (balance d0 u + amount row) (last_topup d0 u)]> (users d0))
        (<[code := CodeRow (amount row) (created_by row) (created_at row)
                           (Some u) (Some now)]> (codes d0))).
Proof.
  intros Hu. destruct (Hfits u Hu) as [Fu Fb].
  apply redeem_unused; assumption.
Qed.

Lemma inv_start : inv code d0 row callers (start d0 callers).
Proof.
  unfold inv, start, lock_ok, untouched. simpl. split; [| split].
  - rewrite <- list_fmap_compose. apply list_fmap_id.
  - intros j v Hj. apply list_lookup_fmap_Some in Hj as (w & Hw & _). discriminate.
  - left. split; [reflexivity |]. intros j t Hj.
    apply list_lookup_fmap_Some in Hj as (w & -> & _). reflexivity.
Qed.

Lemma callers_insert (ts : list task) (i : nat) (u : Z) (p p' : phase) :
  ts !! i = Some (Task u p) ->
  map caller (<[i := Task u p']> ts) = map caller ts.
Proof.
  intros Hi. rewrite list_fmap_insert. simpl. apply list_insert_id.
  rewrite list_lookup_fmap, Hi. reflexivity.
Qed.

(** The store of a state where the code has been redeemed holds it used. *)
Lemma won_store_used (now : string) (u : Z) :
  u ∈ callers ->
  exists row', codes (store_of (redeem_code_sync now code u) d0) !! code = Some row' /\
               used_by row' = Some u.
Proof.
  intros Hu. unfold store_of. rewrite (redeem_first _ _ Hu). simpl.
  rewrite lookup_insert_eq. eauto.
Qed.

Lemma inv_step (s s' : state) :
  inv code d0 row callers s -> step code s s' -> inv code d0 row callers s'.
Proof.
  intros (Hcallers & Hlock & Hphase) Hstep.
  destruct Hstep as [d ts i u Hi | d ts i u now Hi];
    unfold inv, lock_ok, untouched, won in *; simpl in *.
  - (* the lock is acquired *)
    split; [| split].
    + rewrite (callers_insert _ _ _ _ _ Hi). exact Hcallers.
    + exists i, u. split.
      * apply list_lookup_insert_eq. eapply lookup_lt_Some, Hi.
      * intros j v Hj. destruct (decide (j = i)) as [|Hne]; [assumption |].
        rewrite list_lookup_insert_ne in Hj by done. destruct (Hlock j v Hj).
    + destruct Hphase as [[Hd Hnone] | (iw & uw & now & Hw & Hd & Hothers)].
      * left. split; [exact Hd |]. intros j t Hj.
        destruct (decide (j = i)) as [->|Hne].
        -- rewrite list_lookup_insert_eq in Hj by (eapply lookup_lt_Some, Hi).
           injection Hj as <-. reflexivity.
        -- rewrite list_lookup_insert_ne in Hj by done. exact (Hnone j t Hj).
      * right. exists iw, uw, now.
        assert (Hne : i ≠ iw) by (intros ->; rewrite Hi in Hw; discriminate).
        split; [rewrite list_lookup_insert_ne by done; exact Hw |].
        split; [exact Hd |]. intros j t Hj Ht.
        destruct (decide (j = i)) as [->|Hne'].
        -- rewrite list_lookup_insert_eq in Ht by (eapply lookup_lt_Some, Hi).
           injection Ht as <-. auto.
        -- rewrite list_lookup_insert_ne in Ht by done. exact (Hothers j t Hj Ht).
  - (* the body runs and the lock is released *)
    destruct Hlock as (ih & uh & Hh & Honly).
    assert (i = ih) as <- by exact (Honly i u Hi).
    split; [| split].
    + rewrite (callers_insert _ _ _ _ _ Hi). exact Hcallers.
    + intros j v Hj. destruct (decide (j = i)) as [->|Hne].
      * rewrite list_lookup_insert_eq in Hj by (eapply lookup_lt_Some, Hi).
        discriminate.
      * rewrite list_lookup_insert_ne in Hj by done. apply Hne. exact (Honly j v Hj).
    + right. destruct Hphase as [[Hd Hnone] | (iw & uw & noww & Hw & Hd & Hothers)].
      * subst d. exists i, u, now. split; [| split].
        -- rewrite list_lookup_insert_eq by (eapply lookup_lt_Some, Hi).
           unfold result_of.
           rewrite (redeem_first _ _ (task_caller _ _ _ _ Hcallers Hi)).
           reflexivity.
        -- reflexivity.
        -- intros j t Hne Hj. rewrite list_lookup_insert_ne in Hj by done.
           specialize (Hnone j t Hj). destruct t as [v [| |r]]; simpl in *; auto.
           discriminate.
      * assert (Hne : i ≠ iw) by (intros ->; rewrite Hi in Hw; discriminate).
        destruct (won_store_used noww uw (task_caller _ _ _ _ Hcallers Hw))
          as (row' & Hrow' & Hused').
        rewrite <- Hd in Hrow'.
        unfold store_of, result_of.
        rewrite (redeem_used now code u d row' uw Hrow' Hused'). simpl.
        exists iw, uw, noww. split; [| split].
        -- rewrite list_lookup_insert_ne by done. exact Hw.
        -- exact Hd.
        -- intros j t Hj Ht. destruct (decide (j = i)) as [->|Hne'].
           ++ rewrite list_lookup_insert_eq in Ht by (eapply lookup_lt_Some, Hi).
              injection Ht as <-. auto.
           ++ rewrite list_lookup_insert_ne in Ht by done. exact (Hothers j t Hj Ht).
Qed.

Lemma inv_reachable (s : state) :
  rtc (step code) (start d0 callers) s -> inv code d0 row callers s.
Proof.
  revert s. apply rtc_ind_r; [exact inv_start |].
  intros s s' _ Hstep Hinv. exact (inv_step s s' Hinv Hstep).
Qed.

(** A state that is not finished takes a step: the holder of the lock
    runs its body, or, the lock being free, a waiting task acquires it. *)
Lemma progress (s : state) :
  inv code d0 row callers s -> finished s = false -> exists s', step code s s'.
Proof.
  intros (_ & Hlock & _) Hnot. destruct s as [d l ts].
  unfold lock_ok, finished in *. simpl in *. destruct l.
  - destruct Hlock as (i & u & Hi & _).
    eexists. exact (step_body code d ts i u ""%string Hi).
  - destruct (forallb_false_lookup _ _ Hnot) as (j & [u p] & Hj & Hp).
    destruct p as [| |r]; simpl in Hp; [| | discriminate].
    + eexists. exact (step_acquire code d ts j u Hj).
    + destruct (Hlock j u Hj).
Qed.

Lemma step_work (s s' : state) : step code s s' -> (work s' < work s)%nat.
Proof.
  intros [d ts i u Hi | d ts i u now Hi]; unfold work; simpl.
  - pose proof (sum_list_insert remaining ts i _ (Task u Holding) 2 1 Hi
                  eq_refl eq_refl).
    lia.
  - pose proof (sum_list_insert remaining ts i _
                  (Task u (Done (result_of (redeem_code_sync now code u) d))) 1 0 Hi
                  eq_refl eq_refl).
    lia.
Qed.

Lemma finished_won (s : state) :
  callers ≠ [] -> inv code d0 row callers s -> finished s = true ->
  exists i u now,
    tasks s !! i = Some (Task u (Done (Returns (Redeemed (amount row))))) /\
    callers !! i = Some u /\
    store s = store_of (redeem_code_sync now code u) d0 /\
    forall j t, j ≠ i -> tasks s !! j = Some t ->
      at_phase t = Done (Returns CodeAlreadyUsed).
Proof.
  intros Hsome (Hcallers & _ & Hphase) Hfin. unfold finished in Hfin.
  destruct Hphase as [[_ Hnone] | (i & u & now & Hw & Hd & Hothers)].
  - exfalso. destruct (tasks s) as [|t ts] eqn:E.
    + simpl in Hcallers. congruence.
    + pose proof (Hnone 0%nat t eq_refl) as Hn. simpl in Hfin.
      rewrite Hn in Hfin. discriminate.
  - exists i, u, now. split; [exact Hw |]. split; [| split; [exact Hd |]].
    + rewrite <- Hcallers, list_lookup_fmap, Hw. reflexivity.
    + intros j t Hne Hj. pose proof (forallb_true_lookup _ _ _ _ Hfin Hj) as Hdone.
      destruct (Hothers j t Hne Hj) as [H|[H|H]]; [| | exact H];
        unfold is_done in Hdone; rewrite H in Hdone; discriminate.
Qed.
End RaceFacts.


(** C2 (as the code has it). Any number of tasks, at least one, call
    redeem_code on one code the store holds unused, and are scheduled in any
    order; every caller's id fits sqlite's 64-bit INTEGER and so does its
    balance plus the amount. When all have returned, exactly one has
    returned [(True, amount)] and every other one
    [(False, "Code already used")]; the balance of the one that succeeded
    has grown by the amount once and no other balance has moved. Until
    then some task can always take a step, and every step brings the end
    nearer, so the calls do all return. *)
Theorem C2_concurrent_redeem
    (code : string) (d0 : db) (row : code_row) (callers : list Z) (s : Race.state) :
  codes d0 !! code = Some row -> used_by row = None -> callers ≠ [] ->
  (forall u, u ∈ callers -> fits u = true /\ fits (balance d0 u + amount row) = true) ->
  rtc (Race.step code) (Race.start d0 callers) s ->
  (Race.finished s = true ->
     length (List.filter Race.succeeded (Race.tasks s)) = 1%nat /\
     length (List.filter Race.lost (Race.tasks s)) = (length callers - 1)%nat /\
     exists i u,
       callers !! i = Some u /\
       Race.tasks s !! i
       = Some (Race.Task u (Race.Done (Returns (Redeemed (amount row))))) /\
       (forall j t, j ≠ i -> Race.tasks s !! j = Some t ->
          Race.at_phase t = Race.Done (Returns CodeAlreadyUsed)) /\
       balance (Race.store s) u = balance d0 u + amount row /\
       (forall w, w ≠ u -> balance (Race.store s) w = balance d0 w)) /\
  (Race.finished s = false -> exists s', Race.step code s s') /\
  (forall s', Race.step code s s' -> (Race.work s' < Race.work s)%nat).
Proof.
  intros Hrow Hunused Hsome Hfits Hrun.
  pose proof (inv_reachable code d0 row callers Hrow Hunused Hfits s Hrun) as Hinv.
  split; [| split].
  - intros Hfin.
    destruct (finished_won code d0 row callers s Hsome Hinv Hfin)
      as (i & u & now & Hw & Hc & Hd & Hothers).
    split; [| split].
    + apply (count_only _ _ i _ Hw); [reflexivity |].
      intros j t Hne Hj. unfold Race.succeeded. rewrite (Hothers j t Hne Hj). reflexivity.
    + destruct Hinv as (Hcallers & _). rewrite <- Hcallers, length_map.
      apply (count_all_but _ _ i _ Hw); [reflexivity |].
      intros j t Hne Hj. unfold Race.lost. rewrite (Hothers j t Hne Hj). reflexivity.
    + exists i, u. split; [exact Hc |]. split; [exact Hw |]. split; [exact Hothers |].
      assert (u ∈ callers) as Hu by (eapply list_elem_of_lookup_2, Hc).
      rewrite Hd. unfold store_of.
      rewrite (redeem_first code d0 row callers Hrow Hunused Hfits now u Hu). cbn [snd].
      split.
      * rewrite balance_insert, decide_True by done. reflexivity.
      * intros w Hne. rewrite balance_insert, decide_False by done.
        destruct d0; reflexivity.
  - apply (progress code d0 row callers s Hinv).
  - intros s'. apply step_work.
Qed.

Lemma C2_concurrent_redeem_witness :
  let code := "Zx3kQ9pLm2A"%string in
  let d0 := Db {[ 7 := UserRow 3 None ]}
               {[ code := CodeRow 100 1 "2024-05-01T09:00:00" None None ]} in
  let s := Race.State
             (Db {[ 7 := UserRow 3 None; 8 := UserRow 100 None ]}
                 {[ code := CodeRow 100 1 "2024-05-01T09:00:00" (Some 8)
                              (Some "2024-05-01T10:00:00"%string) ]})
             false
             [Race.Task 7 (Race.Done (Returns CodeAlreadyUsed));
              Race.Task 8 (Race.Done (Returns (Redeemed 100)));
              Race.Task 7 (Race.Done (Returns CodeAlreadyUsed))] in
  length (List.filter Race.succeeded (Race.tasks s)) = 1%nat /\
  length (List.filter Race.lost (Race.tasks s)) = 2%nat.
Proof.
  intros code d0 s.
  destruct (C2_concurrent_redeem code d0
              (CodeRow 100 1 "2024-05-01T09:00:00" None None) [7; 8; 7] s)
    as [Hend _].
  - reflexivity.
  - reflexivity.
  - discriminate.
  - intros u Hu. repeat (apply elem_of_cons in Hu as [->|Hu]; [split; reflexivity |]).
    apply elem_of_nil in Hu. destruct Hu.
  - eapply rtc_l; [refine (Race.step_acquire code _ _ 1 8 _); reflexivity |].
    eapply rtc_l; [refine (Race.step_body code _ _ 1 8 "2024-05-01T10:00:00" _); reflexivity |].
    eapply rtc_l; [refine (Race.step_acquire code _ _ 2 7 _); reflexivity |].
    eapply rtc_l; [refine (Race.step_body code _ _ 2 7 "2024-05-01T10:00:01" _); reflexivity |].
    eapply rtc_l; [refine (Race.step_acquire code _ _ 0 7 _); reflexivity |].
    eapply rtc_l; [refine (Race.step_body code _ _ 0 7 "2024-05-01T10:00:02" _); reflexivity |].
    apply rtc_refl.
  - destruct (Hend eq_refl) as (H1 & H2 & _). split; [exact H1 | exact H2].
Defined.

(** C2, as the specification words it, fails: two tasks redeem a code of
    2^63 - 1 credits; the one that gets the lock first holds the 30 credits
    of the daily grant, and its call raises OverflowError after the code was
    marked used; the other is told the code is already used. Both calls
    have ended, none has succeeded, and no balance has grown. *)
Lemma C2_counterexample :
  let code := "Zx3kQ9pLm2A"%string in
  let d0 := run_ops [OpTopup "2024-05-01" 7;
                     OpGenerate code "2024-05-01T09:00:00" INT64_MAX 1] init_db in
  exists s,
    rtc (Race.step code) (Race.start d0 [7; 8]) s /\
    Race.finished s = true /\
    Race.tasks s = [Race.Task 7 (Race.Done (Raises OverflowError));
                    Race.Task 8 (Race.Done (Returns CodeAlreadyUsed))] /\
    length (List.filter Race.succeeded (Race.tasks s)) = 0%nat /\
    (codes d0 !! code) ≫= used_by = None /\
    balance d0 7 = 30 /\ balance (Race.store s) 7 = 30 /\
    balance d0 8 = 0 /\ balance (Race.store s) 8 = 0.
Proof.
  intros code d0. eexists. split.
  - eapply rtc_l; [refine (Race.step_acquire code _ _ 0 7 _); reflexivity |].
    eapply rtc_l; [refine (Race.step_body code _ _ 0 7 "2024-05-01T10:00:00" _); reflexivity |].
    eapply rtc_l; [refine (Race.step_acquire code _ _ 1 8 _); reflexivity |].
    eapply rtc_l; [refine (Race.step_body code _ _ 1 8 "2024-05-01T10:00:01" _); reflexivity |].
    apply rtc_refl.
  - vm_compute. repeat split.
Qed.

(** * Further properties of the ledger and the registry *)

(** X1. Reading a balance with get_credits never changes a balance or a
    grant date: it returns the balance (it raises, having written nothing,
    on an id sqlite cannot take), and the only thing it may write is the row
    (0, NULL) of a user who had none. Asked again, it ends the same way and
    writes nothing. *)
Theorem X1_get_credits_reads (u : Z) (d : db) :
  let r := get_credits u d in
  r.1 = (if fits u then Returns (balance d u) else Raises OverflowError) /\
  (forall w, balance r.2 w = balance d w /\ last_topup r.2 w = last_topup d w) /\
  codes r.2 = codes d /\
  (is_Some (users d !! u) -> r.2 = d) /\
  (users d !! u = None ->
     users r.2 = if fits u then <[u := UserRow 0 None]> (users d) else users d) /\
  get_credits u r.2 = r.
Proof.
  intros r. subst r. rewrite get_credits_eq.
  destruct (fits u) eqn:Fu; cbn [fst snd].
  - split; [reflexivity |].
    split; [intros w; split; [apply ensure_user_balance | apply ensure_user_last_topup] |].
    split; [apply ensure_user_codes |].
    split; [| split].
    + intros [row Hrow]. apply (ensure_user_present _ _ _ Hrow).
    + intros Hnone. unfold store_of. rewrite ensure_user_sync_eq, Fu, Hnone. reflexivity.
    + rewrite (get_credits_present u _ Fu (ensure_user_is_Some d u Fu)).
      rewrite ensure_user_balance. reflexivity.
  - split; [reflexivity |]. split; [intros w; split; reflexivity |].
    split; [reflexivity |]. split; [reflexivity |]. split; [reflexivity |].
    rewrite get_credits_eq, Fu. reflexivity.
Qed.

Lemma X1_get_credits_reads_witness :
  get_credits 7 init_db = (Returns 0, Db {[ 7 := UserRow 0 None ]} ∅) /\
  get_credits 7 (Db {[ 7 := UserRow 0 None ]} ∅)
  = (Returns 0, Db {[ 7 := UserRow 0 None ]} ∅).
Proof.
  destruct (X1_get_credits_reads 7 init_db) as (H1 & _ & H3 & _ & H5 & H6).
  specialize (H5 eq_refl).
  assert (E : get_credits 7 init_db = (Returns 0, Db {[ 7 := UserRow 0 None ]} ∅)).
  { destruct (get_credits 7 init_db) as [c [us cs]]. simpl in *. subst. reflexivity. }
  split; [exact E |]. rewrite E in H6. exact H6.
Defined.

(** X2. One grant per change of date: when the grant is asked for on a list
    of dates none of which is the date just before it (nor, for the first,
    the date of the last grant), for a user whose id and whose balance
    before and after fit 64 bits, the balance grows by DAILY_FREE_CREDITS
    for every date of the list. *)
Theorem X2_grant_per_date (dates : list string) (u : Z) (d : db) :
  changes_each_time (last_topup d u) dates = true ->
  fits u = true -> fits (balance d u) = true ->
  fits (balance d u + DAILY_FREE_CREDITS * Z.of_nat (length dates)) = true ->
  balance (topup_on dates u d) u
  = balance d u + DAILY_FREE_CREDITS * Z.of_nat (length dates).
Proof.
  intros Hch Fu. revert d Hch. induction dates as [|today rest IH]; intros d Hch Fb Fe.
  - simpl. lia.
  - simpl in Hch. apply andb_prop in Hch as [Hfirst Hrest].
    apply negb_true_iff, bool_decide_eq_false_1 in Hfirst.
    assert (fits (balance d u + DAILY_FREE_CREDITS) = true) as F1.
    { apply fits_bounds in Fb, Fe. apply fits_bounds. cbn [length] in Fe.
      unfold DAILY_FREE_CREDITS in *. lia. }
    destruct (topup_due_after today u d Fu F1 Hfirst) as [Hb Ht].
    unfold topup_on. simpl. fold (topup_on rest u (store_of (topup_if_needed today u) d)).
    unfold topup_if_needed at 1. rewrite IH.
    + rewrite Hb. cbn [length]. rewrite Nat2Z.inj_succ. lia.
    + rewrite Ht. exact Hrest.
    + rewrite Hb. exact F1.
    + rewrite Hb. cbn [length] in Fe. rewrite Nat2Z.inj_succ in Fe.
      replace (balance d u + DAILY_FREE_CREDITS
               + DAILY_FREE_CREDITS * Z.of_nat (length rest))
        with (balance d u + DAILY_FREE_CREDITS * Z.succ (Z.of_nat (length rest))) by lia.
      exact Fe.
Qed.

Lemma X2_grant_per_date_witness :
  balance (topup_on ["2024-05-01"; "2024-05-02"; "2024-05-01"]%string 7
             (Db {[ 7 := UserRow 4 (Some "2024-04-30"%string) ]} ∅)) 7 = 94.
Proof.
  rewrite (X2_grant_per_date ["2024-05-01"; "2024-05-02"; "2024-05-01"]%string 7);
    reflexivity.
Defined.

Lemma insert_row_frame (d : db) (u w : Z) (row : user_row) :
  Some u ≠ Some w -> <[u := row]> (users d) !! w = users d !! w.
Proof. intros H. apply lookup_insert_ne. congruence. Qed.

Lemma ensure_user_frame (d : db) (u w : Z) :
  Some u ≠ Some w -> users (store_of (ensure_user_sync u) d) !! w = users d !! w.
Proof.
  intros Hw. unfold store_of. rewrite ensure_user_sync_eq.
  destruct (fits u); [| reflexivity].
  destruct (users d !! u); [reflexivity |]. apply insert_row_frame, Hw.
Qed.

Lemma change_credits_frame (d : db) (u delta w : Z) :
  Some u ≠ Some w -> users (store_of (change_credits u delta) d) !! w = users d !! w.
Proof.
  intros Hw. unfold store_of at 1. rewrite change_credits_eq.
  destruct (fits u); [| reflexivity].
  destruct (fits (Z.max _ _)); cbn [snd].
  - apply insert_row_frame, Hw.
  - apply ensure_user_frame, Hw.
Qed.

(** One call writes at most the row of the user it is made for and at most
    the row of the code it names. *)
Lemma run_op_frame (o : op) (d : db) :
  (forall w, op_user o ≠ Some w -> users (run_op o d) !! w = users d !! w) /\
  (forall c, op_code o ≠ Some c -> codes (run_op o d) !! c = codes d !! c).
Proof.
  destruct o as [u|today u|u|u delta|token at_ a by_|at_ code u]; simpl.
  - split; [| intros c _; unfold ensure_user; rewrite ensure_user_codes; reflexivity].
    intros w Hw. apply ensure_user_frame, Hw.
  - split; [| intros c _; unfold topup_if_needed; rewrite topup_codes; reflexivity].
    intros w Hw. unfold topup_if_needed, store_of. rewrite topup_if_needed_sync_eq.
    destruct (fits u); [| reflexivity]. destruct (bool_decide _); [reflexivity |].
    destruct (fits (_ + _)); [| reflexivity]. apply insert_row_frame, Hw.
  - rewrite get_credits_store.
    split; [| intros c _; rewrite ensure_user_codes; reflexivity].
    intros w Hw. apply ensure_user_frame, Hw.
  - split; [intros w Hw; apply change_credits_frame, Hw |].
    intros c _. rewrite change_credits_codes. reflexivity.
  - unfold generate_code, store_of. rewrite generate_code_sync_eq.
    destruct (fits a && fits by_); [| split; reflexivity].
    destruct (codes d !! token) as [row|] eqn:E; [split; reflexivity |]. cbn [snd].
    split; [reflexivity |].
    intros c Hc. apply lookup_insert_ne. congruence.
  - unfold redeem_code, store_of. rewrite redeem_code_sync_eq.
    destruct (codes d !! code) as [row|] eqn:E; [| split; reflexivity].
    destruct (used_by row) as [w'|] eqn:Eu; [split; reflexivity |].
    destruct (fits u); [| split; reflexivity]. cbn zeta.
    destruct (fits (_ + _)); cbn [snd]; split.
    + intros w Hw; apply insert_row_frame, Hw.
    + intros c Hc. apply lookup_insert_ne. congruence.
    + reflexivity.
    + intros c Hc. apply lookup_insert_ne. congruence.
Qed.

(** X3. Calls write only the rows they are made for: after any sequence of
    calls, the row of a user none of the calls is made for and the row of a
    code none of them names are as they were, present or absent. *)
Theorem X3_calls_frame (os : list op) (d : db) :
  (forall w, Forall (fun o => op_user o ≠ Some w) os ->
             users (run_ops os d) !! w = users d !! w) /\
  (forall c, Forall (fun o => op_code o ≠ Some c) os ->
             codes (run_ops os d) !! c = codes d !! c).
Proof.
  revert d. induction os as [|o os IH]; intros d; [split; reflexivity |].
  destruct (IH (run_op o d)) as [IHu IHc]. destruct (run_op_frame o d) as [Hu Hc].
  split.
  - intros w Hall. apply Forall_cons in Hall as [Ho Hos].
    rewrite run_ops_cons, (IHu w Hos). exact (Hu w Ho).
  - intros c Hall. apply Forall_cons in Hall as [Ho Hos].
    rewrite run_ops_cons, (IHc c Hos). exact (Hc c Ho).
Qed.

Lemma X3_calls_frame_witness :
  let d := Db {[ 7 := UserRow 3 None; 8 := UserRow 5 None ]} ∅ in
  users (run_ops [OpChange 7 (-1); OpTopup "2024-05-01" 7] d) !! 8
  = Some (UserRow 5 None).
Proof.
  intros d.
  destruct (X3_calls_frame [OpChange 7 (-1); OpTopup "2024-05-01" 7] d) as [Hu _].
  rewrite (Hu 8); [reflexivity |].
  repeat constructor; discriminate.
Defined.

(** One call: a row of [users] stays, and keeps having a grant date if it
    had one. *)
Lemma run_op_user_stays (o : op) (d : db) (u : Z) (row : user_row) :
  users d !! u = Some row ->
  exists row', users (run_op o d) !! u = Some row' /\
               (is_Some (last_topup_date row) -> is_Some (last_topup_date row')).
Proof.
  intros Hrow.
  destruct (decide (op_user o = Some u)) as [Hsame|Hother].
  - assert (Ht : last_topup d u = last_topup_date row)
      by (unfold last_topup; rewrite Hrow; reflexivity).
    destruct o as [v|today v|v|v delta|token at_ a by_|at_ code v]; simpl in *;
      try discriminate; injection Hsame as ->.
    + unfold ensure_user. rewrite (ensure_user_present _ _ _ Hrow). eauto.
    + unfold topup_if_needed, store_of. rewrite topup_if_needed_sync_eq.
      destruct (fits u); [| eauto]. destruct (bool_decide _); [eauto |].
      destruct (fits (_ + _)); [| eauto]. cbn. rewrite lookup_insert_eq. eauto.
    + rewrite get_credits_store, (ensure_user_present _ _ _ Hrow). eauto.
    + unfold store_of at 1. rewrite change_credits_eq.
      destruct (fits u); [| eauto].
      destruct (fits (Z.max _ _)); cbn [snd].
      * cbn. rewrite lookup_insert_eq, Ht. eauto.
      * rewrite (ensure_user_present _ _ _ Hrow). eauto.
    + unfold redeem_code, store_of. rewrite redeem_code_sync_eq.
      destruct (codes d !! code) as [crow|] eqn:E; [| eauto].
      destruct (used_by crow) as [w'|] eqn:Eu; [eauto |].
      destruct (fits u); [| eauto]. cbn zeta.
      destruct (fits (_ + _)); cbn [snd]; [| eauto].
      cbn. rewrite lookup_insert_eq, Ht. eauto.
  - destruct (run_op_frame o d) as [Hu _]. rewrite (Hu u Hother). eauto.
Qed.

(** One call: a row of [codes] stays, with its amount, issuer and creation
    time; a used row stays as it is. *)
Lemma run_op_code_stays (o : op) (d : db) (c : string) (row : code_row) :
  codes d !! c = Some row ->
  exists row', codes (run_op o d) !! c = Some row' /\
               amount row' = amount row /\ created_by row' = created_by row /\
               created_at row' = created_at row /\
               (is_Some (used_by row) -> row' = row).
Proof.
  intros Hrow. destruct (used_by row) as [w|] eqn:Eu.
  - exists row. split; [| auto].
    apply run_op_code_row; [exact Hrow | right; rewrite Eu; eauto].
  - destruct (decide (redeems c o = true)) as [Hred|Hnot].
    + destruct o as [v|today v|v|v delta|token at_ a by_|at_ code v]; simpl in Hred;
        try discriminate.
      apply bool_decide_eq_true_1 in Hred as ->. simpl.
      unfold redeem_code, store_of.
      destruct (fits v) eqn:Fv.
      * destruct (fits (balance d v + amount row)) eqn:Fb.
        -- rewrite (redeem_unused _ _ _ _ _ Hrow Eu Fv Fb). cbn.
           rewrite lookup_insert_eq. eexists. split; [reflexivity |]. cbn.
           repeat split; intros [w Hw]; discriminate.
        -- rewrite (redeem_overflow _ _ _ _ _ Hrow Eu Fv Fb). cbn.
           rewrite lookup_insert_eq. eexists. split; [reflexivity |]. cbn.
           repeat split; intros [w Hw]; discriminate.
      * assert (redeem_code_sync at_ c v d = (Raises OverflowError, d)) as ->.
        { rewrite redeem_code_sync_eq, Hrow, Eu, Fv. reflexivity. }
        exists row. repeat split; auto.
    + exists row. split; [| auto]. apply run_op_code_row; [exact Hrow |].
      left. destruct (redeems c o); [contradiction | reflexivity].
Qed.

(** X4. Nothing is ever deleted or rewritten: after any sequence of calls an
    account that existed still exists, and still has a grant date if it had
    one; a code that existed still exists with the same amount, issuer and
    creation time, and if it was used its row is exactly as it was (same
    redeemer, same time). *)
Theorem X4_rows_persist (os : list op) (d : db) :
  (forall u row, users d !! u = Some row ->
     exists row', users (run_ops os d) !! u = Some row' /\
                  (is_Some (last_topup_date row) -> is_Some (last_topup_date row'))) /\
  (forall c row, codes d !! c = Some row ->
     exists row', codes (run_ops os d) !! c = Some row' /\
                  amount row' = amount row /\ created_by row' = created_by row /\
                  created_at row' = created_at row /\
                  (is_Some (used_by row) -> row' = row)).
Proof.
  revert d. induction os as [|o os IH]; intros d.
  - split; intros k row Hrow; exists row; auto.
  - destruct (IH (run_op o d)) as [IHu IHc]. split.
    + intros u row Hrow.
      destruct (run_op_user_stays o d u row Hrow) as (row1 & H1 & Ht1).
      destruct (IHu u row1 H1) as (row2 & H2 & Ht2).
      exists row2. rewrite run_ops_cons. auto.
    + intros c row Hrow.
      destruct (run_op_code_stays o d c row Hrow) as (row1 & H1 & Ha & Hb & Hat & Hu1).
      destruct (IHc c row1 H1) as (row2 & H2 & Ha2 & Hb2 & Hat2 & Hu2).
      exists row2. rewrite run_ops_cons. split; [exact H2 |].
      split; [congruence |]. split; [congruence |]. split; [congruence |].
      intros Hused. specialize (Hu1 Hused). subst row1. exact (Hu2 Hused).
Qed.

Lemma X4_rows_persist_witness :
  let d := Db {[ 7 := UserRow 3 (Some "2024-05-01"%string) ]}
              {[ "Zx3kQ9pLm2A"%string
                   := CodeRow 100 1 "2024-05-01T09:00:00" (Some 7)
                        (Some "2024-05-01T10:00:00"%string) ]} in
  let os := [OpGenerate "Zx3kQ9pLm2A" "2024-05-02T09:00:00" 5 1;
             OpRedeem "2024-05-02T10:00:00" "Zx3kQ9pLm2A" 8] in
  codes (run_ops os d) !! "Zx3kQ9pLm2A"%string
  = Some (CodeRow 100 1 "2024-05-01T09:00:00" (Some 7)
            (Some "2024-05-01T10:00:00"%string)).
Proof.
  intros d os. destruct (X4_rows_persist os d) as [_ Hc].
  destruct (Hc "Zx3kQ9pLm2A"%string _ eq_refl) as (row' & H & _ & _ & _ & Hused).
  rewrite H, Hused; [reflexivity | simpl; eauto].
Defined.

(** X5. A change of credits that neither the floor nor the 64-bit range
    cuts is undone by the opposite change: for an account with an id and a
    balance that fit, the balance not negative, and a delta that takes it
    neither below 0 nor out of range, [change_credits] by the delta and then
    by its opposite leaves the store exactly as it was. *)
Theorem X5_change_undone (u : Z) (delta : Z) (d : db) (row : user_row) :
  users d !! u = Some row -> 0 <= credits row -> 0 <= credits row + delta ->
  fits u = true -> fits (credits row) = true -> fits (credits row + delta) = true ->
  store_of (change_credits u (- delta)) (store_of (change_credits u delta) d) = d.
Proof.
  intros Hrow Hb Hd Fu Fc Fd. unfold store_of.
  rewrite (change_credits_eq u delta d), Fu, (balance_Some _ _ _ Hrow).
  rewrite Z.max_r by lia. rewrite Fd. cbn [snd].
  rewrite change_credits_eq, Fu, balance_insert, decide_True by done. cbn [credits].
  replace (Z.max 0 (credits row + delta + - delta)) with (credits row) by lia.
  rewrite Fc. cbn [snd users codes]. rewrite last_topup_insert, decide_True by done.
  cbn [last_topup_date]. unfold last_topup. rewrite Hrow. cbn.
  rewrite insert_insert_eq. destruct d as [us cs]. cbn in *. f_equal.
  apply insert_id. rewrite Hrow. destruct row as [c t]. reflexivity.
Qed.

Lemma X5_change_undone_witness :
  let d := Db {[ 7 := UserRow 3 None ]} ∅ in
  store_of (change_credits 7 3) (store_of (change_credits 7 (-3)) d) = d.
Proof.
  intros d. apply (X5_change_undone 7 (-3) d (UserRow 3 None));
    [reflexivity | simpl; lia | simpl; lia | reflexivity ..].
Defined.

(** ** The stores the bot reaches *)

Section Updates.

Context {text : PyText}.
Variable ADMIN_IDS : list Z.
Variable py_int : string -> option Z.

Lemma num_cmd_store (u : Z) (args : list string)
    (today : string) (resp : http_result) (d : db) :
  let d' := store_of (num_cmd ADMIN_IDS u args today resp) d in
  d' = d \/ d' = gate_store today u d \/
  d' = store_of (change_credits u (- CREDIT_COST_PER_LOOKUP)) (gate_store today u d).
Proof.
  intros d'. subst d'. destruct args as [|arg0 rest]; [left; reflexivity |].
  destruct (decide (length (digit_chars (py_strip arg0)) ∈ [10; 12]%nat))
    as [Hvalid|Hbad].
  - destruct (result_of (gate today u) d) as [c|e] eqn:Hr.
    2:{ right. left. unfold store_of.
        rewrite (num_cmd_raises ADMIN_IDS u arg0 rest today resp d e Hvalid Hr).
        reflexivity. }
    destruct (decide (u ∈ ADMIN_IDS)) as [Hin|Hout].
    + right. left. unfold store_of at 1.
      destruct (num_cmd_passed ADMIN_IDS u arg0 rest today resp d c Hvalid Hr
                  (or_introl Hin)) as [evs ->].
      cbn [snd]. rewrite (bool_decide_eq_true_2 _ Hin).
      destruct (usable_result resp); reflexivity.
    + destruct (Z_lt_le_dec (balance (gate_store today u d) u) CREDIT_COST_PER_LOOKUP)
        as [Hlt|Hge].
      * right. left. unfold store_of.
        rewrite (num_cmd_short ADMIN_IDS u arg0 rest today resp d c Hvalid Hout Hr Hlt).
        reflexivity.
      * unfold store_of at 1 2 3.
        destruct (num_cmd_passed ADMIN_IDS u arg0 rest today resp d c Hvalid Hr
                    (or_intror Hge)) as [evs ->].
        cbn [snd]. rewrite (bool_decide_eq_false_2 _ Hout).
        destruct (usable_result resp); [right; left | right; right]; reflexivity.
  - left. unfold store_of, num_cmd, valid_number in *.
    rewrite (bool_decide_eq_false_2 _ Hbad). reflexivity.
Qed.

(** /credits leaves the store its first two awaits leave: the balance it
    then reads is the one of a row that is there. *)
Lemma credits_cmd_eq (u : Z) (today : string) (d : db) :
  credits_cmd ADMIN_IDS u today d
  = match result_of (gate today u) d with
    | Returns _ =>
        (Returns [Reply (if bool_decide (u ∈ ADMIN_IDS) then RCreditsAdmin
                         else RCredits (balance (gate_store today u d) u))],
         gate_store today u d)
    | Raises e => (Raises e, gate_store today u d)
    end.
Proof.
  unfold credits_cmd. rewrite gate_then, (gate_pair today u d).
  destruct (result_of (gate today u) d) as [c|e] eqn:Hr; [| reflexivity].
  destruct (gate_returns_inv _ _ _ _ Hr) as (Fu & Hs & _).
  rewrite (bind_returns _ _ _ _ _ (get_credits_present _ _ Fu Hs)).
  destruct (bool_decide (u ∈ ADMIN_IDS)); reflexivity.
Qed.

Lemma redeem_cmd_eq (u : Z) (arg0 : string) (rest : list string) (now : string) (d : db) :
  redeem_cmd u (arg0 :: rest) now d
  = match redeem_code now (py_strip arg0) u d with
    | (Returns (ok, info), d') =>
        (Returns [Reply (if ok then RRedeemed info else RRedeemFailed info)], d')
    | (Raises e, d') => (Raises e, d')
    end.
Proof.
  unfold redeem_cmd, mbind, M_bind.
  destruct (redeem_code now (py_strip arg0) u d) as [[[ok info]|e] d']; [| reflexivity].
  destruct ok; reflexivity.
Qed.

(** Every handler does to the store what some sequence of ledger and
    registry calls does, and in it generate_code is only given positive
    amounts, by an admin. *)
Lemma handle_as_ops (upd : update) (d : db) :
  exists os, forallb issues_positive os = true /\
             Forall (fun o => match o with
                              | OpGenerate _ _ a by_ => by_ ∈ ADMIN_IDS /\ 0 < a
                              | _ => True
                              end) os /\
             handle ADMIN_IDS py_int upd d = run_ops os d.
Proof.
  destruct upd as [u today | u args now | u args token now | u args today resp];
    cbn [handle].
  - exists [OpEnsure u; OpTopup today u]. split; [reflexivity |].
    split; [repeat constructor |].
    unfold store_of. rewrite credits_cmd_eq.
    destruct (result_of (gate today u) d); reflexivity.
  - destruct args as [|arg0 rest]; [exists []; repeat split; constructor |].
    exists [OpRedeem now (py_strip arg0) u]. split; [reflexivity |].
    split; [repeat constructor |].
    unfold run_ops. cbn [foldl run_op]. unfold store_of. rewrite redeem_cmd_eq.
    destruct (redeem_code now (py_strip arg0) u d) as [[[ok info]|e] d']; reflexivity.
  - unfold code_cmd, store_of.
    destruct (decide (u ∈ ADMIN_IDS)) as [Hin|Hout].
    2:{ rewrite (bool_decide_eq_true_2 _ Hout). exists []. repeat split; constructor. }
    rewrite (bool_decide_eq_false_2 (u ∉ ADMIN_IDS)) by (intros H; exact (H Hin)).
    destruct args as [|arg0 rest]; [exists []; repeat split; constructor |].
    destruct (py_int arg0) as [n|]; [| exists []; repeat split; constructor].
    destruct (decide (n <= 0)) as [Hle|Hgt].
    + rewrite (bool_decide_eq_true_2 _ Hle). exists []. repeat split; constructor.
    + rewrite (bool_decide_eq_false_2 _ Hgt). exists [OpGenerate token now n u]. split.
      * simpl. rewrite bool_decide_eq_true_2 by lia. reflexivity.
      * split; [repeat constructor; [exact Hin | lia] |].
        unfold run_ops. cbn [foldl run_op]. unfold store_of, mbind, M_bind.
        destruct (generate_code token now n u d) as [[tok|e] d']; reflexivity.
  - destruct (num_cmd_store u args today resp d) as [H|[H|H]]; rewrite H.
    + exists []. repeat split; constructor.
    + exists [OpEnsure u; OpTopup today u]. repeat split; repeat constructor.
    + exists [OpEnsure u; OpTopup today u; OpChange u (- CREDIT_COST_PER_LOOKUP)].
      repeat split; repeat constructor.
Qed.

Lemma handle_all_as_ops (upds : list update) (d : db) :
  exists os, forallb issues_positive os = true /\
             handle_all ADMIN_IDS py_int upds d = run_ops os d.
Proof.
  revert d. induction upds as [|upd upds IH]; intros d; [exists []; split; reflexivity |].
  destruct (handle_as_ops upd d) as (os1 & Hpos1 & _ & H1).
  destruct (IH (handle ADMIN_IDS py_int upd d)) as (os2 & Hpos2 & H2).
  exists (os1 ++ os2). split.
  - rewrite forallb_app, Hpos1, Hpos2. reflexivity.
  - unfold handle_all in *. simpl. rewrite H2, H1. unfold run_ops. rewrite foldl_app.
    reflexivity.
Qed.

(** X15. Whatever updates the bot handles from an empty store, for whatever
    admins, no account ever holds negative credits and no code a negative
    amount. *)
Lemma handlers_keep_nonneg (upds : list update) :
  credits_nonneg (handle_all ADMIN_IDS py_int upds init_db) /\
  amounts_nonneg (handle_all ADMIN_IDS py_int upds init_db).
Proof.
  destruct (handle_all_as_ops upds init_db) as (os & Hpos & ->).
  apply run_ops_nonneg; [exact Hpos |].
  split; intros k r; simpl; rewrite lookup_empty; discriminate.
Qed.

(** X24. Whatever updates the bot handles from an empty store, every
    integer in the store (user ids, credits, amounts, issuers, redeemers)
    fits sqlite's 64-bit INTEGER: a value that does not is refused with
    OverflowError before it is written. *)
Theorem handlers_keep_int64 (upds : list update) :
  int64_store (handle_all ADMIN_IDS py_int upds init_db).
Proof.
  destruct (handle_all_as_ops upds init_db) as (os & _ & ->).
  apply run_ops_int64, int64_init.
Qed.

End Updates.

(** ** The handlers *)

Lemma gate_store_frame (today : string) (u : Z) (d : db) :
  (forall w, w ≠ u -> users (gate_store today u d) !! w = users d !! w) /\
  codes (gate_store today u d) = codes d.
Proof.
  unfold gate_store. split.
  - intros w Hw.
    destruct (run_op_frame (OpTopup today u) (store_of (ensure_user u) d)) as [H2 _].
    destruct (run_op_frame (OpEnsure u) d) as [H1 _]. simpl in *.
    rewrite H2, H1; [reflexivity | congruence | congruence].
  - unfold topup_if_needed, ensure_user. rewrite topup_codes, ensure_user_codes.
    reflexivity.
Qed.

Lemma gate_store_same_day (today : string) (u : Z) (d : db) :
  last_topup d u = Some today -> gate_store today u d = d.
Proof.
  intros H. unfold gate_store, topup_if_needed, ensure_user.
  assert (Hs : store_of (ensure_user_sync u) d = d).
  { unfold last_topup in H. destruct (users d !! u) as [row|] eqn:E; [| discriminate].
    apply (ensure_user_present _ _ _ E). }
  rewrite Hs. unfold store_of. rewrite topup_if_needed_sync_eq.
  rewrite (bool_decide_eq_true_2 _ H). destruct (fits u); reflexivity.
Qed.

(** When the two awaits return, the grant of today is recorded. *)
Lemma gate_store_granted (today : string) (u : Z) (d : db) (c : Z) :
  result_of (gate today u) d = Returns c ->
  last_topup (gate_store today u d) u = Some today.
Proof.
  rewrite gate_store_eq. unfold result_of, store_of. rewrite gate_eq.
  destruct (fits u) eqn:Fu; [| discriminate].
  set (d0 := store_of (ensure_user_sync u) d).
  rewrite topup_if_needed_sync_eq, Fu.
  destruct (decide (last_topup d0 u = Some today)) as [H|H].
  - rewrite (bool_decide_eq_true_2 _ H). intros _. exact H.
  - rewrite (bool_decide_eq_false_2 _ H).
    destruct (fits (balance d0 u + DAILY_FREE_CREDITS)); [| discriminate].
    intros _. cbn [snd]. rewrite last_topup_insert, decide_True by done. reflexivity.
Qed.

Lemma gate_store_balance (today : string) (u : Z) (d : db) :
  balance (gate_store today u d) u = balance d u \/
  balance (gate_store today u d) u = balance d u + DAILY_FREE_CREDITS.
Proof.
  unfold gate_store, topup_if_needed, ensure_user.
  pose proof (ensure_user_balance d u u) as Hb.
  set (d0 := store_of (ensure_user_sync u) d) in *.
  unfold store_of. rewrite topup_if_needed_sync_eq.
  destruct (fits u); [| left; exact Hb].
  destruct (bool_decide _); [left; exact Hb |].
  destruct (fits (_ + _)); [| left; exact Hb].
  right. cbn [snd]. rewrite balance_insert, decide_True by done. cbn. rewrite Hb.
  reflexivity.
Qed.

Lemma change_credits_balance (u delta : Z) (d : db) :
  balance (store_of (change_credits u delta) d) u = balance d u \/
  balance (store_of (change_credits u delta) d) u = Z.max 0 (balance d u + delta).
Proof.
  unfold store_of at 1 2. rewrite change_credits_eq.
  destruct (fits u); [| left; reflexivity].
  destruct (fits (Z.max _ _)); cbn [snd].
  - right. rewrite balance_insert, decide_True by done. reflexivity.
  - left. apply ensure_user_balance.
Qed.

Section NumStore.

Context {text : PyText}.
Variable ADMIN_IDS : list Z.

(** The stores /num can leave, with the condition under which it charges. *)
Lemma num_cmd_store_cases (u : Z) (args : list string)
    (today : string) (resp : http_result) (d : db) :
  let d' := store_of (num_cmd ADMIN_IDS u args today resp) d in
  d' = d \/ d' = gate_store today u d \/
  (CREDIT_COST_PER_LOOKUP <= balance (gate_store today u d) u /\
   d' = store_of (change_credits u (- CREDIT_COST_PER_LOOKUP)) (gate_store today u d)).
Proof.
  intros d'. subst d'. destruct args as [|arg0 rest]; [left; reflexivity |].
  destruct (decide (length (digit_chars (py_strip arg0)) ∈ [10; 12]%nat))
    as [Hvalid|Hbad].
  - destruct (result_of (gate today u) d) as [c|e] eqn:Hr.
    2:{ right. left. unfold store_of.
        rewrite (num_cmd_raises ADMIN_IDS u arg0 rest today resp d e Hvalid Hr).
        reflexivity. }
    destruct (decide (u ∈ ADMIN_IDS)) as [Hin|Hout].
    + right. left. unfold store_of at 1.
      destruct (num_cmd_passed ADMIN_IDS u arg0 rest today resp d c Hvalid Hr
                  (or_introl Hin)) as [evs ->].
      cbn [snd]. rewrite (bool_decide_eq_true_2 _ Hin).
      destruct (usable_result resp); reflexivity.
    + destruct (Z_lt_le_dec (balance (gate_store today u d) u) CREDIT_COST_PER_LOOKUP)
        as [Hlt|Hge].
      * right. left. unfold store_of.
        rewrite (num_cmd_short ADMIN_IDS u arg0 rest today resp d c Hvalid Hout Hr Hlt).
        reflexivity.
      * unfold store_of at 1 2 3.
        destruct (num_cmd_passed ADMIN_IDS u arg0 rest today resp d c Hvalid Hr
                    (or_intror Hge)) as [evs ->].
        cbn [snd]. rewrite (bool_decide_eq_false_2 _ Hout).
        destruct (usable_result resp); [right; left | right; right; split];
          (reflexivity || exact Hge).
  - left. unfold store_of, num_cmd, valid_number in *.
    rewrite (bool_decide_eq_false_2 _ Hbad). reflexivity.
Qed.

(** X11. What /num can do to the store, whatever it is sent: it never
    touches the account of anyone but the sender, nor any code; the sender's
    balance ends at most DAILY_FREE_CREDITS above and at most
    CREDIT_COST_PER_LOOKUP below where it was, and is not negative if it was
    not. *)
Theorem X11_num_cmd_frame
    (u : Z) (args : list string)
    (today : string) (resp : http_result) (d : db) :
  let d' := store_of (num_cmd ADMIN_IDS u args today resp) d in
  (forall w, w ≠ u -> users d' !! w = users d !! w) /\
  codes d' = codes d /\
  balance d u - CREDIT_COST_PER_LOOKUP <= balance d' u
    <= balance d u + DAILY_FREE_CREDITS /\
  (0 <= balance d u -> 0 <= balance d' u).
Proof.
  intros d'. subst d'.
  destruct (gate_store_frame today u d) as [Hgu Hgc].
  pose proof (gate_store_balance today u d) as Hgb.
  destruct (num_cmd_store_cases u args today resp d) as [H|[H|[Hge H]]];
    rewrite H; clear H.
  - unfold DAILY_FREE_CREDITS, CREDIT_COST_PER_LOOKUP in *.
    split; [reflexivity |]. split; [reflexivity |]. lia.
  - unfold DAILY_FREE_CREDITS, CREDIT_COST_PER_LOOKUP in *.
    split; [exact Hgu |]. split; [exact Hgc |]. lia.
  - pose proof (change_credits_balance u (- CREDIT_COST_PER_LOOKUP)
                  (gate_store today u d)) as Hcb.
    split; [| split].
    + intros w Hw. rewrite change_credits_frame by congruence. exact (Hgu w Hw).
    + rewrite change_credits_codes. exact Hgc.
    + unfold DAILY_FREE_CREDITS, CREDIT_COST_PER_LOOKUP in *. lia.
Qed.

End NumStore.



(** * Further properties of concurrent redeem calls *)

(** X16. Tasks that call redeem_code on a code that is unknown, or already
    used, in any number and any order: the store never changes, and every
    call that has returned has returned the refusal that fits, "Code not
    found" for an unknown code and "Code already used" for a used one. *)
Theorem X16_race_refused
    (code : string) (d0 : db) (callers : list Z) (r : redeem_result) (s : Race.state) :
  (codes d0 !! code = None /\ r = CodeNotFound) \/
  (exists row w, codes d0 !! code = Some row /\ used_by row = Some w /\
                 r = CodeAlreadyUsed) ->
  rtc (Race.step code) (Race.start d0 callers) s ->
  Race.store s = d0 /\
  forall j t r', Race.tasks s !! j = Some t -> Race.at_phase t = Race.Done r' -> r' = Returns r.
Proof.
  intros Hcode.
  assert (Hcall : forall now u, redeem_code_sync now code u d0 = (Returns r, d0)).
  { intros now u. destruct Hcode as [[Hnone ->] | (row & w & Hrow & Hused & ->)].
    - apply redeem_absent, Hnone.
    - eapply redeem_used; eassumption. }
  revert s. apply rtc_ind_r.
  - split; [reflexivity |]. intros j t r' Hj Hdone. unfold Race.start in Hj. simpl in Hj.
    apply list_lookup_fmap_Some in Hj as (w & -> & _). discriminate.
  - intros s s' _ Hstep [Hstore Hdone].
    destruct Hstep as [d ts i u Hi | d ts i u now Hi]; simpl in *; subst d.
    + split; [reflexivity |]. intros j t r' Hj Ht.
      destruct (decide (j = i)) as [->|Hne].
      * rewrite list_lookup_insert_eq in Hj by (eapply lookup_lt_Some, Hi).
        injection Hj as <-. discriminate.
      * rewrite list_lookup_insert_ne in Hj by done. exact (Hdone j t r' Hj Ht).
    + unfold store_of, result_of. rewrite Hcall. simpl.
      split; [reflexivity |]. intros j t r' Hj Ht.
      destruct (decide (j = i)) as [->|Hne].
      * rewrite list_lookup_insert_eq in Hj by (eapply lookup_lt_Some, Hi).
        injection Hj as <-. simpl in Ht. congruence.
      * rewrite list_lookup_insert_ne in Hj by done. exact (Hdone j t r' Hj Ht).
Qed.

Lemma X16_race_refused_witness :
  let d0 := Db {[ 7 := UserRow 100 None ]}
               {[ "Zx3kQ9pLm2A"%string
                    := CodeRow 100 1 "2024-05-01T09:00:00" (Some 7)
                         (Some "2024-05-01T10:00:00"%string) ]} in
  Race.store (Race.State d0 false
                [Race.Task 8 (Race.Done (Returns CodeAlreadyUsed)); Race.Task 9 Race.Waiting])
  = d0.
Proof.
  intros d0.
  apply (X16_race_refused "Zx3kQ9pLm2A" d0 [8; 9] CodeAlreadyUsed).
  - right. eexists _, 7. split; [reflexivity |]. split; reflexivity.
  - eapply rtc_l; [refine (Race.step_acquire _ _ _ 0 8 _); reflexivity |].
    eapply rtc_l; [refine (Race.step_body _ _ _ 0 8 "2024-05-01T11:00:00" _); reflexivity |].
    apply rtc_refl.
Defined.



(** * Properties of the listing of codes *)

Lemma ascii_compare_N (a b : Ascii.ascii) :
  Ascii.compare a b = N.compare (Ascii.N_of_ascii a) (Ascii.N_of_ascii b).
Proof. reflexivity. Qed.

Lemma string_leb_trans (a b c : string) :
  String.leb a b = true -> String.leb b c = true -> String.leb a c = true.
Proof.
  unfold String.leb. revert b c.
  induction a as [|x a IH]; intros [|y b] [|z c]; simpl; try done.
  rewrite !ascii_compare_N.
  destruct (N.compare_spec (Ascii.N_of_ascii x) (Ascii.N_of_ascii y)) as [Hxy|Hxy|Hxy];
    destruct (N.compare_spec (Ascii.N_of_ascii y) (Ascii.N_of_ascii z)) as [Hyz|Hyz|Hyz];
    destruct (N.compare_spec (Ascii.N_of_ascii x) (Ascii.N_of_ascii z)) as [Hxz|Hxz|Hxz];
    try done; try lia.
  apply IH.
Qed.

#[local] Instance newer_first_total : Total newer_first.
Proof.
  intros x y. unfold newer_first.
  destruct (String.leb_total (created_at y.2) (created_at x.2)); auto.
Qed.

#[local] Instance newer_first_trans : Transitive newer_first.
Proof. intros x y z Hxy Hyz. unfold newer_first in *. eapply string_leb_trans; eassumption. Qed.

Lemma StronglySorted_take {A} (R : relation A) (l : list A) (n : nat) :
  StronglySorted R l -> StronglySorted R (take n l).
Proof.
  intros H. rewrite <- (take_drop n l) in H. eapply StronglySorted_app_1_l, H.
Qed.

Lemma list_codes_eq (limit : Z) (d : db) :
  list_codes limit d =
  if fits limit then
    (Returns (let rows := merge_sort newer_first (map_to_list (codes d)) in
              if limit <? 0 then rows else take (Z.to_nat limit) rows), d)
  else (Raises OverflowError, d).
Proof.
  unfold list_codes, list_codes_sync, bind_int, query, mbind, M_bind.
  destruct (fits limit); reflexivity.
Qed.

(** X17. [list_codes] reads and never writes; it raises on a limit sqlite
    cannot take. What it returns are rows of the table, each code at most
    once, every row created no earlier than all the rows after it. With a
    limit that is not negative it returns that many rows, or all if there
    are fewer, and the rows it leaves out were created no later than any row
    it returns; with a negative limit it returns them all. *)
Theorem X17_list_codes (limit : Z) (d : db) :
  let r := list_codes limit d in
  r.2 = d /\
  (fits limit = false -> r.1 = Raises OverflowError) /\
  (fits limit = true ->
   exists rows, r.1 = Returns rows /\
  StronglySorted newer_first rows /\
  NoDup rows.*1 /\
  (forall c row, (c, row) ∈ rows -> codes d !! c = Some row) /\
  length rows = (if limit <? 0 then size (codes d)
                else Nat.min (Z.to_nat limit) (size (codes d))) /\
  (forall c row x, codes d !! c = Some row -> (c, row) ∉ rows -> x ∈ rows ->
                   newer_first x (c, row))).
Proof.
  intros r. subst r. rewrite list_codes_eq.
  destruct (fits limit); cbn [fst snd];
    (split; [reflexivity |]); (split; [congruence || reflexivity |]);
    [| discriminate].
  intros _. eexists. split; [reflexivity |]. cbn zeta.
  set (rows := merge_sort newer_first (map_to_list (codes d))).
  assert (Hperm : rows ≡ₚ map_to_list (codes d)) by apply merge_sort_Permutation.
  assert (Hsorted : StronglySorted newer_first rows)
    by (apply StronglySorted_merge_sort; apply _).
  assert (Hnodup : NoDup rows.*1)
    by (rewrite Hperm; apply NoDup_fst_map_to_list).
  assert (Hlen : length rows = size (codes d))
    by (rewrite Hperm; apply length_map_to_list).
  assert (Hin : forall c row, (c, row) ∈ rows <-> codes d !! c = Some row)
    by (intros c row; rewrite Hperm; apply elem_of_map_to_list).
  destruct (limit <? 0).
  - split; [exact Hsorted |]. split; [exact Hnodup |].
    split; [intros c row; apply Hin |]. split; [exact Hlen |].
    intros c row x Hrow Hnot _. destruct Hnot. apply Hin, Hrow.
  - set (n := Z.to_nat limit).
    split; [apply StronglySorted_take, Hsorted |].
    split.
    { rewrite fmap_take. exact (sublist_NoDup _ _ Hnodup (sublist_take _ _)). }
    split.
    { intros c row Hel. apply Hin. exact (elem_of_sublist _ _ _ Hel (sublist_take _ _)). }
    split; [rewrite length_take, Hlen; reflexivity |].
    intros c row x Hrow Hnot Hx.
    apply Hin in Hrow. rewrite <- (take_drop n rows) in Hrow, Hsorted.
    apply elem_of_app in Hrow as [Hrow|Hrow]; [contradiction |].
    exact (StronglySorted_app_1_elem_of _ _ _ _ _ Hsorted Hx Hrow).
Qed.

(** *** Cutting a text into messages *)

Lemma chunk_concat {A} (n m : nat) (l : list A) :
  (length l <= m * n)%nat ->
  concat ((fun k => take n (drop (k * n) l)) <$> seq 0 m) = l.
Proof.
  revert l. induction m as [|m IH]; intros l Hlen.
  - simpl in *. destruct l; [reflexivity | simpl in Hlen; lia].
  - rewrite <- cons_seq, <- fmap_S_seq, fmap_cons, <- list_fmap_compose. simpl.
    transitivity (take n l ++ drop n l); [| apply take_drop]. f_equal.
    etransitivity; [| apply (IH (drop n l)); rewrite length_drop; lia].
    f_equal. apply list_fmap_ext. intros i k _. simpl. rewrite drop_drop. reflexivity.
Qed.

Lemma ceil_covers (len n : nat) :
  (0 < n)%nat -> (len <= (len + n - 1) / n * n)%nat.
Proof.
  intros Hn. pose proof (Nat.div_mod_eq (len + n - 1) n) as Hdm.
  pose proof (Nat.mod_upper_bound (len + n - 1) n). lia.
Qed.

Lemma ceil_tight (len n k : nat) :
  (0 < n)%nat -> (k < (len + n - 1) / n)%nat -> (k * n < len)%nat.
Proof.
  intros Hn Hk. pose proof (Nat.div_mod_eq (len + n - 1) n) as Hdm. nia.
Qed.

Lemma substring_list (i n : nat) (s : string) :
  String.list_ascii_of_string (String.substring i n s)
  = take n (drop i (String.list_ascii_of_string s)).
Proof.
  revert i n. induction s as [|c s IH]; intros [|i] [|n]; simpl; try reflexivity.
  - rewrite (IH 0%nat n). rewrite drop_0. reflexivity.
  - apply IH.
  - apply IH.
Qed.

Lemma length_list (s : string) :
  String.length s = length (String.list_ascii_of_string s).
Proof. induction s as [|c s IH]; [reflexivity | simpl; f_equal; exact IH]. Qed.

Lemma append_list (a b : string) :
  String.list_ascii_of_string (a +:+ b)
  = String.list_ascii_of_string a ++ String.list_ascii_of_string b.
Proof. induction a as [|c a IH]; [reflexivity | simpl; f_equal; exact IH]. Qed.

Lemma concat_list (ts : list string) :
  String.list_ascii_of_string (String.concat "" ts)
  = concat (String.list_ascii_of_string <$> ts).
Proof.
  induction ts as [|t ts IH]; [reflexivity |].
  destruct ts as [|t' ts].
  - simpl. rewrite app_nil_r. reflexivity.
  - change (String.concat "" (t :: t' :: ts)) with (t +:+ "" +:+ String.concat "" (t' :: ts)).
    rewrite !append_list, IH. reflexivity.
Qed.

Lemma list_of_string_inj (a b : string) :
  String.list_ascii_of_string a = String.list_ascii_of_string b -> a = b.
Proof.
  intros H. rewrite <- (String.string_of_list_ascii_of_string a),
    <- (String.string_of_list_ascii_of_string b), H. reflexivity.
Qed.

Lemma chunks_spec (text : string) :
  String.concat "" (chunks text) = text /\
  Forall (fun t => (1 <= String.length t <= CHUNK)%nat) (chunks text) /\
  (text ≠ ""%string -> chunks text ≠ []).
Proof.
  assert (Hpos : (0 < CHUNK)%nat) by (unfold CHUNK; lia).
  unfold chunks, py_range. rewrite <- list_fmap_compose.
  set (l := String.list_ascii_of_string text).
  assert (Hl : String.length text = length l) by apply length_list.
  split; [| split].
  - apply list_of_string_inj. rewrite concat_list, <- list_fmap_compose.
    etransitivity;
      [| apply (chunk_concat CHUNK ((String.length text + CHUNK - 1) / CHUNK) l);
         rewrite <- Hl; apply ceil_covers, Hpos].
    f_equal. apply list_fmap_ext. intros i k _. simpl. apply substring_list.
  - apply Forall_fmap, Forall_forall. intros k Hk. simpl.
    apply elem_of_seq in Hk as [_ Hk]. simpl in Hk.
    pose proof (ceil_tight _ _ _ Hpos Hk) as Hlt.
    rewrite length_list, substring_list, length_take, length_drop. fold l. lia.
  - intros Hne Hnil. apply fmap_nil_inv in Hnil.
    destruct text as [|c text]; [contradiction |]. simpl String.length in Hnil.
    assert (Hge : (1 <= (S (String.length text) + CHUNK - 1) / CHUNK)%nat).
    { apply Nat.div_le_lower_bound; lia. }
    destruct ((S (String.length text) + CHUNK - 1) / CHUNK)%nat; [lia | discriminate].
Qed.

Lemma code_line_nonempty (r : listed) : code_line r ≠ ""%string.
Proof.
  destruct r as [code row]. unfold code_line. intros H.
  apply (f_equal String.length) in H. rewrite !length_list, !append_list in H.
  rewrite !length_app in H. simpl in H. lia.
Qed.

Lemma lines_nonempty (r : listed) (rows : list listed) :
  String.concat newline (code_line <$> (r :: rows)) ≠ ""%string.
Proof.
  pose proof (code_line_nonempty r) as Hr. intros H. destruct rows as [|r' rows].
  - simpl in H. contradiction.
  - change (code_line r +:+ newline +:+ String.concat newline (code_line <$> r' :: rows)
            = ""%string) in H.
    destruct (code_line r); [contradiction | discriminate].
Qed.

(** X18. /codes reads and never writes. It refuses anyone but an admin, and
    tells an admin so when there is no code. Otherwise it sends the listing
    of the 200 newest codes, one line a code, cut into messages: put end to
    end the messages are the listing, none is empty, and none is longer than
    3900 characters. *)
Theorem X18_codes_list_cmd (ADMIN_IDS : list Z) (u : Z) (d : db) :
  let r := codes_list_cmd ADMIN_IDS u d in
  r.2 = d /\
  (u ∉ ADMIN_IDS -> r.1 = Returns [LOnlyAdmin]) /\
  (u ∈ ADMIN_IDS -> codes d = ∅ -> r.1 = Returns [LNoCodes]) /\
  (u ∈ ADMIN_IDS -> codes d ≠ ∅ ->
     exists texts rows,
       list_codes 200 d = (Returns rows, d) /\
       r.1 = Returns (LChunk <$> texts) /\ texts ≠ [] /\
       String.concat "" texts
       = String.concat newline (code_line <$> rows) /\
       Forall (fun t => (1 <= String.length t <= 3900)%nat) texts).
Proof.
  intros r. subst r. unfold codes_list_cmd.
  pose proof (list_codes_eq 200 d) as Hlist.
  change (fits 200) with true in Hlist. cbv iota in Hlist.
  change (200 <? 0) with false in Hlist. cbv zeta iota in Hlist.
  set (rows := take (Z.to_nat 200) (merge_sort newer_first (map_to_list (codes d)))) in *.
  assert (Hrows : length rows = Nat.min (Z.to_nat 200) (size (codes d))).
  { subst rows. rewrite length_take.
    rewrite (Permutation_length (merge_sort_Permutation newer_first (map_to_list (codes d)))).
    f_equal. apply length_map_to_list. }
  assert (Hmin : (size (codes d) = 0 -> length rows = 0)%nat /\
                 (length rows = 0 -> size (codes d) = 0)%nat).
  { rewrite Hrows. change (Z.to_nat 200) with 200%nat. lia. }
  destruct Hmin as [Hmin1 Hmin2].
  destruct (decide (u ∈ ADMIN_IDS)) as [Hin|Hout].
  2:{ rewrite (bool_decide_eq_true_2 _ Hout). split; [reflexivity |].
      split; [reflexivity |]. split; intros; contradiction. }
  rewrite (bool_decide_eq_false_2 (u ∉ ADMIN_IDS)) by (intros H; exact (H Hin)).
  rewrite (bind_returns _ _ _ _ _ Hlist).
  destruct rows as [|row rows'] eqn:E.
  - split; [reflexivity |]. split; [intros; contradiction |].
    split; [reflexivity |]. intros _ Hne. exfalso. apply Hne.
    apply map_size_empty_iff. apply Hmin2. reflexivity.
  - split; [reflexivity |]. split; [intros; contradiction |]. split.
    + intros _ Hempty. rewrite Hempty, map_size_empty in Hmin1.
      specialize (Hmin1 eq_refl). discriminate.
    + intros _ _. cbn [fst].
      destruct (chunks_spec (String.concat newline (code_line <$> row :: rows')))
        as (Hcat & Hlen & Hsome).
      eexists _, (row :: rows'). split; [exact Hlist |]. split; [reflexivity |].
      split; [apply Hsome, lines_nonempty |]. split; [exact Hcat | exact Hlen].
Qed.

Lemma X18_codes_list_cmd_witness :
  let d := Db ∅ {[ "aaa"%string := CodeRow 100 1 "2024-05-01T09:00:00" None None;
                   "bbb"%string := CodeRow 5 1 "2024-05-02T09:00:00" (Some 7)
                                     (Some "2024-05-03T10:00:00"%string) ]} in
  (codes_list_cmd [1] 2 d).1 = Returns [LOnlyAdmin] /\
  (codes_list_cmd [1] 1 d).1
  = Returns
      [LChunk ("bbb | 5 credits | created_by:1 | USED by 7 at 2024-05-03T10:00:00"
               +:+ newline +:+ "aaa | 100 credits | created_by:1 | UNUSED")].
Proof.
  intros d. destruct (X18_codes_list_cmd [1] 2 d) as (_ & Hrefused & _).
  split; [apply Hrefused | vm_compute; reflexivity].
  apply not_elem_of_cons. split; [discriminate | apply not_elem_of_nil].
Defined.

(** * The grant and the issuers, over whole runs *)

Lemma change_credits_last_topup (u delta w : Z) (d : db) :
  last_topup (store_of (change_credits u delta) d) w = last_topup d w.
Proof.
  unfold store_of at 1. rewrite change_credits_eq.
  destruct (fits u); [| reflexivity].
  destruct (fits (Z.max _ _)); cbn [snd]; [| apply ensure_user_last_topup].
  rewrite last_topup_insert. destruct (decide (u = w)) as [->|Hne]; [reflexivity |].
  destruct d; reflexivity.
Qed.

Lemma redeem_last_topup (at_ code : string) (u w : Z) (d : db) :
  last_topup (store_of (redeem_code_sync at_ code u) d) w = last_topup d w.
Proof.
  unfold store_of. rewrite redeem_code_sync_eq.
  destruct (codes d !! code) as [row|]; [| reflexivity].
  destruct (used_by row); [reflexivity |].
  destruct (fits u); [| reflexivity]. cbn zeta.
  destruct (fits (_ + _)); cbn [snd]; [| reflexivity].
  rewrite last_topup_insert. destruct (decide (u = w)) as [->|Hne]; reflexivity.
Qed.

(** Only the daily grant of a user moves that user's grant date. *)
Lemma run_op_keeps_date (today : string) (u : Z) (o : op) (d : db) :
  last_topup d u = Some today -> grants_on_other_day today u o = false ->
  last_topup (run_op o d) u = Some today.
Proof.
  intros Hdate Hother.
  destruct (decide (op_user o = Some u)) as [Hsame|Hdiff].
  2:{ destruct (run_op_frame o d) as [Hu _]. unfold last_topup in *.
      rewrite (Hu u Hdiff). exact Hdate. }
  destruct o as [v|t v|v|v delta|token at_ a by_|at_ code v]; simpl in *;
    try discriminate; injection Hsame as ->.
  - unfold ensure_user. rewrite ensure_user_last_topup. exact Hdate.
  - rewrite bool_decide_eq_true_2 in Hother by reflexivity. simpl in Hother.
    apply negb_false_iff, bool_decide_eq_true_1 in Hother as ->.
    unfold topup_if_needed, store_of. rewrite topup_if_needed_sync_eq.
    rewrite (bool_decide_eq_true_2 _ Hdate). destruct (fits u); exact Hdate.
  - rewrite get_credits_store, ensure_user_last_topup. exact Hdate.
  - rewrite change_credits_last_topup. exact Hdate.
  - unfold redeem_code. rewrite redeem_last_topup. exact Hdate.
Qed.

(** X19. One grant a day, whatever happens in between: once a user has been
    granted on a date, every further request for that user's grant on that
    date does nothing, so a sequence of calls (none asking for the user's
    grant on another date) leaves the store it would leave with those
    requests taken out. *)
Theorem X19_granted_once_a_day (today : string) (u : Z) (os : list op) (d : db) :
  last_topup d u = Some today ->
  forallb (fun o => negb (grants_on_other_day today u o)) os = true ->
  run_ops os d = run_ops (List.filter (fun o => negb (grants_on today u o)) os) d.
Proof.
  revert d. induction os as [|o os IH]; intros d Hdate Hall; [reflexivity |].
  simpl in Hall. apply andb_prop in Hall as [Ho Hos]. apply negb_true_iff in Ho.
  simpl List.filter. destruct (grants_on today u o) eqn:Eg; simpl negb; cbv iota.
  - destruct o as [v|t v|v|v delta|token at_ a by_|at_ code v]; simpl in Eg;
      try discriminate.
    apply andb_prop in Eg as [Hv Ht].
    apply bool_decide_eq_true_1 in Hv as ->. apply bool_decide_eq_true_1 in Ht as ->.
    rewrite run_ops_cons. simpl run_op. unfold topup_if_needed, store_of.
    rewrite topup_if_needed_sync_eq, (bool_decide_eq_true_2 _ Hdate).
    assert ((if fits u then (Returns (balance d u), d)
             else (Raises OverflowError, d)).2 = d) as -> by (destruct (fits u); reflexivity).
    apply IH; assumption.
  - rewrite !run_ops_cons. apply IH; [| exact Hos].
    apply run_op_keeps_date; assumption.
Qed.

Lemma X19_granted_once_a_day_witness :
  let d := Db {[ 7 := UserRow 30 (Some "2024-05-01"%string) ]} ∅ in
  run_ops [OpTopup "2024-05-01" 7; OpChange 7 (-1); OpTopup "2024-05-01" 7] d
  = run_ops [OpChange 7 (-1)] d.
Proof.
  intros d.
  apply (X19_granted_once_a_day "2024-05-01" 7
           [OpTopup "2024-05-01" 7; OpChange 7 (-1); OpTopup "2024-05-01" 7] d);
    reflexivity.
Defined.

(** A call keeps every code issued by an admin with a positive amount, when
    it is not an issuance or is one by an admin with a positive amount. *)
Lemma run_op_issued_by_admins (ADMIN_IDS : list Z) (o : op) (d : db) :
  match o with
  | OpGenerate _ _ a by_ => by_ ∈ ADMIN_IDS /\ 0 < a
  | _ => True
  end ->
  issued_by_admins ADMIN_IDS d -> issued_by_admins ADMIN_IDS (run_op o d).
Proof.
  intros Ho Hinv c row Hrow.
  destruct (codes d !! c) as [row0|] eqn:E.
  - destruct (run_op_code_stays o d c row0 E) as (row' & H' & Ha & Hb & _).
    rewrite H' in Hrow. injection Hrow as <-. rewrite Ha, Hb. exact (Hinv c row0 E).
  - destruct (decide (op_code o = Some c)) as [Hc|Hc].
    2:{ destruct (run_op_frame o d) as [_ Hf]. rewrite (Hf c Hc) in Hrow. congruence. }
    destruct o as [v|t v|v|v delta|token at_ a by_|at_ code v]; simpl in Hc;
      try discriminate; injection Hc as ->; cbn [run_op] in Hrow.
    + unfold generate_code, store_of in Hrow. rewrite generate_code_sync_eq, E in Hrow.
      destruct (fits a && fits by_); cbn in Hrow; [| congruence].
      rewrite lookup_insert_eq in Hrow. injection Hrow as <-. exact Ho.
    + unfold redeem_code, store_of in Hrow. rewrite (redeem_absent _ _ _ _ E) in Hrow.
      cbn in Hrow. congruence.
Qed.

Lemma run_ops_issued_by_admins (ADMIN_IDS : list Z) (os : list op) (d : db) :
  Forall (fun o => match o with
                   | OpGenerate _ _ a by_ => by_ ∈ ADMIN_IDS /\ 0 < a
                   | _ => True
                   end) os ->
  issued_by_admins ADMIN_IDS d -> issued_by_admins ADMIN_IDS (run_ops os d).
Proof.
  revert d. induction os as [|o os IH]; intros d Hall Hinv; [exact Hinv |].
  apply Forall_cons in Hall as [Ho Hos]. rewrite run_ops_cons.
  apply IH; [exact Hos |]. apply run_op_issued_by_admins; assumption.
Qed.

Lemma handle_issued_by_admins `{PyText} (ADMIN_IDS : list Z)
    (py_int : string -> option Z) (upd : update) (d : db) :
  issued_by_admins ADMIN_IDS d -> issued_by_admins ADMIN_IDS (handle ADMIN_IDS py_int upd d).
Proof.
  intros Hinv. destruct (handle_as_ops ADMIN_IDS py_int upd d) as (os & _ & Hall & ->).
  apply run_ops_issued_by_admins; assumption.
Qed.

(** X20. Only admins issue codes: in every store the bot reaches from an
    empty one, whatever updates it handles, every code was created by one of
    the admins and carries a positive amount. *)
Theorem X20_codes_issued_by_admins
    (text : PyText) (ADMIN_IDS : list Z) (py_int : string -> option Z)
    (upds : list update) (c : string) (row : code_row) :
  codes (handle_all ADMIN_IDS py_int upds init_db) !! c = Some row ->
  created_by row ∈ ADMIN_IDS /\ 0 < amount row.
Proof.
  assert (Hall : forall d, issued_by_admins ADMIN_IDS d ->
                           issued_by_admins ADMIN_IDS (handle_all ADMIN_IDS py_int upds d)).
  { induction upds as [|upd upds IH]; intros d Hd; [exact Hd |].
    unfold handle_all in *. simpl. apply IH, handle_issued_by_admins, Hd. }
  apply (Hall init_db). intros c' row'. simpl. rewrite lookup_empty. discriminate.
Qed.

Lemma X20_codes_issued_by_admins_witness :
  8455153833 ∈ [8455153833] /\ 0 < 100.
Proof.
  apply (X20_codes_issued_by_admins ascii_text [8455153833] (fun _ => Some 100)
           [UCode 8455153833 ["100"%string] "Zx3kQ9pLm2A" "2024-05-01T09:00:00";
            URedeem 7 ["Zx3kQ9pLm2A"%string] "2024-05-01T10:00:00"]
           "Zx3kQ9pLm2A"
           (CodeRow 100 8455153833 "2024-05-01T09:00:00" (Some 7)
              (Some "2024-05-01T10:00:00"%string))).
  reflexivity.
Defined.

(** What the first two awaits return or raise, from the store they start
    on. *)
Lemma gate_result (today : string) (u : Z) (d : db) :
  result_of (gate today u) d =
  if fits u then
    if bool_decide (last_topup d u = Some today) then Returns (balance d u)
    else if fits (balance d u + DAILY_FREE_CREDITS)
         then Returns (balance d u + DAILY_FREE_CREDITS)
         else Raises OverflowError
  else Raises OverflowError.
Proof.
  unfold result_of. rewrite gate_eq. destruct (fits u) eqn:Fu; [| reflexivity].
  rewrite topup_if_needed_sync_eq, Fu, ensure_user_last_topup, ensure_user_balance.
  destruct (bool_decide _); [reflexivity |].
  destruct (fits (_ + _)); reflexivity.
Qed.

Lemma gate_again (today : string) (u : Z) (d : db) :
  gate today u (gate_store today u d) = (result_of (gate today u) (gate_store today u d),
                                         gate_store today u d) /\
  (forall c, result_of (gate today u) d = Returns c ->
     result_of (gate today u) (gate_store today u d)
     = Returns (balance (gate_store today u d) u)) /\
  (forall e, result_of (gate today u) d = Raises e ->
     result_of (gate today u) (gate_store today u d) = Raises e).
Proof.
  destruct (result_of (gate today u) d) as [c|e] eqn:Hr.
  - pose proof (gate_store_granted _ _ _ _ Hr) as Hg.
    destruct (gate_returns_inv _ _ _ _ Hr) as (Fu & _ & _).
    assert (result_of (gate today u) (gate_store today u d)
            = Returns (balance (gate_store today u d) u)) as Hres.
    { rewrite gate_result, Fu, (bool_decide_eq_true_2 _ Hg). reflexivity. }
    split; [| split; [intros c' _; exact Hres | discriminate]].
    rewrite (gate_pair today u (gate_store today u d)).
    rewrite (gate_store_same_day today u _ Hg). reflexivity.
  - assert (gate_store today u (gate_store today u d) = gate_store today u d
            /\ result_of (gate today u) (gate_store today u d) = Raises e) as [Hs Hres].
    { destruct (gate_raises_inv _ _ _ _ Hr) as (-> & Hb & Ht & _).
      rewrite gate_result in Hr |- *. rewrite Ht, Hb.
      destruct (fits u) eqn:Fu.
      - destruct (bool_decide (last_topup d u = Some today)) eqn:Eb; [discriminate |].
        destruct (fits (balance d u + DAILY_FREE_CREDITS)) eqn:Fb; [discriminate |].
        split; [| reflexivity].
        rewrite !gate_store_eq. unfold store_of. rewrite !gate_eq, Fu.
        rewrite (topup_if_needed_sync_eq today u (store_of (ensure_user_sync u) d)).
        rewrite Fu, ensure_user_last_topup, ensure_user_balance, Eb, Fb. cbn [snd].
        destruct (ensure_user_is_Some d u Fu) as [row Hrow].
        rewrite (ensure_user_present _ _ _ Hrow).
        rewrite topup_if_needed_sync_eq.
        rewrite Fu, ensure_user_last_topup, ensure_user_balance, Eb, Fb. reflexivity.
      - split; [| reflexivity].
        rewrite !gate_store_eq. unfold store_of.
        repeat (rewrite gate_eq, Fu; cbn [snd]). reflexivity. }
    split; [| split; [discriminate | intros e' [= <-]; exact Hres]].
    rewrite (gate_pair today u (gate_store today u d)), Hs. reflexivity.
Qed.

(** X6. /credits ensures the account and applies the daily grant, for an
    admin too; it tells anyone but an admin the balance after the grant and
    tells an admin only that usage is unlimited; when the id or the granted
    balance does not fit 64 bits it raises OverflowError with no reply. Sent
    again on the same day it ends the same way and changes nothing. *)
Theorem X6_credits_cmd (ADMIN_IDS : list Z) (u : Z) (today : string) (d : db) :
  let r := credits_cmd ADMIN_IDS u today d in
  r.2 = gate_store today u d /\
  r.1 = (if fits u && (bool_decide (last_topup d u = Some today)
                       || fits (balance d u + DAILY_FREE_CREDITS))
         then Returns [Reply (if bool_decide (u ∈ ADMIN_IDS) then RCreditsAdmin
                              else RCredits (balance (gate_store today u d) u))]
         else Raises OverflowError) /\
  credits_cmd ADMIN_IDS u today r.2 = r.
Proof.
  intros r. subst r. rewrite (credits_cmd_eq ADMIN_IDS u today d).
  destruct (gate_again today u d) as (Hpair & Hret & Hraise).
  pose proof (gate_result today u d) as Hres.
  destruct (result_of (gate today u) d) as [c|e] eqn:Hr; cbn [fst snd].
  - split; [reflexivity |]. split.
    + destruct (fits u); [| discriminate]. cbn [andb].
      destruct (bool_decide (last_topup d u = Some today)); [reflexivity |].
      cbn [orb]. destruct (fits (_ + _)); [reflexivity | discriminate].
    + rewrite credits_cmd_eq, (Hret c eq_refl).
      rewrite (gate_store_same_day today u _ (gate_store_granted _ _ _ _ Hr)).
      reflexivity.
  - split; [reflexivity |]. split.
    + destruct (fits u); [| cbn; congruence]. cbn [andb].
      destruct (bool_decide (last_topup d u = Some today)); [discriminate |].
      cbn [orb]. destruct (fits (_ + _)); [discriminate | cbn; congruence].
    + rewrite credits_cmd_eq, (Hraise e eq_refl).
      pose proof (gate_pair today u (gate_store today u d)) as Hp.
      rewrite Hpair in Hp. injection Hp as Hp. rewrite <- Hp. reflexivity.
Qed.

Section Redeem.

Context {text : PyText}.

(** X7. /redeem looks up its first argument, stripped. With no argument it
    only shows the usage. A code that is unknown or already used gives the
    failure reply with the reason and leaves the store untouched. An unused
    code, when the sender's id and the new balance fit 64 bits, gives the
    reply with its amount, raises the sender's balance by that amount and
    touches no other account; the sender's grant date stays what it was:
    /redeem applies no daily grant. When they do not fit the handler raises
    OverflowError and no account has changed. *)
Theorem X7_redeem_cmd (u : Z) (arg0 : string) (rest : list string) (now : string)
    (d : db) :
  let r := redeem_cmd u (arg0 :: rest) now d in
  redeem_cmd u [] now d = (Returns [Reply RRedeemUsage], d) /\
  match codes d !! py_strip arg0 with
  | None => r = (Returns [Reply (RRedeemFailed (inl "Code not found"%string))], d)
  | Some row =>
      match used_by row with
      | Some _ =>
          r = (Returns [Reply (RRedeemFailed (inl "Code already used"%string))], d)
      | None =>
          if fits u && fits (balance d u + amount row) then
            r.1 = Returns [Reply (RRedeemed (inr (amount row)))] /\
            balance r.2 u = balance d u + amount row /\
            last_topup r.2 u = last_topup d u /\
            (forall w, w ≠ u -> users r.2 !! w = users d !! w)
          else
            r.1 = Raises OverflowError /\ users r.2 = users d
      end
  end.
Proof.
  intros r. subst r. split; [reflexivity |]. rewrite redeem_cmd_eq.
  unfold redeem_code. rewrite redeem_code_sync_eq.
  destruct (codes d !! py_strip arg0) as [row|] eqn:E; [| reflexivity].
  destruct (used_by row) as [w|] eqn:Eu; [reflexivity |].
  destruct (fits u); [| split; reflexivity]. cbn zeta. cbn [andb].
  unfold Redeemed. destruct (fits (_ + _)); cbn [fst snd]; [| split; reflexivity].
  rewrite balance_insert, last_topup_insert, !decide_True by done.
  split; [reflexivity |]. split; [reflexivity |]. split; [reflexivity |].
  intros w Hw. cbn [users]. rewrite lookup_insert_ne by done. reflexivity.
Qed.

End Redeem.

(** X8. /code from an admin with a positive amount that fits 64 bits, as
    the admin's id does: when the token is new the code is stored unused
    with that amount and the admin as issuer, and the reply carries the
    token and the amount; when the token is already a code the handler
    raises the integrity error and the store is untouched, so an existing
    code is never overwritten. With an amount of 2^63 or more the handler
    raises OverflowError and stores nothing. *)
Theorem X8_code_cmd_issues
    (ADMIN_IDS : list Z) (py_int : string -> option Z)
    (u : Z) (arg0 : string) (rest : list string) (token now : string) (d : db) (n : Z) :
  u ∈ ADMIN_IDS -> py_int arg0 = Some n -> 0 < n ->
  let r := code_cmd ADMIN_IDS py_int u (arg0 :: rest) token now d in
  (fits n = true -> fits u = true -> codes d !! token = None ->
     r = (Returns [Reply (RCodeCreated token n)],
          Db (users d) (<[token := CodeRow n u now None None]> (codes d)))) /\
  (fits n = true -> fits u = true -> is_Some (codes d !! token) ->
     r = (Raises IntegrityError, d)) /\
  (fits n = false \/ fits u = false -> r = (Raises OverflowError, d)).
Proof.
  intros Hin Hint Hpos r. subst r. unfold code_cmd.
  rewrite (bool_decide_eq_false_2 (u ∉ ADMIN_IDS)) by (intros H; exact (H Hin)).
  rewrite Hint, (bool_decide_eq_false_2 (n <= 0)) by lia.
  unfold generate_code, mbind, M_bind. rewrite generate_code_sync_eq.
  split; [| split].
  - intros -> -> ->. reflexivity.
  - intros -> -> [row ->]. reflexivity.
  - intros [-> | ->]; [reflexivity |]. destruct (fits n); reflexivity.
Qed.

Lemma X8_code_cmd_issues_witness :
  code_cmd [8455153833] (fun _ => Some 100) 8455153833 ["100"%string]
    "Zx3kQ9pLm2A" "2024-05-02T09:00:00"
    (Db ∅ {[ "Zx3kQ9pLm2A"%string := CodeRow 5 1 "2024-05-01T09:00:00" None None ]})
  = (Raises IntegrityError,
     Db ∅ {[ "Zx3kQ9pLm2A"%string := CodeRow 5 1 "2024-05-01T09:00:00" None None ]}).
Proof.
  destruct (X8_code_cmd_issues [8455153833] (fun _ => Some 100) 8455153833 "100" []
              "Zx3kQ9pLm2A" "2024-05-02T09:00:00"
              (Db ∅ {[ "Zx3kQ9pLm2A"%string
                         := CodeRow 5 1 "2024-05-01T09:00:00" None None ]}) 100)
    as (_ & Htaken & _).
  - apply list_elem_of_here.
  - reflexivity.
  - lia.
  - apply Htaken; [reflexivity | reflexivity |]. simpl. eauto.
Defined.

Section CodeRedeem.

Context {text : PyText}.

(** X9. A code an admin creates with /code is worth its amount to the first
    user who sends it to /redeem: for a new token that stripping leaves as
    it is, after /code with a positive amount [n], /redeem with the token
    answers with [n] and the sender's balance is [n] more than it was, the
    ids, the amount and the new balance fitting 64 bits. *)
Theorem X9_code_then_redeem
    (ADMIN_IDS : list Z) (py_int : string -> option Z)
    (a : Z) (arg0 : string) (rest : list string) (token now : string) (n : Z)
    (v : Z) (rest' : list string) (now' : string) (d : db) :
  a ∈ ADMIN_IDS -> py_int arg0 = Some n -> 0 < n ->
  codes d !! token = None ->
  py_strip token = token ->
  fits a = true -> fits n = true -> fits v = true -> fits (balance d v + n) = true ->
  let d1 := store_of (code_cmd ADMIN_IDS py_int a (arg0 :: rest) token now) d in
  let r := redeem_cmd v (token :: rest') now' d1 in
  r.1 = Returns [Reply (RRedeemed (inr n))] /\ balance r.2 v = balance d v + n.
Proof.
  intros Hin Hint Hpos Hnew Hclean Fa Fn Fv Fb d1 r. subst d1 r.
  assert (Hd1 : store_of (code_cmd ADMIN_IDS py_int a (arg0 :: rest) token now) d
                = Db (users d) (<[token := CodeRow n a now None None]> (codes d))).
  { unfold store_of, code_cmd.
    rewrite (bool_decide_eq_false_2 (a ∉ ADMIN_IDS)) by (intros H; exact (H Hin)).
    rewrite Hint, (bool_decide_eq_false_2 (n <= 0)) by lia.
    unfold generate_code, mbind, M_bind.
    rewrite (generate_fresh _ _ _ _ _ Fn Fa Hnew). reflexivity. }
  rewrite Hd1, redeem_cmd_eq, Hclean. unfold redeem_code.
  rewrite (redeem_unused now' token v (Db _ _) (CodeRow n a now None None));
    [| apply lookup_insert_eq | reflexivity | exact Fv | exact Fb].
  unfold Redeemed. cbn [fst snd amount users codes]. split; [reflexivity |].
  rewrite balance_insert, decide_True by done. reflexivity.
Qed.

End CodeRedeem.

Lemma X9_code_then_redeem_witness :
  let d1 := store_of (code_cmd [8455153833] (fun _ => Some 100) 8455153833
                        ["100"%string] "Zx3kQ9pLm2A" "2024-05-01T09:00:00")
              (Db {[ 7 := UserRow 3 None ]} ∅) in
  let r := redeem_cmd (text := ascii_text) 7 ["Zx3kQ9pLm2A"%string]
             "2024-05-01T10:00:00" d1 in
  r.1 = Returns [Reply (RRedeemed (inr 100))] /\ balance r.2 7 = 103.
Proof.
  intros d1 r.
  destruct (X9_code_then_redeem (text := ascii_text)
              [8455153833] (fun _ => Some 100) 8455153833 "100" []
              "Zx3kQ9pLm2A" "2024-05-01T09:00:00" 100 7 [] "2024-05-01T10:00:00"
              (Db {[ 7 := UserRow 3 None ]} ∅)) as [H1 H2];
    [apply list_elem_of_here | reflexivity | lia | reflexivity ..|].
  subst r d1. split; [exact H1 | rewrite H2; reflexivity].
Defined.

Section NumArgument.

Context {text : PyText}.
Variable ADMIN_IDS : list Z.

(** X10. /num and its argument. Without an argument, or with one that has
    neither 10 nor 12 digits, the handler only replies: no account is
    created, no grant applied, no request made. Otherwise nothing of the
    argument matters but the digits of its stripped text, and further
    arguments are ignored. *)
Theorem X10_num_cmd_argument
    (u : Z) (arg0 : string) (rest : list string)
    (today : string) (resp : http_result) (d : db) :
  num_cmd ADMIN_IDS u [] today resp d = (Returns [Reply RNumUsage], d) /\
  (~ valid_number arg0 ->
     num_cmd ADMIN_IDS u (arg0 :: rest) today resp d = (Returns [Reply RNumDigits], d)) /\
  (forall arg0' rest', digit_chars (py_strip arg0') = digit_chars (py_strip arg0) ->
     num_cmd ADMIN_IDS u (arg0' :: rest') today resp d
     = num_cmd ADMIN_IDS u (arg0 :: rest) today resp d).
Proof.
  split; [reflexivity |]. split.
  - intros Hbad. unfold num_cmd, valid_number in *.
    rewrite (bool_decide_eq_false_2 _ Hbad). reflexivity.
  - intros arg0' rest' Hsame. unfold num_cmd, digits_of. rewrite Hsame.
    reflexivity.
Qed.

End NumArgument.

Lemma X10_num_cmd_argument_witness :
  num_cmd (text := ascii_text) [8455153833] 7 ["12345"%string] "2024-05-01"
    HttpRaises init_db
  = (Returns [Reply RNumDigits], init_db).
Proof.
  destruct (X10_num_cmd_argument (text := ascii_text) [8455153833] 7 "12345" []
              "2024-05-01" HttpRaises init_db)
    as (_ & Hbad & _).
  apply Hbad. unfold valid_number. vm_compute.
  intros H. apply elem_of_cons in H as [H|H]; [discriminate |].
  apply elem_of_cons in H as [H|H]; [discriminate |]. apply elem_of_nil in H. exact H.
Defined.

(** *** What /num sends *)

Lemma send_results_replies (recs : list json) (idx : nat) :
  Forall (fun e => is_request e = false) (send_results recs idx).1.
Proof.
  revert idx. induction recs as [|rec recs IH]; intros idx; simpl; [constructor |].
  destruct (style_record_block rec idx) as [block|]; [| constructor].
  specialize (IH (S idx)). destruct (send_results recs (S idx)) as [evs ok]. simpl in *.
  constructor; [reflexivity | exact IH].
Qed.

Lemma after_request_replies (u : Z) (is_admin : bool) (resp : http_result) (d : db) :
  Forall (fun e => is_request e = false) (sent (result_of (after_request u is_admin resp) d)).
Proof.
  unfold after_request, result_of.
  destruct resp as [|status [data|]]; try (repeat constructor).
  - destruct (bool_decide (status ≠ 200)); [repeat constructor |].
    destruct (unwrap data) as [r|data_list]; [repeat constructor |].
    destruct (filter_records data_list) as [|rec recs]; [repeat constructor |].
    pose proof (send_results_replies (rec :: recs) 1) as Hs.
    destruct (send_results (rec :: recs) 1) as [blocks ok]. cbn [fst] in Hs.
    unfold mbind, M_bind, attempt, mret, M_ret.
    destruct (_ : outcome unit * db) as [[[]|e] d1]; [| repeat constructor].
    destruct ok.
    + destruct (_ : outcome reply * db) as [[f|e] d2]; cbn;
        (apply Forall_app; split; [exact Hs | repeat constructor]).
    + cbn. apply Forall_app. split; [exact Hs |]. repeat constructor.
  - destruct (bool_decide (status ≠ 200)); repeat constructor.
Qed.

Lemma no_request_filter (evs : list event) :
  Forall (fun e => is_request e = false) evs -> List.filter is_request evs = [].
Proof.
  induction 1 as [|e evs He _ IH]; [reflexivity |]. simpl. rewrite He. exact IH.
Qed.

Lemma digit_chars_digits `{PyText} (s : string) :
  Forall (fun c => py_isdigit c = true) (digit_chars s).
Proof.
  unfold digit_chars. apply Forall_forall. intros c Hc.
  apply list_elem_of_In, List.filter_In in Hc. tauto.
Qed.

Section NumSends.

Context {text : PyText}.
Variable ADMIN_IDS : list Z.

(** X12. /num makes at most one request. The number it looks up is the
    digits of the first argument, stripped, joined: characters Python takes
    for digits and nothing else, 10 or 12 of them; and it is made only for
    an admin or for a sender whose balance after the grant covers the
    cost. *)
Theorem X12_num_cmd_request
    (u : Z) (args : list string)
    (today : string) (resp : http_result) (d : db) :
  let evs := sent (result_of (num_cmd ADMIN_IDS u args today resp) d) in
  (length (List.filter is_request evs) <= 1)%nat /\
  forall q, HttpGet q ∈ evs ->
    exists arg0 rest chs,
      args = arg0 :: rest /\ chs = List.filter py_isdigit (py_chars (py_strip arg0)) /\
      q = py_join chs /\
      Forall (fun c => py_isdigit c = true) chs /\
      (length chs = 10%nat \/ length chs = 12%nat) /\
      (u ∈ ADMIN_IDS \/ CREDIT_COST_PER_LOOKUP <= balance (gate_store today u d) u).
Proof.
  intros evs. subst evs. unfold result_of.
  assert (Hnone : forall (evs : list event) (P : string -> Prop),
            Forall (fun e => is_request e = false) evs ->
            (length (List.filter is_request evs) <= 1)%nat /\
            forall q, HttpGet q ∈ evs -> P q).
  { intros evs P Hall. split; [rewrite (no_request_filter _ Hall); simpl; lia |].
    intros q Hq. rewrite Forall_forall in Hall. specialize (Hall _ Hq). discriminate. }
  destruct args as [|arg0 rest]; [apply Hnone; repeat constructor |].
  destruct (decide (length (digit_chars (py_strip arg0)) ∈ [10; 12]%nat))
    as [Hvalid|Hbad].
  2:{ unfold num_cmd. rewrite (bool_decide_eq_false_2 _ Hbad).
      apply Hnone. repeat constructor. }
  destruct (result_of (gate today u) d) as [c|e] eqn:Hr.
  2:{ rewrite (num_cmd_raises ADMIN_IDS u arg0 rest today resp d e Hvalid Hr).
      apply Hnone. constructor. }
  assert (Hpassed : u ∈ ADMIN_IDS \/
                    CREDIT_COST_PER_LOOKUP <= balance (gate_store today u d) u ->
    (length (List.filter is_request
               (sent (num_cmd ADMIN_IDS u (arg0 :: rest) today resp d).1)) <= 1)%nat /\
    forall q, HttpGet q ∈ sent (num_cmd ADMIN_IDS u (arg0 :: rest) today resp d).1 ->
      exists arg0' rest' chs,
        arg0 :: rest = arg0' :: rest' /\
        chs = List.filter py_isdigit (py_chars (py_strip arg0')) /\
        q = py_join chs /\
        Forall (fun c => py_isdigit c = true) chs /\
        (length chs = 10%nat \/ length chs = 12%nat) /\
        (u ∈ ADMIN_IDS \/ CREDIT_COST_PER_LOOKUP <= balance (gate_store today u d) u)).
  { intros Hpass.
    destruct (gate_returns_inv _ _ _ _ Hr) as (Fu & Hs & _).
    pose proof (after_request_replies u (bool_decide (u ∈ ADMIN_IDS)) resp
                  (gate_store today u d)) as Hrep.
    destruct (after_request_eq u (bool_decide (u ∈ ADMIN_IDS)) resp _ Fu Hs)
      as [evs Hafter].
    unfold result_of in Hrep. rewrite Hafter in Hrep. cbn [fst sent] in Hrep.
    assert (num_cmd ADMIN_IDS u (arg0 :: rest) today resp d
            = (Returns (Reply (RLookingUp (digits_of (py_strip arg0)))
                          :: HttpGet (digits_of (py_strip arg0)) :: evs),
               (after_request u (bool_decide (u ∈ ADMIN_IDS)) resp
                  (gate_store today u d)).2)) as ->.
    { destruct (num_cmd_passed ADMIN_IDS u arg0 rest today resp d c Hvalid Hr Hpass)
        as [evs' Hn].
      pose proof (gate_pair today u d) as Hg. rewrite Hr in Hg.
      unfold num_cmd. rewrite (bool_decide_eq_true_2 _ Hvalid). cbn [negb].
      rewrite gate_then, Hg.
      destruct (bool_decide (u ∈ ADMIN_IDS)) eqn:Ea; cbn [negb].
      - unfold mbind at 1, M_bind at 1. rewrite ret_eq.
        rewrite (bind_returns _ _ _ _ _ Hafter), Hafter. reflexivity.
      - assert ((get_credits u ≫= λ c0, mret (if c0 <? CREDIT_COST_PER_LOOKUP
                                               then Some c0 else None))
                  (gate_store today u d)
                = (Returns None, gate_store today u d)) as Hshort.
        { rewrite (bind_returns _ _ _ _ _ (get_credits_present _ _ Fu Hs)), ret_eq.
          destruct Hpass as [Hin|Hge];
            [apply bool_decide_eq_false_1 in Ea; contradiction |].
          destruct (Z.ltb_spec (balance (gate_store today u d) u)
                      CREDIT_COST_PER_LOOKUP) as [Hlt|_]; [lia |].
          reflexivity. }
        rewrite (bind_returns _ _ _ _ _ Hshort).
        rewrite (bind_returns _ _ _ _ _ Hafter), Hafter. reflexivity. }
    cbn [fst sent]. split.
    - simpl. rewrite (no_request_filter _ Hrep). simpl. lia.
    - intros q Hq. apply elem_of_cons in Hq as [Hq|Hq]; [discriminate |].
      apply elem_of_cons in Hq as [Hq|Hq].
      + injection Hq as ->. exists arg0, rest, (digit_chars (py_strip arg0)).
        split; [reflexivity |]. split; [reflexivity |]. split; [reflexivity |].
        split; [apply digit_chars_digits |]. split; [| exact Hpass].
        apply elem_of_cons in Hvalid as [H|H]; [left; exact H |].
        apply elem_of_cons in H as [H|H]; [right; exact H |].
        apply elem_of_nil in H. destruct H.
      + exfalso. rewrite Forall_forall in Hrep. specialize (Hrep _ Hq). discriminate. }
  destruct (decide (u ∈ ADMIN_IDS)) as [Hin|Hout]; [apply Hpassed; left; exact Hin |].
  destruct (Z_lt_le_dec (balance (gate_store today u d) u) CREDIT_COST_PER_LOOKUP)
    as [Hlt|Hge]; [| apply Hpassed; right; exact Hge].
  rewrite (num_cmd_short ADMIN_IDS u arg0 rest today resp d c Hvalid Hout Hr Hlt).
  apply Hnone. repeat constructor.
Qed.

End NumSends.

Lemma send_results_all (recs : list json) (idx : nat) :
  (send_results recs idx).2 = true ->
  (send_results recs idx).1 = imap (fun i rec => Reply (RRecord rec (idx + i))) recs.
Proof.
  revert idx. induction recs as [|rec recs IH]; intros idx; simpl; [reflexivity |].
  unfold style_record_block.
  destruct rec as [| | | | | |items]; try discriminate.
  destruct (forallb (fun k => strippable k items) record_fields); [| discriminate].
  specialize (IH (S idx)). destruct (send_results recs (S idx)) as [evs ok]. simpl in *.
  intros Hok. rewrite (IH Hok), Nat.add_0_r. f_equal.
  apply imap_ext. intros i rec _. simpl. f_equal. f_equal. lia.
Qed.

(** The charge of a lookup, on a balance that covers it. *)
Lemma charge_eq (u : Z) (d : db) :
  fits u = true -> fits (balance d u) = true ->
  CREDIT_COST_PER_LOOKUP <= balance d u ->
  change_credits u (- CREDIT_COST_PER_LOOKUP) d
  = (Returns (balance d u - CREDIT_COST_PER_LOOKUP),
     Db (<[u := UserRow (balance d u - CREDIT_COST_PER_LOOKUP) (last_topup d u)]>
           (users d)) (codes d)).
Proof.
  intros Fu Fb Hge. rewrite change_credits_eq, Fu.
  replace (Z.max 0 (balance d u + - CREDIT_COST_PER_LOOKUP))
    with (balance d u - CREDIT_COST_PER_LOOKUP)
    by (unfold CREDIT_COST_PER_LOOKUP in *; lia).
  assert (fits (balance d u - CREDIT_COST_PER_LOOKUP) = true) as ->; [| reflexivity].
  apply fits_bounds. apply fits_bounds in Fb.
  unfold CREDIT_COST_PER_LOOKUP, INT64_MIN, INT64_MAX in *. lia.
Qed.

(** What the handler shows after a lookup that gave records, to a sender
    who is not an admin. *)
Lemma after_request_shown (u : Z) (resp : http_result) (d : db) :
  fits u = true -> fits (balance d u) = true ->
  CREDIT_COST_PER_LOOKUP <= balance d u ->
  usable_result resp ≠ [] ->
  result_of (after_request u false resp) d
  = Returns
      ((send_results (usable_result resp) 1).1
       ++ [Reply (if (send_results (usable_result resp) 1).2
                  then RFooter (balance d u - CREDIT_COST_PER_LOOKUP)
                  else RErrorCallingApi)]).
Proof.
  intros Fu Fb Hge Hsome. unfold after_request, usable_result, result_of in *.
  destruct resp as [|status [data|]]; try contradiction.
  destruct (bool_decide (status ≠ 200)); [contradiction |].
  destruct (unwrap data) as [r|data_list]; [contradiction |].
  destruct (filter_records data_list) as [|rec recs]; [contradiction |].
  destruct (send_results (rec :: recs) 1) as [blocks ok]. cbn [negb fst snd].
  unfold mbind, M_bind, attempt, mret, M_ret.
  rewrite (charge_eq u d Fu Fb Hge).
  destruct ok; [| reflexivity].
  rewrite get_credits_present; [| exact Fu | cbn; rewrite lookup_insert_eq; eauto].
  rewrite balance_insert, decide_True by done. reflexivity.
Qed.

Section NumShows.

Context {text : PyText}.
Variable ADMIN_IDS : list Z.

Lemma num_cmd_charged (u : Z) (arg0 : string) (rest : list string)
    (today : string) (resp : http_result) (d : db) (c : Z) :
  u ∉ ADMIN_IDS -> valid_number arg0 -> usable_result resp ≠ [] ->
  result_of (gate today u) d = Returns c ->
  CREDIT_COST_PER_LOOKUP <= balance (gate_store today u d) u ->
  store_of (num_cmd ADMIN_IDS u (arg0 :: rest) today resp) d
  = store_of (change_credits u (- CREDIT_COST_PER_LOOKUP)) (gate_store today u d).
Proof.
  intros Hout Hvalid Hsome Hr Hge. unfold store_of at 1.
  destruct (num_cmd_passed ADMIN_IDS u arg0 rest today resp d c Hvalid Hr
              (or_intror Hge)) as [evs ->].
  cbn [snd]. rewrite (bool_decide_eq_false_2 _ Hout).
  destruct (usable_result resp); [contradiction | reflexivity].
Qed.

(** The lookup of a sender who is not an admin, with records to show. *)
Lemma num_cmd_lookup_shown
    (u : Z) (arg0 : string) (rest : list string)
    (today : string) (resp : http_result) (d : db) (c : Z) :
  u ∉ ADMIN_IDS -> valid_number arg0 ->
  result_of (gate today u) d = Returns c ->
  fits (balance (gate_store today u d) u) = true ->
  CREDIT_COST_PER_LOOKUP <= balance (gate_store today u d) u ->
  usable_result resp ≠ [] ->
  let r := num_cmd ADMIN_IDS u (arg0 :: rest) today resp d in
  let left_ := balance (gate_store today u d) u - CREDIT_COST_PER_LOOKUP in
  let shown := send_results (usable_result resp) 1 in
  balance r.2 u = left_ /\
  r.1 = Returns
          (Reply (RLookingUp (digits_of (py_strip arg0)))
             :: HttpGet (digits_of (py_strip arg0))
             :: shown.1 ++ [Reply (if shown.2 then RFooter left_ else RErrorCallingApi)]) /\
  (shown.2 = true ->
     shown.1 = imap (fun i rec => Reply (RRecord rec (S i))) (usable_result resp)).
Proof.
  intros Hout Hvalid Hr Fb Hge Hsome r left_ shown. subst r left_ shown.
  destruct (gate_returns_inv _ _ _ _ Hr) as (Fu & Hs & _).
  pose proof (after_request_shown u resp _ Fu Fb Hge Hsome) as Hshown.
  pose proof (num_cmd_charged u arg0 rest today resp d c Hout Hvalid Hsome Hr Hge) as Hst.
  destruct (charge_balance u _ Fu Fb Hge) as (Hb & _).
  unfold store_of at 1 in Hst. rewrite Hst, Hb.
  split; [reflexivity |]. split.
  - pose proof (gate_pair today u d) as Hg. rewrite Hr in Hg.
    unfold num_cmd. rewrite (bool_decide_eq_true_2 _ Hvalid). cbn [negb].
    rewrite gate_then, Hg, (bool_decide_eq_false_2 _ Hout). cbn [negb].
    assert ((get_credits u ≫= λ c0, mret (if c0 <? CREDIT_COST_PER_LOOKUP
                                           then Some c0 else None))
              (gate_store today u d)
            = (Returns None, gate_store today u d)) as Hshort.
    { rewrite (bind_returns _ _ _ _ _ (get_credits_present _ _ Fu Hs)), ret_eq.
      destruct (Z.ltb_spec (balance (gate_store today u d) u)
                  CREDIT_COST_PER_LOOKUP) as [Hlt|_]; [lia |].
      reflexivity. }
    rewrite (bind_returns _ _ _ _ _ Hshort).
    unfold result_of in Hshown. unfold mbind, M_bind.
    destruct (after_request u false resp (gate_store today u d)) as [res d2].
    cbn [fst] in Hshown. subst res. reflexivity.
  - intros Hok. rewrite (send_results_all _ _ Hok). reflexivity.
Qed.

(** X13. A sender who is not an admin, whose balance after the grant (a
    64-bit value) covers the cost, and a lookup that gave records: the
    sender is charged the cost once, before anything is shown. If every
    record formats, they are shown in order, numbered from 1, followed by a
    footer with the balance that remains. If one does not (a field holds a
    number, say), the records before it are shown, then the error reply, and
    the charge stays. *)
Theorem X13_num_cmd_shows
    (u : Z) (arg0 : string) (rest : list string)
    (today : string) (resp : http_result) (d : db) (c : Z) :
  u ∉ ADMIN_IDS -> valid_number arg0 ->
  result_of (gate today u) d = Returns c ->
  fits (balance (gate_store today u d) u) = true ->
  CREDIT_COST_PER_LOOKUP <= balance (gate_store today u d) u ->
  usable_result resp ≠ [] ->
  let r := num_cmd ADMIN_IDS u (arg0 :: rest) today resp d in
  let left_ := balance (gate_store today u d) u - CREDIT_COST_PER_LOOKUP in
  let shown := send_results (usable_result resp) 1 in
  balance r.2 u = left_ /\
  r.1 = Returns
          (Reply (RLookingUp (digits_of (py_strip arg0)))
             :: HttpGet (digits_of (py_strip arg0))
             :: shown.1 ++ [Reply (if shown.2 then RFooter left_ else RErrorCallingApi)]) /\
  (shown.2 = true ->
     shown.1 = imap (fun i rec => Reply (RRecord rec (S i))) (usable_result resp)).
Proof. apply num_cmd_lookup_shown. Qed.

End NumShows.

Lemma X13_num_cmd_shows_witness :
  let resp := HttpResponse 200
                (Some (JList [JDict [("name"%string, JStr "A")];
                              JDict [("mobile"%string, JInt 7986782429)]])) in
  let r := num_cmd (text := ascii_text) [8455153833] 7 ["7986782429"%string]
             "2024-05-01" resp init_db in
  balance r.2 7 = 29 /\
  r.1 = Returns [Reply (RLookingUp "7986782429"); HttpGet "7986782429";
                 Reply (RRecord (JDict [("name"%string, JStr "A")]) 1);
                 Reply RErrorCallingApi].
Proof.
  intros resp r.
  destruct (X13_num_cmd_shows (text := ascii_text) [8455153833] 7 "7986782429" []
              "2024-05-01" resp init_db 30)
    as (Hb & He & _).
  - apply not_elem_of_cons. split; [discriminate | apply not_elem_of_nil].
  - vm_compute. apply list_elem_of_here.
  - reflexivity.
  - reflexivity.
  - vm_compute. discriminate.
  - discriminate.
  - subst r. split; [rewrite Hb; reflexivity | rewrite He; reflexivity].
Defined.

Section Quota.

Context {text : PyText}.
Variable ADMIN_IDS : list Z.
Variable py_int : string -> option Z.

Lemma gate_same_day (today : string) (u : Z) (d : db) :
  fits u = true -> last_topup d u = Some today ->
  result_of (gate today u) d = Returns (balance d u).
Proof.
  intros Fu Ht. rewrite gate_result, Fu, (bool_decide_eq_true_2 _ Ht). reflexivity.
Qed.

Lemma lookups_step (u : Z) (arg0 today : string) (resp : http_result) (d : db) :
  u ∉ ADMIN_IDS -> valid_number arg0 -> usable_result resp ≠ [] ->
  fits u = true -> fits (balance d u) = true ->
  last_topup d u = Some today -> CREDIT_COST_PER_LOOKUP <= balance d u ->
  let d' := handle ADMIN_IDS py_int (UNum u [arg0] today resp) d in
  balance d' u = balance d u - CREDIT_COST_PER_LOOKUP /\ last_topup d' u = Some today.
Proof.
  intros Hout Hvalid Hsome Fu Fb Htoday Hge d'. subst d'. cbn [handle].
  pose proof (gate_store_same_day today u d Htoday) as Hg.
  rewrite (num_cmd_charged ADMIN_IDS u arg0 [] today resp d (balance d u)
             Hout Hvalid Hsome (gate_same_day _ _ _ Fu Htoday))
    by (rewrite Hg; exact Hge).
  rewrite Hg. destruct (charge_balance u d Fu Fb Hge) as (Hb & _ & Ht & _).
  split; [exact Hb | rewrite Ht; exact Htoday].
Qed.

Lemma lookups_spend (u : Z) (arg0 today : string) (resp : http_result) (n : nat) (d : db) :
  u ∉ ADMIN_IDS -> valid_number arg0 -> usable_result resp ≠ [] ->
  fits u = true -> fits (balance d u) = true ->
  last_topup d u = Some today ->
  Z.of_nat n * CREDIT_COST_PER_LOOKUP <= balance d u ->
  let d' := handle_all ADMIN_IDS py_int (lookups n u arg0 today resp) d in
  balance d' u = balance d u - Z.of_nat n * CREDIT_COST_PER_LOOKUP /\
  last_topup d' u = Some today.
Proof.
  intros Hout Hvalid Hsome Fu. revert d.
  induction n as [|n IH]; intros d Fb Htoday Hn d'; subst d'.
  - simpl. split; [lia | exact Htoday].
  - assert (Hcons : handle_all ADMIN_IDS py_int (lookups (S n) u arg0 today resp) d
                    = handle_all ADMIN_IDS py_int (lookups n u arg0 today resp)
                        (handle ADMIN_IDS py_int (UNum u [arg0] today resp) d))
      by reflexivity.
    rewrite Hcons. unfold CREDIT_COST_PER_LOOKUP in *.
    destruct (lookups_step u arg0 today resp d Hout Hvalid Hsome Fu Fb Htoday)
      as [Hb Ht]; [unfold CREDIT_COST_PER_LOOKUP; lia |].
    unfold CREDIT_COST_PER_LOOKUP in *.
    destruct (IH (handle ADMIN_IDS py_int (UNum u [arg0] today resp) d)) as [Hb' Ht'].
    + rewrite Hb. apply fits_bounds. apply fits_bounds in Fb.
      unfold INT64_MIN, INT64_MAX in *. lia.
    + exact Ht.
    + lia.
    + split; [rewrite Hb'; lia | exact Ht'].
Qed.

(** X14. A day of a new user who is not an admin, with an id that fits 64
    bits, all lookups giving records: the first /num of the day brings the
    grant, and after [n] lookups, for every [n] from 1 to
    DAILY_FREE_CREDITS, the balance is DAILY_FREE_CREDITS minus [n]. The
    lookup after the last one paid for is refused with the
    insufficient-credits reply showing 0, no request is made and the store
    stays as it is. *)
Theorem X14_daily_quota
    (u : Z) (arg0 today : string) (resp : http_result) (n : nat) :
  u ∉ ADMIN_IDS -> valid_number arg0 -> usable_result resp ≠ [] ->
  fits u = true ->
  (1 <= n)%nat -> Z.of_nat n <= DAILY_FREE_CREDITS ->
  let day k := handle_all ADMIN_IDS py_int (lookups k u arg0 today resp) init_db in
  balance (day n) u = DAILY_FREE_CREDITS - Z.of_nat n /\
  num_cmd ADMIN_IDS u [arg0] today resp (day (Z.to_nat DAILY_FREE_CREDITS))
  = (Returns [Reply (RInsufficient 0)], day (Z.to_nat DAILY_FREE_CREDITS)).
Proof.
  intros Hout Hvalid Hsome Fu H1 Hn day.
  assert (Hfirst : balance (day 1%nat) u = DAILY_FREE_CREDITS - 1 /\
                   last_topup (day 1%nat) u = Some today).
  { subst day. unfold lookups, handle_all. cbn [replicate foldl handle].
    assert (Hres : result_of (gate today u) init_db = Returns DAILY_FREE_CREDITS).
    { rewrite gate_result, Fu. reflexivity. }
    assert (Hg : gate_store today u init_db
                 = Db (<[u := UserRow DAILY_FREE_CREDITS (Some today)]> ∅) ∅).
    { unfold gate_store, ensure_user, topup_if_needed, store_of.
      rewrite ensure_user_sync_eq, Fu. cbn [snd users init_db].
      rewrite lookup_empty.
      rewrite topup_due;
        [| exact Fu | rewrite balance_insert, decide_True by done; reflexivity
         | rewrite last_topup_insert, decide_True by done; discriminate].
      cbn [snd users codes]. rewrite balance_insert, decide_True by done.
      rewrite insert_insert_eq. reflexivity. }
    rewrite (num_cmd_charged ADMIN_IDS u arg0 [] today resp init_db _
               Hout Hvalid Hsome Hres)
      by (rewrite Hg, balance_insert, decide_True by done; cbn;
          unfold CREDIT_COST_PER_LOOKUP, DAILY_FREE_CREDITS; lia).
    rewrite Hg.
    destruct (charge_balance u (Db (<[u := UserRow DAILY_FREE_CREDITS (Some today)]> ∅) ∅))
      as (Hb & _ & Ht & _);
      [exact Fu | rewrite balance_insert, decide_True by done; reflexivity
       | rewrite balance_insert, decide_True by done; cbn;
         unfold CREDIT_COST_PER_LOOKUP, DAILY_FREE_CREDITS; lia |].
    rewrite Hb, Ht, balance_insert, last_topup_insert, !decide_True by done.
    split; reflexivity. }
  assert (Hday : forall k, day (S k) = handle_all ADMIN_IDS py_int
                                        (lookups k u arg0 today resp) (day 1%nat)).
  { intros k. subst day. unfold lookups, handle_all. reflexivity. }
  destruct Hfirst as [Hb1 Ht1].
  assert (Hafter : forall k, Z.of_nat (S k) <= DAILY_FREE_CREDITS ->
            balance (day (S k)) u = DAILY_FREE_CREDITS - Z.of_nat (S k) /\
            last_topup (day (S k)) u = Some today).
  { intros k Hk. rewrite Hday.
    destruct (lookups_spend u arg0 today resp k (day 1%nat)
                Hout Hvalid Hsome Fu) as [Hb Ht].
    - rewrite Hb1. reflexivity.
    - exact Ht1.
    - rewrite Hb1. unfold CREDIT_COST_PER_LOOKUP. lia.
    - split; [rewrite Hb, Hb1; unfold CREDIT_COST_PER_LOOKUP; lia | exact Ht]. }
  split.
  - destruct n as [|k]; [lia |]. exact (proj1 (Hafter k Hn)).
  - change (Z.to_nat DAILY_FREE_CREDITS) with 30%nat.
    destruct (Hafter 29%nat) as [Hb Ht]; [unfold DAILY_FREE_CREDITS; lia |].
    pose proof (gate_store_same_day today u _ Ht) as Hg.
    rewrite (num_cmd_short ADMIN_IDS u arg0 [] today resp (day 30%nat) _ Hvalid Hout
               (gate_same_day _ _ _ Fu Ht))
      by (rewrite Hg, Hb; unfold CREDIT_COST_PER_LOOKUP, DAILY_FREE_CREDITS; lia).
    rewrite Hg, Hb. reflexivity.
Qed.

End Quota.

Lemma X14_daily_quota_witness :
  let resp := HttpResponse 200 (Some (JList [JDict [("name"%string, JStr "A")]])) in
  balance (handle_all (text := ascii_text) [8455153833] (fun _ => None)
             (lookups 11 7 "7986782429" "2024-05-01" resp) init_db) 7 = 19.
Proof.
  intros resp.
  destruct (X14_daily_quota (text := ascii_text) [8455153833] (fun _ => None) 7
              "7986782429" "2024-05-01" resp 11) as [Hb _].
  - apply not_elem_of_cons. split; [discriminate | apply not_elem_of_nil].
  - vm_compute. apply list_elem_of_here.
  - discriminate.
  - reflexivity.
  - lia.
  - unfold DAILY_FREE_CREDITS. lia.
  - rewrite Hb. reflexivity.
Defined.

(** * Records that show nothing *)

Ltac in_fields :=
  unfold record_fields;
  repeat first [apply list_elem_of_here | apply list_elem_of_further].

Section BlankRecord.

Context {text : PyText}.
Variable ADMIN_IDS : list Z.

Lemma stripped_strippable (k : string) (items : list (string * json)) :
  is_Some (stripped k items) -> strippable k items = true.
Proof.
  unfold stripped, strippable. intros [v Hv].
  destruct (dict_get k items) as [[| | | | | |]|]; try reflexivity;
    cbn in *; try (destruct (truthy _) eqn:E; [discriminate | cbn in E]);
    repeat match goal with
           | H : context [if ?b then _ else _] |- _ => destruct b eqn:?; try discriminate
           end; try reflexivity; try (cbn; congruence).
  all: try (rewrite ?negb_true_iff, ?negb_false_iff in *; cbn; congruence).
Qed.

(** A string that is not empty is a value for the filter of /num. *)
Lemma keep_record_text (items : list (string * json)) (k s : string) :
  k ∈ record_fields -> dict_get k items = Some (JStr s) -> s ≠ ""%string ->
  keep_record (JDict items) = true.
Proof.
  intros Hk Hget Hs. unfold keep_record. apply existsb_exists. exists k.
  split; [apply list_elem_of_In; exact Hk |].
  unfold truthy_get. rewrite Hget. cbn. apply negb_true_iff.
  apply String.eqb_neq. exact Hs.
Qed.

(** X22. A record whose fields hold nothing but what stripping removes, one
    of them being a string that is not empty: the filter keeps it, since
    such a string counts as a value, so it is a result of the lookup; the
    block built for it shows no field at all; and a sender who is not an
    admin is charged the cost for it and sent that block and the footer. *)
Theorem X22_blank_record
    (items : list (string * json)) (k s : string)
    (u : Z) (arg0 : string) (rest : list string) (today : string) (d : db) (c : Z) :
  (forall f, f ∈ record_fields -> blank f items) ->
  k ∈ record_fields -> dict_get k items = Some (JStr s) -> s ≠ ""%string ->
  let resp := HttpResponse 200 (Some (JList [JDict items])) in
  keep_record (JDict items) = true /\
  usable_result resp = [JDict items] /\
  style_record_lines (JDict items) 1 = Some [BHeader 1; BTop; BBottom; BComplete] /\
  (u ∉ ADMIN_IDS -> valid_number arg0 ->
   result_of (gate today u) d = Returns c ->
   fits (balance (gate_store today u d) u) = true ->
   CREDIT_COST_PER_LOOKUP <= balance (gate_store today u d) u ->
   let r := num_cmd ADMIN_IDS u (arg0 :: rest) today resp d in
   let left_ := balance (gate_store today u d) u - CREDIT_COST_PER_LOOKUP in
   balance r.2 u = left_ /\
   r.1 = Returns [Reply (RLookingUp (digits_of (py_strip arg0)));
                  HttpGet (digits_of (py_strip arg0));
                  Reply (RRecord (JDict items) 1);
                  Reply (RFooter left_)]).
Proof.
  intros Hblank Hk Hget Hs resp.
  pose proof (keep_record_text items k s Hk Hget Hs) as Hkeep.
  assert (Husable : usable_result resp = [JDict items]).
  { subst resp. unfold usable_result.
    rewrite bool_decide_eq_false_2 by (intros H; apply H; reflexivity).
    unfold unwrap, filter_records. cbn [List.filter]. rewrite Hkeep. reflexivity. }
  assert (Hblock : style_record_block (JDict items) 1 = Some (RRecord (JDict items) 1)).
  { unfold style_record_block.
    assert (Hall : forallb (fun f => strippable f items) record_fields = true).
    { apply forallb_forall. intros f Hf. apply stripped_strippable.
      rewrite (Hblank f) by (apply list_elem_of_In; exact Hf). eauto. }
    rewrite Hall. reflexivity. }
  split; [exact Hkeep |]. split; [exact Husable |]. split.
  - unfold style_record_lines.
    assert (Hb : forall f, f ∈ record_fields -> stripped f items = Some ""%string)
      by exact Hblank.
    rewrite !Hb by in_fields. reflexivity.
  - intros Hout Hvalid Hr Fb Hge r left_. subst r left_.
    destruct (num_cmd_lookup_shown ADMIN_IDS u arg0 rest today resp d c
                Hout Hvalid Hr Fb Hge) as (Hbal & Hev & _).
    { rewrite Husable. discriminate. }
    split; [exact Hbal |]. rewrite Hev, Husable.
    cbn [send_results]. rewrite Hblock. reflexivity.
Qed.

End BlankRecord.

Lemma X22_blank_record_witness :
  let items := [("name"%string, JStr " "); ("mobile"%string, JStr "")] in
  keep_record (JDict items) = true /\
  style_record_lines (text := ascii_text) (JDict items) 1
  = Some [BHeader 1; BTop; BBottom; BComplete].
Proof.
  intros items.
  destruct (X22_blank_record (text := ascii_text) [8455153833] items "name" " "
              7 "7986782429" [] "2024-05-01" init_db 30)
    as (Hkeep & _ & Hlines & _).
  - intros f Hf. unfold record_fields in Hf.
    repeat (apply elem_of_cons in Hf as [->|Hf]; [reflexivity |]).
    apply elem_of_nil in Hf. destruct Hf.
  - in_fields.
  - reflexivity.
  - discriminate.
  - split; [exact Hkeep | exact Hlines].
Defined.

(** * When an integer does not fit *)

(** X25. A redeem that overflows uses the code up. For an unused code, a
    caller whose id fits 64 bits and whose balance plus the amount does
    not: redeem_code raises OverflowError, no account has changed, and the
    code is marked used by the caller; whatever calls follow, every later
    redeem of the code, the same caller's included, is refused as already
    used. *)
Theorem X25_redeem_overflow_consumes
    (now code : string) (u : Z) (d : db) (row : code_row)
    (after : list op) (now2 : string) (v : Z) :
  codes d !! code = Some row -> used_by row = None ->
  fits u = true -> fits (balance d u + amount row) = false ->
  let r := redeem_code now code u d in
  r.1 = Raises OverflowError /\
  users r.2 = users d /\
  codes r.2 !! code
  = Some (CodeRow (amount row) (created_by row) (created_at row) (Some u) (Some now)) /\
  (forall c, c ≠ code -> codes r.2 !! c = codes d !! c) /\
  redeem_code now2 code v (run_ops after r.2)
  = (Returns CodeAlreadyUsed, run_ops after r.2).
Proof.
  intros Hrow Hunused Fu Fb r. subst r. unfold redeem_code.
  rewrite (redeem_overflow _ _ _ _ _ Hrow Hunused Fu Fb). cbn [fst snd users codes].
  split; [reflexivity |]. split; [reflexivity |].
  split; [apply lookup_insert_eq |].
  split; [intros c Hc; apply lookup_insert_ne; congruence |].
  eapply redeem_used;
    [apply run_ops_code_used; [apply lookup_insert_eq | cbn; eauto] | reflexivity].
Qed.

Lemma X25_redeem_overflow_consumes_witness :
  let d := Db {[ 7 := UserRow 30 (Some "2024-05-01"%string) ]}
              {[ "Zx3kQ9pLm2A"%string
                   := CodeRow INT64_MAX 1 "2024-05-01T09:00:00" None None ]} in
  let r := redeem_code "2024-05-01T10:00:00" "Zx3kQ9pLm2A" 7 d in
  r.1 = Raises OverflowError /\ users r.2 = users d /\
  redeem_code "2024-05-02T10:00:00" "Zx3kQ9pLm2A" 8 (run_ops [OpChange 7 (-30)] r.2)
  = (Returns CodeAlreadyUsed, run_ops [OpChange 7 (-30)] r.2).
Proof.
  intros d r.
  destruct (X25_redeem_overflow_consumes "2024-05-01T10:00:00" "Zx3kQ9pLm2A" 7 d
              (CodeRow INT64_MAX 1 "2024-05-01T09:00:00" None None)
              [OpChange 7 (-30)] "2024-05-02T10:00:00" 8)
    as (H1 & H2 & _ & _ & H5); [reflexivity ..|].
  split; [exact H1 |]. split; [exact H2 | exact H5].
Defined.

Section GrantOverflow.

Context {text : PyText}.
Variable ADMIN_IDS : list Z.

(** X26. A balance too close to 2^63 for the daily grant locks the account
    out: once the grant is due and the balance plus DAILY_FREE_CREDITS does
    not fit 64 bits, /num (whatever the number, admin or not) and /credits
    raise OverflowError before any reply and any request, and leave balance
    and grant date as they were, so the same happens on the next try. *)
Theorem X26_grant_overflow_blocks
    (u : Z) (arg0 : string) (rest : list string) (today : string)
    (resp : http_result) (d : db) :
  fits u = true -> last_topup d u ≠ Some today ->
  fits (balance d u + DAILY_FREE_CREDITS) = false ->
  valid_number arg0 ->
  let d' := store_of (ensure_user u) d in
  num_cmd ADMIN_IDS u (arg0 :: rest) today resp d = (Raises OverflowError, d') /\
  credits_cmd ADMIN_IDS u today d = (Raises OverflowError, d') /\
  balance d' u = balance d u /\ last_topup d' u = last_topup d u /\
  num_cmd ADMIN_IDS u (arg0 :: rest) today resp d' = (Raises OverflowError, d').
Proof.
  intros Fu Hdue Fb Hvalid d'. subst d'.
  assert (Hgate : forall d0, balance d0 u = balance d u -> last_topup d0 u = last_topup d u ->
            result_of (gate today u) d0 = Raises OverflowError /\
            gate_store today u d0 = store_of (ensure_user u) d0).
  { intros d0 Hb Ht. split.
    - rewrite gate_result, Fu, Hb, Ht, Fb.
      rewrite (bool_decide_eq_false_2 _ Hdue). reflexivity.
    - unfold gate_store, topup_if_needed. unfold store_of at 1.
      rewrite topup_if_needed_sync_eq, Fu.
      unfold ensure_user. rewrite ensure_user_last_topup, ensure_user_balance, Hb, Ht, Fb.
      rewrite (bool_decide_eq_false_2 _ Hdue). reflexivity. }
  destruct (Hgate d eq_refl eq_refl) as [Hr Hg].
  assert (Hb' : balance (store_of (ensure_user u) d) u = balance d u)
    by apply ensure_user_balance.
  assert (Ht' : last_topup (store_of (ensure_user u) d) u = last_topup d u)
    by apply ensure_user_last_topup.
  split; [| split; [| split; [exact Hb' | split; [exact Ht' |]]]].
  - rewrite (num_cmd_raises ADMIN_IDS u arg0 rest today resp d _ Hvalid Hr), Hg.
    reflexivity.
  - rewrite credits_cmd_eq, Hr, Hg. reflexivity.
  - destruct (Hgate _ Hb' Ht') as [Hr' Hg'].
    rewrite (num_cmd_raises ADMIN_IDS u arg0 rest today resp _ _ Hvalid Hr'), Hg'.
    unfold ensure_user. destruct (ensure_user_is_Some d u Fu) as [row Hrow].
    rewrite (ensure_user_present _ _ _ Hrow). reflexivity.
Qed.

End GrantOverflow.

Lemma X26_grant_overflow_blocks_witness :
  let d := Db {[ 7 := UserRow INT64_MAX None ]} ∅ in
  num_cmd (text := ascii_text) [8455153833] 7 ["7986782429"%string] "2024-05-01"
    HttpRaises d = (Raises OverflowError, d) /\
  credits_cmd [8455153833] 7 "2024-05-01" d = (Raises OverflowError, d).
Proof.
  intros d.
  destruct (X26_grant_overflow_blocks (text := ascii_text) [8455153833] 7
              "7986782429" [] "2024-05-01" HttpRaises d)
    as (H1 & H2 & _); [reflexivity | discriminate | reflexivity | |].
  - vm_compute. apply list_elem_of_here.
  - split; [exact H1 | exact H2].
Defined.
